(** * Wake-word gating and speaker verification of the YouTube voice control

    A shallow embedding of the voice-control class of
    [chrome-extension/content.js] (class [YouTubeVoiceControl]): feature
    extraction, the five-layer speaker verification, phrase matching during
    enrollment, audio ducking, the wake-word command window and the
    cancellation of a training run.

    Conventions of the embedding.
    - A JavaScript number is an IEEE double; here it is a real number.  [NaN]
      and the infinities have no counterpart: every definition below is read
      on inputs where the script computes finite numbers.  Quantities that the
      script only ever builds from integers and one division (the character
      error rate of enrollment) are kept in [Q], where they compute.
    - A [Uint8Array] is a [list Z]; reading it out of range gives [None]
      (JavaScript: [undefined], which compares false with every number).
    - Strings are [string]s of 8-bit characters; [toLowerCase] acts on the
      ASCII letters.
    - A method of the class is a function on [State], the fields of [this]
      that the modelled methods read or write together with the part of the
      browser they act on (the pending timers, the volume of the video
      element, the closures of the recognition sessions).  A method that
      returns a value returns it paired with the state it leaves.
    - Writing to the console, the status overlay and the training panel is
      not modelled. *)

From Stdlib Require Import Reals Lra Lia ZArith QArith Qminmax Bool List String Ascii.
Import ListNotations.

Local Open Scope R_scope.

(** ** JavaScript operators on numbers *)

Module JS.

Definition geb (x y : R) : bool := if Rge_dec x y then true else false.
Definition gtb (x y : R) : bool := if Rgt_dec x y then true else false.
Definition ltb (x y : R) : bool := if Rlt_dec x y then true else false.
Definition leb (x y : R) : bool := if Rle_dec x y then true else false.
Definition eqb (x y : R) : bool := if Req_dec_T x y then true else false.

Definition Math_max (x y : R) : R := Rmax x y.
Definition Math_min (x y : R) : R := Rmin x y.
Definition Math_abs (x : R) : R := Rabs x.
Definition Math_exp (x : R) : R := exp x.
Definition Math_log (x : R) : R := ln x.
Definition Math_sqrt (x : R) : R := sqrt x.
Definition Math_floor (x : R) : Z := Zfloor x.
Definition Math_ceil (x : R) : Z := Zceil x.
Definition Math_round (x : R) : Z := Zfloor (x + 0.5).

(** [Math.pow(x, 2)], the only integer power the script takes. *)
Definition sq (x : R) : R := x ^ 2.

(** [Math.pow(x, y)] for a base [x > 0]. *)
Definition Math_pow (x y : R) : R := Rpower x y.

(** [a || b] on numbers: [b] when [a] is [0]. *)
Definition or_default (a b : R) : R := if eqb a 0 then b else a.

End JS.

(** ** Data model *)

Record Formant := mkFormant { frequency : R; magnitude : R }.

(** The object literal built by [captureVoiceFeatures]. *)
Module FeatureVector.
Record t := mk {
  fundamentalFreq : R;
  formants : list Formant;
  spectralCentroid : R;
  spectralRolloff : R;
  spectralFlux : R;
  spectralFlatness : R;
  mfcc : list R;
  zeroCrossingRate : R;
  energy : R;
  voicedRatio : R;
  harmonicRatio : R;
  transcript : string;
  timestamp : Z
}.
End FeatureVector.

(** The object literal built by [createVoiceprint]. *)
Module Voiceprint.
Record t := mk {
  fundamentalFreq : R;
  spectralCentroid : R;
  spectralRolloff : R;
  spectralFlux : R;
  spectralFlatness : R;
  zeroCrossingRate : R;
  energy : R;
  voicedRatio : R;
  harmonicRatio : R;
  mfcc : list R;
  formants : list Formant;
  fundamentalFreqStd : R;
  energyStd : R;
  spectralCentroidStd : R;
  sampleCount : nat;
  createdAt : Z
}.
End Voiceprint.

(** One entry of [layerResults]. *)
Record LayerResult := mkLayerResult {
  name : string;
  score : R;
  passed : bool;
  weight : R;
  threshold : R
}.

(** What reading a key of an object literal that holds numbers can give,
    [undefined] apart: the number stored under an own key, or a member that
    the literal inherits from [Object.prototype] (a function, or the
    prototype object itself). *)
Inductive Property :=
| Number (x : R)
| Inherited (key : string).

(** The two shapes of object that [multiLayerVerification] returns.  The
    threshold is [None] when it is [undefined]. *)
Record Verdict := mkVerdict {
  v_isVerified : bool;
  v_confidence : R;
  v_passedLayers : nat;
  v_totalLayers : nat;
  v_requiredLayers : Z;
  v_layers : list LayerResult;
  v_threshold : option Property;
  v_context : string
}.

Inductive VerificationResult :=
| Unavailable (reason : string)
| Decided (v : Verdict).

Definition isVerified (r : VerificationResult) : bool :=
  match r with Unavailable _ => false | Decided v => v_isVerified v end.

Definition confidence (r : VerificationResult) : R :=
  match r with Unavailable _ => 0 | Decided v => v_confidence v end.

Definition layers (r : VerificationResult) : list LayerResult :=
  match r with Unavailable _ => [] | Decided v => v_layers v end.

(** ** Timers and recognition sessions

    [setTimeout] and [setInterval] put a timer in the browser's list of
    pending timers; the handle they return identifies it for [clearTimeout]
    and [clearInterval].  The arrow function given to them is one of finitely
    many, so a callback is a constructor naming it. *)

Inductive Callback :=
| CbResetWakeWord                  (* processWakeWord:  this.resetWakeWord() *)
| CbStartListening                 (* recognition.onend, startListening *)
| CbInitializeEnrollment           (* startSpeakerEnrollment *)
| CbContinueEnrollment             (* initializeEnrollment, onresult, onend, advanceEnrollment *)
| CbStartEnrollmentListening       (* continueEnrollment *)
| CbAdvanceEnrollment              (* onresult, phrase matched *)
| CbCountdownTick (session : nat)  (* onstart, every second *)
| CbEnrollmentTimeout (session : nat)   (* onstart, 5 s *)
| CbProcessingTimeout (session : nat)   (* onstart, 8 s *)
| CbUpdateOverlayStatus            (* cancelTraining *)
| CbRemoveTrainingPanel.           (* hideTrainingPanel *)

Record Timer := mkTimer {
  tid : nat;
  delay : Z;            (* milliseconds *)
  repeats : bool;       (* setInterval *)
  callback : Callback
}.

(** The variables that the handlers of one enrollment recognition object
    close over ([let enrollmentTimeout], [let hasGotResult], [let timeLeft]),
    and whether [stop()] has been called on the object. *)
Record Session := mkSession {
  hasGotResult : bool;
  enrollmentTimeout : option nat;
  timeLeft : Z;
  stopped : bool
}.

(** ** The state of the controller *)

Record State := mkState {
  isListening : bool;
  isActive : bool;
  restartTimeout : option nat;
  wakeWordDetected : bool;
  wakeWordTimeout : option nat;
  originalVolume : R;
  isDucking : bool;
  (** [Some rate]: the analyser node exists, on an audio context of that
      sample rate; [None]: [this.analyser] is [null]. *)
  analyser : option R;
  voiceprint : option Voiceprint.t;
  enrollmentMode : bool;
  enrollmentSamples : list FeatureVector.t;
  enrollmentPhraseMatched : bool;
  currentEnrollmentPhrase : nat;
  currentSampleCount : nat;
  (** index into [sessions] of the object held in [this.enrollmentRecognition] *)
  enrollmentRecognition : option nat;
  enrollmentCountdownInterval : option nat;
  processingTimeout : option nat;
  trainingPanel : bool;
  (** volume of [document.querySelector('video')], [None] without a video *)
  video : option R;
  timers : list Timer;
  nextTimerId : nat;
  sessions : list Session
}.

Definition set_isListening (v : bool) (s : State) : State :=
  mkState v (isActive s) (restartTimeout s) (wakeWordDetected s)
    (wakeWordTimeout s) (originalVolume s) (isDucking s) (analyser s)
    (voiceprint s) (enrollmentMode s) (enrollmentSamples s)
    (enrollmentPhraseMatched s) (currentEnrollmentPhrase s)
    (currentSampleCount s) (enrollmentRecognition s)
    (enrollmentCountdownInterval s) (processingTimeout s) (trainingPanel s)
    (video s) (timers s) (nextTimerId s) (sessions s).

Definition set_isActive (v : bool) (s : State) : State :=
  mkState (isListening s) v (restartTimeout s) (wakeWordDetected s)
    (wakeWordTimeout s) (originalVolume s) (isDucking s) (analyser s)
    (voiceprint s) (enrollmentMode s) (enrollmentSamples s)
    (enrollmentPhraseMatched s) (currentEnrollmentPhrase s)
    (currentSampleCount s) (enrollmentRecognition s)
    (enrollmentCountdownInterval s) (processingTimeout s) (trainingPanel s)
    (video s) (timers s) (nextTimerId s) (sessions s).

Definition set_restartTimeout (v : option nat) (s : State) : State :=
  mkState (isListening s) (isActive s) v (wakeWordDetected s)
    (wakeWordTimeout s) (originalVolume s) (isDucking s) (analyser s)
    (voiceprint s) (enrollmentMode s) (enrollmentSamples s)
    (enrollmentPhraseMatched s) (currentEnrollmentPhrase s)
    (currentSampleCount s) (enrollmentRecognition s)
    (enrollmentCountdownInterval s) (processingTimeout s) (trainingPanel s)
    (video s) (timers s) (nextTimerId s) (sessions s).

Definition set_wakeWordDetected (v : bool) (s : State) : State :=
  mkState (isListening s) (isActive s) (restartTimeout s) v
    (wakeWordTimeout s) (originalVolume s) (isDucking s) (analyser s)
    (voiceprint s) (enrollmentMode s) (enrollmentSamples s)
    (enrollmentPhraseMatched s) (currentEnrollmentPhrase s)
    (currentSampleCount s) (enrollmentRecognition s)
    (enrollmentCountdownInterval s) (processingTimeout s) (trainingPanel s)
    (video s) (timers s) (nextTimerId s) (sessions s).

Definition set_wakeWordTimeout (v : option nat) (s : State) : State :=
  mkState (isListening s) (isActive s) (restartTimeout s) (wakeWordDetected s)
    v (originalVolume s) (isDucking s) (analyser s) (voiceprint s)
    (enrollmentMode s) (enrollmentSamples s) (enrollmentPhraseMatched s)
    (currentEnrollmentPhrase s) (currentSampleCount s)
    (enrollmentRecognition s) (enrollmentCountdownInterval s)
    (processingTimeout s) (trainingPanel s) (video s) (timers s)
    (nextTimerId s) (sessions s).

Definition set_originalVolume (v : R) (s : State) : State :=
  mkState (isListening s) (isActive s) (restartTimeout s) (wakeWordDetected s)
    (wakeWordTimeout s) v (isDucking s) (analyser s) (voiceprint s)
    (enrollmentMode s) (enrollmentSamples s) (enrollmentPhraseMatched s)
    (currentEnrollmentPhrase s) (currentSampleCount s)
    (enrollmentRecognition s) (enrollmentCountdownInterval s)
    (processingTimeout s) (trainingPanel s) (video s) (timers s)
    (nextTimerId s) (sessions s).

Definition set_isDucking (v : bool) (s : State) : State :=
  mkState (isListening s) (isActive s) (restartTimeout s) (wakeWordDetected s)
    (wakeWordTimeout s) (originalVolume s) v (analyser s) (voiceprint s)
    (enrollmentMode s) (enrollmentSamples s) (enrollmentPhraseMatched s)
    (currentEnrollmentPhrase s) (currentSampleCount s)
    (enrollmentRecognition s) (enrollmentCountdownInterval s)
    (processingTimeout s) (trainingPanel s) (video s) (timers s)
    (nextTimerId s) (sessions s).

Definition set_analyser (v : option R) (s : State) : State :=
  mkState (isListening s) (isActive s) (restartTimeout s) (wakeWordDetected s)
    (wakeWordTimeout s) (originalVolume s) (isDucking s) v (voiceprint s)
    (enrollmentMode s) (enrollmentSamples s) (enrollmentPhraseMatched s)
    (currentEnrollmentPhrase s) (currentSampleCount s)
    (enrollmentRecognition s) (enrollmentCountdownInterval s)
    (processingTimeout s) (trainingPanel s) (video s) (timers s)
    (nextTimerId s) (sessions s).

Definition set_voiceprint (v : option Voiceprint.t) (s : State) : State :=
  mkState (isListening s) (isActive s) (restartTimeout s) (wakeWordDetected s)
    (wakeWordTimeout s) (originalVolume s) (isDucking s) (analyser s) v
    (enrollmentMode s) (enrollmentSamples s) (enrollmentPhraseMatched s)
    (currentEnrollmentPhrase s) (currentSampleCount s)
    (enrollmentRecognition s) (enrollmentCountdownInterval s)
    (processingTimeout s) (trainingPanel s) (video s) (timers s)
    (nextTimerId s) (sessions s).

Definition set_enrollmentMode (v : bool) (s : State) : State :=
  mkState (isListening s) (isActive s) (restartTimeout s) (wakeWordDetected s)
    (wakeWordTimeout s) (originalVolume s) (isDucking s) (analyser s)
    (voiceprint s) v (enrollmentSamples s) (enrollmentPhraseMatched s)
    (currentEnrollmentPhrase s) (currentSampleCount s)
    (enrollmentRecognition s) (enrollmentCountdownInterval s)
    (processingTimeout s) (trainingPanel s) (video s) (timers s)
    (nextTimerId s) (sessions s).

Definition set_enrollmentSamples (v : list FeatureVector.t) (s : State) : State :=
  mkState (isListening s) (isActive s) (restartTimeout s) (wakeWordDetected s)
    (wakeWordTimeout s) (originalVolume s) (isDucking s) (analyser s)
    (voiceprint s) (enrollmentMode s) v (enrollmentPhraseMatched s)
    (currentEnrollmentPhrase s) (currentSampleCount s)
    (enrollmentRecognition s) (enrollmentCountdownInterval s)
    (processingTimeout s) (trainingPanel s) (video s) (timers s)
    (nextTimerId s) (sessions s).

Definition set_enrollmentPhraseMatched (v : bool) (s : State) : State :=
  mkState (isListening s) (isActive s) (restartTimeout s) (wakeWordDetected s)
    (wakeWordTimeout s) (originalVolume s) (isDucking s) (analyser s)
    (voiceprint s) (enrollmentMode s) (enrollmentSamples s) v
    (currentEnrollmentPhrase s) (currentSampleCount s)
    (enrollmentRecognition s) (enrollmentCountdownInterval s)
    (processingTimeout s) (trainingPanel s) (video s) (timers s)
    (nextTimerId s) (sessions s).

Definition set_currentEnrollmentPhrase (v : nat) (s : State) : State :=
  mkState (isListening s) (isActive s) (restartTimeout s) (wakeWordDetected s)
    (wakeWordTimeout s) (originalVolume s) (isDucking s) (analyser s)
    (voiceprint s) (enrollmentMode s) (enrollmentSamples s)
    (enrollmentPhraseMatched s) v (currentSampleCount s)
    (enrollmentRecognition s) (enrollmentCountdownInterval s)
    (processingTimeout s) (trainingPanel s) (video s) (timers s)
    (nextTimerId s) (sessions s).

Definition set_currentSampleCount (v : nat) (s : State) : State :=
  mkState (isListening s) (isActive s) (restartTimeout s) (wakeWordDetected s)
    (wakeWordTimeout s) (originalVolume s) (isDucking s) (analyser s)
    (voiceprint s) (enrollmentMode s) (enrollmentSamples s)
    (enrollmentPhraseMatched s) (currentEnrollmentPhrase s) v
    (enrollmentRecognition s) (enrollmentCountdownInterval s)
    (processingTimeout s) (trainingPanel s) (video s) (timers s)
    (nextTimerId s) (sessions s).

Definition set_enrollmentRecognition (v : option nat) (s : State) : State :=
  mkState (isListening s) (isActive s) (restartTimeout s) (wakeWordDetected s)
    (wakeWordTimeout s) (originalVolume s) (isDucking s) (analyser s)
    (voiceprint s) (enrollmentMode s) (enrollmentSamples s)
    (enrollmentPhraseMatched s) (currentEnrollmentPhrase s)
    (currentSampleCount s) v (enrollmentCountdownInterval s)
    (processingTimeout s) (trainingPanel s) (video s) (timers s)
    (nextTimerId s) (sessions s).

Definition set_enrollmentCountdownInterval (v : option nat) (s : State) : State :=
  mkState (isListening s) (isActive s) (restartTimeout s) (wakeWordDetected s)
    (wakeWordTimeout s) (originalVolume s) (isDucking s) (analyser s)
    (voiceprint s) (enrollmentMode s) (enrollmentSamples s)
    (enrollmentPhraseMatched s) (currentEnrollmentPhrase s)
    (currentSampleCount s) (enrollmentRecognition s) v (processingTimeout s)
    (trainingPanel s) (video s) (timers s) (nextTimerId s) (sessions s).

Definition set_processingTimeout (v : option nat) (s : State) : State :=
  mkState (isListening s) (isActive s) (restartTimeout s) (wakeWordDetected s)
    (wakeWordTimeout s) (originalVolume s) (isDucking s) (analyser s)
    (voiceprint s) (enrollmentMode s) (enrollmentSamples s)
    (enrollmentPhraseMatched s) (currentEnrollmentPhrase s)
    (currentSampleCount s) (enrollmentRecognition s)
    (enrollmentCountdownInterval s) v (trainingPanel s) (video s) (timers s)
    (nextTimerId s) (sessions s).

Definition set_trainingPanel (v : bool) (s : State) : State :=
  mkState (isListening s) (isActive s) (restartTimeout s) (wakeWordDetected s)
    (wakeWordTimeout s) (originalVolume s) (isDucking s) (analyser s)
    (voiceprint s) (enrollmentMode s) (enrollmentSamples s)
    (enrollmentPhraseMatched s) (currentEnrollmentPhrase s)
    (currentSampleCount s) (enrollmentRecognition s)
    (enrollmentCountdownInterval s) (processingTimeout s) v (video s)
    (timers s) (nextTimerId s) (sessions s).

Definition set_video (v : option R) (s : State) : State :=
  mkState (isListening s) (isActive s) (restartTimeout s) (wakeWordDetected s)
    (wakeWordTimeout s) (originalVolume s) (isDucking s) (analyser s)
    (voiceprint s) (enrollmentMode s) (enrollmentSamples s)
    (enrollmentPhraseMatched s) (currentEnrollmentPhrase s)
    (currentSampleCount s) (enrollmentRecognition s)
    (enrollmentCountdownInterval s) (processingTimeout s) (trainingPanel s) v
    (timers s) (nextTimerId s) (sessions s).

Definition set_timers (v : list Timer) (s : State) : State :=
  mkState (isListening s) (isActive s) (restartTimeout s) (wakeWordDetected s)
    (wakeWordTimeout s) (originalVolume s) (isDucking s) (analyser s)
    (voiceprint s) (enrollmentMode s) (enrollmentSamples s)
    (enrollmentPhraseMatched s) (currentEnrollmentPhrase s)
    (currentSampleCount s) (enrollmentRecognition s)
    (enrollmentCountdownInterval s) (processingTimeout s) (trainingPanel s)
    (video s) v (nextTimerId s) (sessions s).

Definition set_nextTimerId (v : nat) (s : State) : State :=
  mkState (isListening s) (isActive s) (restartTimeout s) (wakeWordDetected s)
    (wakeWordTimeout s) (originalVolume s) (isDucking s) (analyser s)
    (voiceprint s) (enrollmentMode s) (enrollmentSamples s)
    (enrollmentPhraseMatched s) (currentEnrollmentPhrase s)
    (currentSampleCount s) (enrollmentRecognition s)
    (enrollmentCountdownInterval s) (processingTimeout s) (trainingPanel s)
    (video s) (timers s) v (sessions s).

Definition set_sessions (v : list Session) (s : State) : State :=
  mkState (isListening s) (isActive s) (restartTimeout s) (wakeWordDetected s)
    (wakeWordTimeout s) (originalVolume s) (isDucking s) (analyser s)
    (voiceprint s) (enrollmentMode s) (enrollmentSamples s)
    (enrollmentPhraseMatched s) (currentEnrollmentPhrase s)
    (currentSampleCount s) (enrollmentRecognition s)
    (enrollmentCountdownInterval s) (processingTimeout s) (trainingPanel s)
    (video s) (timers s) (nextTimerId s) v.

(** Constants set by the constructor and never reassigned to another value. *)
Definition wakeWordWindow : Z := 4000.
Definition duckingVolume : R := 0.05.
Definition samplesPerPhrase : nat := 1.

Definition enrollmentPhrases : list string :=
  [ "YouTube pause"; "YouTube play"; "YouTube stop"; "YouTube resume";
    "YouTube mute"; "YouTube unmute";
    "YouTube skip"; "YouTube back"; "YouTube forward"; "YouTube restart";
    "YouTube faster"; "YouTube slower";
    "YouTube louder"; "YouTube quieter";
    "YouTube go to 30 seconds"; "YouTube jump to 2 minutes";
    "YouTube seek 1 hour";
    "YouTube find introduction"; "YouTube search tutorial" ]%string.

(** The state the constructor leaves.  Handles start at 1: the script tests
    a handle for truth before it clears it. *)
Definition initialState : State :=
  mkState false false None false None 1.0 false None None false [] false
    0 0 None None None false None [] 1 [].

(** *** The browser's timer table *)

Definition setTimer (d : Z) (rep : bool) (cb : Callback) (s : State) : nat * State :=
  let id := nextTimerId s in
  (id, set_nextTimerId (S id) (set_timers (timers s ++ [mkTimer id d rep cb]) s)).

Definition setTimeout (cb : Callback) (d : Z) (s : State) : nat * State :=
  setTimer d false cb s.

Definition setInterval (cb : Callback) (d : Z) (s : State) : nat * State :=
  setTimer d true cb s.

(** [clearTimeout(h)] and [clearInterval(h)]; a handle that names no pending
    timer is ignored. *)
Definition clearTimer (h : nat) (s : State) : State :=
  set_timers (filter (fun t => negb (tid t =? h)%nat) (timers s)) s.

(** [if (h) clearTimeout(h)], and [clearTimeout(h)] on a handle that may be
    [undefined] or [null]: both leave the table alone without a handle. *)
Definition clearHandle (h : option nat) (s : State) : State :=
  match h with Some id => clearTimer id s | None => s end.

(** ** Feature extraction

    [analyser.getByteFrequencyData] and [getByteTimeDomainData] fill two
    [Uint8Array]s of [frequencyBinCount] entries; with the clock they are
    what [captureVoiceFeatures] reads from outside the object. *)

Record Env := mkEnv {
  frequencyData : list Z;
  timeDomainData : list Z;
  now : Z                      (* Date.now() *)
}.

Section FeatureExtraction.

Import JS.

(** [a[i]]: [None] stands for [undefined]. *)
Definition get (a : list Z) (i : Z) : option Z :=
  if (i <? 0)%Z then None else nth_error a (Z.to_nat i).

(** [x > y] where either side may be [undefined]. *)
Definition gt (x y : option Z) : bool :=
  match x, y with
  | Some a, Some b => (b <? a)%Z
  | _, _ => false
  end.

(** The integers [lo, lo+1, ..., hi-1] that [for (let i = lo; i < hi; i++)]
    runs through. *)
Definition range (lo hi : Z) : list Z :=
  map (fun k => (lo + Z.of_nat k)%Z) (seq 0 (Z.to_nat (hi - lo))).

Definition len (a : list Z) : R := IZR (Z.of_nat (List.length a)).

(** The pairs [(a[i-1], a[i])] for [i = 1, 2, ...]. *)
Fixpoint adjacent (a : list Z) : list (Z * Z) :=
  match a with
  | x :: ((y :: _) as a') => (x, y) :: adjacent a'
  | _ => []
  end.

(** The pairs [(i, a[i])] for [i = 0, 1, ...]. *)
Definition indexed (a : list Z) : list (Z * Z) :=
  combine (range 0 (Z.of_nat (List.length a))) a.

Definition total (a : list Z) : R :=
  fold_left (fun sum val => sum + IZR val) a 0.

Record Peak := mkPeak { bin : Z; peakFrequency : R; peakMagnitude : Z }.

(** [peaks.sort((a, b) => b.magnitude - a.magnitude)]: decreasing magnitude,
    peaks of equal magnitude in the order they were found. *)
Fixpoint insertPeak (p : Peak) (l : list Peak) : list Peak :=
  match l with
  | [] => [p]
  | q :: l' =>
      if (peakMagnitude q <=? peakMagnitude p)%Z then p :: l
      else q :: insertPeak p l'
  end.

Definition sortPeaks (peaks : list Peak) : list Peak :=
  fold_right insertPeak [] peaks.

Definition extractFundamentalFrequency (sampleRate : R) (frequencyData : list Z) : R :=
  let nyquist := sampleRate / 2 in
  let minF0 := 80 in
  let maxF0 := 400 in
  let startBin := Math_floor (minF0 * len frequencyData / nyquist) in
  let endBin := Math_floor (maxF0 * len frequencyData / nyquist) in
  let peaks :=
    flat_map
      (fun i =>
         if gt (get frequencyData i) (get frequencyData (i - 1))
            && gt (get frequencyData i) (get frequencyData (i + 1))
            && gt (get frequencyData i) (Some 30%Z)
         then match get frequencyData i with
              | Some m => [mkPeak i (IZR i * nyquist / len frequencyData) m]
              | None => []
              end
         else [])
      (range (startBin + 1) (endBin - 1)) in
  match sortPeaks peaks with
  | p :: _ => peakFrequency p
  | [] => 0
  end.

Definition formantRanges : list (R * R) :=
  [ (300, 1000); (800, 2500); (1500, 3500) ].

Definition extractFormants (sampleRate : R) (frequencyData : list Z) : list Formant :=
  let nyquist := sampleRate / 2 in
  map
    (fun '(rmin, rmax) =>
       let startBin := Math_floor (rmin * len frequencyData / nyquist) in
       let endBin := Math_floor (rmax * len frequencyData / nyquist) in
       let '(maxMagnitude, maxBin) :=
         fold_left
           (fun '(maxMagnitude, maxBin) i =>
              if gt (get frequencyData i) (Some maxMagnitude)
              then (match get frequencyData i with Some m => m | None => maxMagnitude end, i)
              else (maxMagnitude, maxBin))
           (range startBin endBin) (0%Z, startBin) in
       mkFormant (IZR maxBin * nyquist / len frequencyData) (IZR maxMagnitude))
    formantRanges.

Definition calculateSpectralCentroid (sampleRate : R) (frequencyData : list Z) : R :=
  let '(numerator, denominator) :=
    fold_left
      (fun '(numerator, denominator) '(i, x) =>
         let freq := IZR i * (sampleRate / 2) / len frequencyData in
         (numerator + freq * IZR x, denominator + IZR x))
      (indexed frequencyData) (0, 0) in
  if gtb denominator 0 then numerator / denominator else 0.

Fixpoint rolloffLoop (sampleRate n threshold cumulativeEnergy : R) (a : list (Z * Z)) : R :=
  match a with
  | [] => 0
  | (i, x) :: a' =>
      let cumulativeEnergy := cumulativeEnergy + IZR x in
      if geb cumulativeEnergy threshold then IZR i * (sampleRate / 2) / n
      else rolloffLoop sampleRate n threshold cumulativeEnergy a'
  end.

Definition calculateSpectralRolloff (sampleRate : R) (frequencyData : list Z) : R :=
  let totalEnergy := total frequencyData in
  let threshold := totalEnergy * 0.85 in
  rolloffLoop sampleRate (len frequencyData) threshold 0 (indexed frequencyData).

(** [sum += frequencyData[i]] for [i] from [lo] to [hi - 1]; the bands of
    [calculateMFCC] stay inside the array. *)
Definition bandSum (frequencyData : list Z) (lo hi : Z) : R :=
  fold_left
    (fun sum i => sum + match get frequencyData i with Some x => IZR x | None => 0 end)
    (range lo hi) 0.

Definition calculateMFCC (frequencyData : list Z) : list R :=
  let melBands := 13%Z in
  map
    (fun m =>
       let start := Math_floor (IZR m * len frequencyData / IZR melBands) in
       let end_ := Math_floor (IZR (m + 1) * len frequencyData / IZR melBands) in
       Math_log (bandSum frequencyData start end_ + 1))
    (range 0 melBands).

Definition calculateZeroCrossingRate (timeDomainData : list Z) : R :=
  let midpoint := 128%Z in
  let crossings :=
    fold_left
      (fun crossings '(prev, cur) =>
         if ((prev - midpoint) * (cur - midpoint) <? 0)%Z then crossings + 1
         else crossings)
      (adjacent timeDomainData) 0 in
  crossings / len timeDomainData.

Definition calculateEnergy (timeDomainData : list Z) : R :=
  let energy :=
    fold_left
      (fun energy x =>
         let sample := (IZR x - 128) / 128 in
         energy + sample * sample)
      timeDomainData 0 in
  energy / len timeDomainData.

Definition calculateSpectralFlux (frequencyData : list Z) : R :=
  let flux :=
    fold_left
      (fun flux '(prev, cur) =>
         let diff := IZR cur - IZR prev in
         flux + diff * diff)
      (adjacent frequencyData) 0 in
  Math_sqrt (flux / len frequencyData).

(** One turn of the loop of [calculateSpectralFlatness] on the running
    [geometricMean], [arithmeticMean] and [count]. *)
Definition flatnessStep (n : R) (acc : R * R * nat) (x : Z) : R * R * nat :=
  let '(geometricMean, arithmeticMean, count) := acc in
  if (0 <? x)%Z
  then (geometricMean * Math_pow (IZR x) (1.0 / n), arithmeticMean + IZR x, S count)
  else acc.

(** The loop starts at index 1. *)
Definition calculateSpectralFlatness (frequencyData : list Z) : R :=
  let '(geometricMean, arithmeticMean, count) :=
    fold_left (flatnessStep (len frequencyData)) (tl frequencyData) (1, 0, 0%nat) in
  let arithmeticMean := arithmeticMean / INR count in
  if (0 <? count)%nat then geometricMean / arithmeticMean else 0.

Definition calculateVoicedRatio (sampleRate : R) (frequencyData : list Z) : R :=
  let nyquist := sampleRate / 2 in
  let '(harmonicEnergy, totalEnergy) :=
    fold_left
      (fun '(harmonicEnergy, totalEnergy) '(i, x) =>
         let freq := IZR i * nyquist / len frequencyData in
         let totalEnergy := totalEnergy + IZR x in
         if geb freq 100 && leb freq 1000
         then (harmonicEnergy + IZR x, totalEnergy)
         else (harmonicEnergy, totalEnergy))
      (indexed frequencyData) (0, 0) in
  if gtb totalEnergy 0 then harmonicEnergy / totalEnergy else 0.

(** The loop over [harmonic = 1 .. 8] with its [break]. *)
Fixpoint harmonicLoop (f0 nyquist : R) (frequencyData : list Z)
    (harmonics : list Z) (harmonicSum : R) : R :=
  match harmonics with
  | [] => harmonicSum
  | harmonic :: rest =>
      let harmonicFreq := f0 * IZR harmonic in
      if gtb harmonicFreq nyquist then harmonicSum
      else
        let bin := Math_round (harmonicFreq * len frequencyData / nyquist) in
        let harmonicSum :=
          if (bin <? Z.of_nat (List.length frequencyData))%Z
          then harmonicSum + match get frequencyData bin with Some x => IZR x | None => 0 end
          else harmonicSum in
        harmonicLoop f0 nyquist frequencyData rest harmonicSum
  end.

Definition calculateHarmonicRatio (sampleRate : R) (frequencyData : list Z) : R :=
  let f0 := extractFundamentalFrequency sampleRate frequencyData in
  if ltb f0 50 then 0
  else
    let nyquist := sampleRate / 2 in
    let harmonicSum := harmonicLoop f0 nyquist frequencyData (range 1 9) 0 in
    let totalSum := total frequencyData in
    if gtb totalSum 0 then harmonicSum / totalSum else 0.

(** The object literal of [captureVoiceFeatures]. *)
Definition extractFeatures (sampleRate : R) (env : Env) (transcript : string)
  : FeatureVector.t :=
  FeatureVector.mk
    (extractFundamentalFrequency sampleRate (frequencyData env))
    (extractFormants sampleRate (frequencyData env))
    (calculateSpectralCentroid sampleRate (frequencyData env))
    (calculateSpectralRolloff sampleRate (frequencyData env))
    (calculateSpectralFlux (frequencyData env))
    (calculateSpectralFlatness (frequencyData env))
    (calculateMFCC (frequencyData env))
    (calculateZeroCrossingRate (timeDomainData env))
    (calculateEnergy (timeDomainData env))
    (calculateVoicedRatio sampleRate (frequencyData env))
    (calculateHarmonicRatio sampleRate (frequencyData env))
    transcript
    (now env).

Definition captureVoiceFeatures (env : Env) (transcript : string) (isEnrollment : bool)
    (s : State) : option FeatureVector.t * State :=
  match analyser s with
  | None => (None, s)
  | Some sampleRate =>
      let features := extractFeatures sampleRate env transcript in
      let s := if isEnrollment
               then set_enrollmentSamples (enrollmentSamples s ++ [features]) s
               else s in
      (Some features, s)
  end.

End FeatureExtraction.

(** ** Speaker verification *)

Section Verification.

Import JS.

Definition calculateFrequencySimilarity (currentF0 voiceprintF0 stdDev : R) : R :=
  if eqb currentF0 0 || eqb voiceprintF0 0 then 0
  else
    let difference := Math_abs (currentF0 - voiceprintF0) in
    let tolerance := Math_max (stdDev * 2) 20 in
    let similarity := Math_exp (- sq (difference / tolerance)) in
    Math_max 0 (Math_min 1 similarity).

Definition formantWeights : list R := [0.4; 0.4; 0.2].

(** The loop of [calculateFormantSimilarity] over [i = 0, 1, ...].  The
    script reads [formantWeights[i]]; from the fourth formant on that is
    [undefined] and the sum is [NaN].  [extractFormants] and
    [averageFormants] build three formants, and the loop here stops with the
    weights. *)
Fixpoint formantLoop (cur vp : list Formant) (ws : list R) (totalSimilarity : R) : R :=
  match cur, vp, ws with
  | c :: cur', v :: vp', w :: ws' =>
      let currentFreq := frequency c in
      let voiceprintFreq := frequency v in
      if eqb currentFreq 0 || eqb voiceprintFreq 0
      then formantLoop cur' vp' ws' totalSimilarity
      else
        let difference := Math_abs (currentFreq - voiceprintFreq) in
        let tolerance := voiceprintFreq * 0.15 in
        let similarity := Math_exp (- sq (difference / tolerance)) in
        formantLoop cur' vp' ws' (totalSimilarity + similarity * w)
  | _, _, _ => totalSimilarity
  end.

Definition calculateFormantSimilarity (currentFormants voiceprintFormants : list Formant) : R :=
  if negb (List.length currentFormants =? List.length voiceprintFormants)%nat then 0
  else Math_max 0 (Math_min 1 (formantLoop currentFormants voiceprintFormants formantWeights 0)).

(** An entry of the [spectralFeatures] and [voiceFeatures] arrays. *)
Record Compared := mkCompared { current : R; stored : R; tolerance : R }.

Definition gaussian (f : Compared) : R :=
  let difference := Math_abs (current f - stored f) in
  Math_exp (- sq (difference / tolerance f)).

(** The running pair [totalSimilarity], [validFeatures] of the two loops
    below, one step per entry, and the quotient taken at the end. *)
Definition spectralStep (acc : R * nat) (feature : Compared) : R * nat :=
  if eqb (current feature) 0 || eqb (stored feature) 0 then acc
  else (fst acc + gaussian feature, S (snd acc)).

Definition voiceStep (acc : R * nat) (feature : Compared) : R * nat :=
  (fst acc + gaussian feature, S (snd acc)).

Definition mean_of (acc : R * nat) : R :=
  let totalSimilarity := fst acc in
  let validFeatures := snd acc in
  if (0 <? validFeatures)%nat then totalSimilarity / INR validFeatures else 0.

Definition calculateSpectralSimilarity (vp : Voiceprint.t) (currentFeatures : FeatureVector.t) : R :=
  let spectralFeatures :=
    [ mkCompared (FeatureVector.spectralCentroid currentFeatures) (Voiceprint.spectralCentroid vp) 500;
      mkCompared (FeatureVector.spectralRolloff currentFeatures) (Voiceprint.spectralRolloff vp) 1000;
      mkCompared (FeatureVector.spectralFlux currentFeatures) (Voiceprint.spectralFlux vp) 10;
      mkCompared (FeatureVector.spectralFlatness currentFeatures) (Voiceprint.spectralFlatness vp) 0.1 ] in
  mean_of (fold_left spectralStep spectralFeatures (0, 0%nat)).

Definition calculateVoiceSimilarity (vp : Voiceprint.t) (currentFeatures : FeatureVector.t) : R :=
  let voiceFeatures :=
    [ mkCompared (FeatureVector.voicedRatio currentFeatures) (Voiceprint.voicedRatio vp) 0.2;
      mkCompared (FeatureVector.harmonicRatio currentFeatures) (Voiceprint.harmonicRatio vp) 0.2;
      mkCompared (FeatureVector.zeroCrossingRate currentFeatures) (Voiceprint.zeroCrossingRate vp) 0.05 ] in
  mean_of (fold_left voiceStep voiceFeatures (0, 0%nat)).

Definition verifyEnergyPattern (vp : Voiceprint.t) (currentFeatures : FeatureVector.t) : R :=
  let currentEnergy := FeatureVector.energy currentFeatures in
  let voiceprintEnergy := Voiceprint.energy vp in
  let energyStd := or_default (Voiceprint.energyStd vp) 0.1 in
  if eqb currentEnergy 0 || eqb voiceprintEnergy 0 then 0
  else
    let energyDiff := Math_abs (currentEnergy - voiceprintEnergy) in
    let tolerance := Math_max (energyStd * 2) 0.05 in
    let energySimilarity := Math_exp (- sq (energyDiff / tolerance)) in
    let zcrDiff := Math_abs (FeatureVector.zeroCrossingRate currentFeatures
                             - Voiceprint.zeroCrossingRate vp) in
    let zcrTolerance := 0.05 in
    let zcrSimilarity := Math_exp (- sq (zcrDiff / zcrTolerance)) in
    energySimilarity * 0.6 + zcrSimilarity * 0.4.

(** The [layers] table: name, weight, threshold. *)
Definition layerTable : list (string * R * R) :=
  [ ("Energy Pattern"%string, 0.15, 0.4);
    ("Fundamental Frequency"%string, 0.25, 0.5);
    ("Formant Structure"%string, 0.25, 0.45);
    ("Spectral Signature"%string, 0.20, 0.4);
    ("Voice Characteristics"%string, 0.15, 0.45) ].

Definition layerAt (i : nat) : string * R * R :=
  nth i layerTable (EmptyString, 0, 0).

(** [layerResults.push({...})] for layer [i] together with the two running
    totals. *)
Definition pushLayer (i : nat) (layerScore : R) (acc : list LayerResult * R * R)
  : list LayerResult * R * R :=
  let '(layerResults, totalWeightedScore, totalWeight) := acc in
  let '(nm, w, th) := layerAt i in
  (layerResults ++ [mkLayerResult nm layerScore (geb layerScore th) w th],
   totalWeightedScore + layerScore * w,
   totalWeight + w).

(** The own keys of [contextThresholds]. *)
Definition contextThresholds : list (string * R) :=
  [ ("wake_word"%string, 0.45); ("command"%string, 0.40); ("general"%string, 0.35) ].

Fixpoint lookup (k : string) (m : list (string * R)) : option R :=
  match m with
  | [] => None
  | (k', v) :: m' => if String.eqb k k' then Some v else lookup k m'
  end.

(** The names that an object literal inherits from [Object.prototype]:
    eleven functions and the accessor [__proto__], which gives the prototype
    object. *)
Definition objectPrototype : list string :=
  [ "constructor"; "__defineGetter__"; "__defineSetter__"; "hasOwnProperty";
    "__lookupGetter__"; "__lookupSetter__"; "isPrototypeOf";
    "propertyIsEnumerable"; "toString"; "valueOf"; "__proto__";
    "toLocaleString" ]%string.

Definition inherited (key : string) : bool :=
  existsb (String.eqb key) objectPrototype.

(** [contextThresholds[key]]: the own keys first, then the prototype;
    [None] is [undefined]. *)
Definition getThreshold (key : string) : option Property :=
  match lookup key contextThresholds with
  | Some v => Some (Number v)
  | None => if inherited key then Some (Inherited key) else None
  end.

(** Every function and every object is truthy; a number is unless it is 0. *)
Definition truthy (p : Property) : bool :=
  match p with
  | Number x => negb (eqb x 0)
  | Inherited _ => true
  end.

(** [contextThresholds[context] || contextThresholds['general']] *)
Definition requiredThresholdOf (context : string) : option Property :=
  match getThreshold context with
  | Some p => if truthy p then Some p else getThreshold "general"
  | None => getThreshold "general"
  end.

(** [x >= requiredThreshold]: a function, an object and [undefined] turn
    into [NaN] as numbers, and every comparison with [NaN] is false. *)
Definition reaches (x : R) (requiredThreshold : option Property) : bool :=
  match requiredThreshold with
  | Some (Number y) => geb x y
  | _ => false
  end.

Definition multiLayerVerification (currentFeatures : option FeatureVector.t)
    (context : string) (s : State) : VerificationResult * State :=
  match voiceprint s, currentFeatures with
  | Some vp, Some cf =>
      let acc0 : list LayerResult * R * R := ([], 0, 0) in
      let energyScore := verifyEnergyPattern vp cf in
      let acc1 := pushLayer 0 energyScore acc0 in
      let f0Score := calculateFrequencySimilarity (FeatureVector.fundamentalFreq cf)
                       (Voiceprint.fundamentalFreq vp) (Voiceprint.fundamentalFreqStd vp) in
      let acc2 := pushLayer 1 f0Score acc1 in
      let formantScore := calculateFormantSimilarity (FeatureVector.formants cf)
                            (Voiceprint.formants vp) in
      let acc3 := pushLayer 2 formantScore acc2 in
      let spectralScore := calculateSpectralSimilarity vp cf in
      let acc4 := pushLayer 3 spectralScore acc3 in
      let voiceScore := calculateVoiceSimilarity vp cf in
      let '(layerResults, totalWeightedScore, totalWeight) := pushLayer 4 voiceScore acc4 in
      let overallConfidence :=
        if gtb totalWeight 0 then totalWeightedScore / totalWeight else 0 in
      let requiredThreshold := requiredThresholdOf context in
      let passedLayers := List.length (filter passed layerResults) in
      let requiredLayers := Math_ceil (INR (List.length layerTable) * 0.4) in
      let isVerified :=
        reaches overallConfidence requiredThreshold
        && (requiredLayers <=? Z.of_nat passedLayers)%Z in
      (Decided (mkVerdict isVerified overallConfidence passedLayers (List.length layerTable)
                  requiredLayers layerResults requiredThreshold context), s)
  | _, _ => (Unavailable "No voiceprint available", s)
  end.

End Verification.

(** ** JavaScript operations on strings *)

Module JSString.

(** The characters that [trim] removes and that [\s] matches, among the
    characters below 256. *)
Definition isWhitespace (c : ascii) : bool :=
  let n := nat_of_ascii c in
  ((9 <=? n) && (n <=? 13) || (n =? 32) || (n =? 160))%nat.

Definition lowerChar (c : ascii) : ascii :=
  let n := nat_of_ascii c in
  if ((65 <=? n) && (n <=? 90))%nat then ascii_of_nat (n + 32) else c.

Fixpoint toLowerCase (s : string) : string :=
  match s with
  | EmptyString => EmptyString
  | String c s' => String (lowerChar c) (toLowerCase s')
  end.

Fixpoint trimStart (s : string) : string :=
  match s with
  | String c s' => if isWhitespace c then trimStart s' else s
  | EmptyString => EmptyString
  end.

Fixpoint rev (s acc : string) : string :=
  match s with
  | EmptyString => acc
  | String c s' => rev s' (String c acc)
  end.

Definition trimEnd (s : string) : string :=
  rev (trimStart (rev s EmptyString)) EmptyString.

Definition trim (s : string) : string := trimEnd (trimStart s).

(** [s.split(/\s+/)]: the pieces between the maximal runs of whitespace;
    a run at either end leaves an empty piece there. *)
Fixpoint splitLoop (s piece : string) (inRun : bool) : list string :=
  match s with
  | EmptyString => [piece]
  | String c s' =>
      if isWhitespace c
      then if inRun then splitLoop s' piece true
           else piece :: splitLoop s' EmptyString true
      else splitLoop s' (piece ++ String c EmptyString) false
  end.

Definition split_whitespace (s : string) : list string :=
  splitLoop s EmptyString false.

(** [s.includes(sub)] *)
Fixpoint includes (sub s : string) : bool :=
  String.prefix sub s
  || match s with
     | EmptyString => false
     | String _ s' => includes sub s'
     end.

Fixpoint drop (n : nat) (s : string) : string :=
  match n, s with
  | S n', String _ s' => drop n' s'
  | _, _ => s
  end.

(** [s.replace(sub, by)] with a string pattern: the first occurrence only. *)
Fixpoint replace (sub by_ s : string) : string :=
  if String.prefix sub s then by_ ++ drop (String.length sub) s
  else match s with
       | EmptyString => EmptyString
       | String c s' => String c (replace sub by_ s')
       end.

End JSString.

(** ** Phrase matching *)

Section PhraseSimilarity.

Import JSString.

(** Row [j] of the matrix of [levenshteinDistance] from row [j-1].
    [levRow str1 c prev left] is [matrix[j][i..]] when [prev] is
    [matrix[j-1][i-1..]], [left] is [matrix[j][i-1]] and [c] is [str2[j-1]]. *)
Fixpoint levRow (str1 : list ascii) (c : ascii) (prev : list nat) (left : nat) : list nat :=
  match str1, prev with
  | c1 :: str1', diag :: ((up :: _) as prev') =>
      let substitutionCost := if Ascii.eqb c1 c then 0%nat else 1%nat in
      let cell := Nat.min (Nat.min (left + 1) (up + 1)) (diag + substitutionCost) in
      cell :: levRow str1' c prev' cell
  | _, _ => []
  end.

Fixpoint levRows (str1 str2 : list ascii) (prev : list nat) (j : nat) : list nat :=
  match str2 with
  | [] => prev
  | c :: str2' => levRows str1 str2' (j :: levRow str1 c prev j) (S j)
  end.

Definition levenshteinDistance (str1 str2 : string) : nat :=
  let s1 := list_ascii_of_string str1 in
  let s2 := list_ascii_of_string str2 in
  last (levRows s1 s2 (seq 0 (S (List.length s1))) 1) 0%nat.

Definition ofNat (n : nat) : Q := inject_Z (Z.of_nat n).

Definition calculateCER (spoken expected : string) : Q :=
  let distance := levenshteinDistance spoken expected in
  let cer := (ofNat distance / ofNat (Nat.max (String.length expected) 1))%Q in
  Qmin cer 1.

Definition calculatePhraseSimilarity (spoken expected : string) : Q :=
  let cer := calculateCER (trim (toLowerCase spoken)) (trim (toLowerCase expected)) in
  (1 - cer)%Q.

End PhraseSimilarity.

(** ** Enrollment *)

Section Enrollment.

Import JSString.

(** [completeEnrollment] builds and stores the voiceprint and hands control
    back to the wake-word loop; it lies outside what is stated here. *)
Variable completeEnrollment : State -> State.

Definition updateSession (sid : nat) (f : Session -> Session) (s : State) : State :=
  set_sessions
    (map (fun '(i, x) => if (i =? sid)%nat then f x else x)
         (combine (seq 0 (List.length (sessions s))) (sessions s)))
    s.

Definition session (sid : nat) (s : State) : option Session :=
  nth_error (sessions s) sid.

(** [this.enrollmentRecognition.stop()] *)
Definition stopEnrollmentRecognition (s : State) : State :=
  match enrollmentRecognition s with
  | Some sid =>
      updateSession sid
        (fun x => mkSession (hasGotResult x) (enrollmentTimeout x) (timeLeft x) true) s
  | None => s
  end.

Definition set_hasGotResult (b : bool) (x : Session) : Session :=
  mkSession b (enrollmentTimeout x) (timeLeft x) (stopped x).

Definition set_enrollmentTimeout (h : option nat) (x : Session) : Session :=
  mkSession (hasGotResult x) h (timeLeft x) (stopped x).

Definition set_timeLeft (n : Z) (x : Session) : Session :=
  mkSession (hasGotResult x) (enrollmentTimeout x) n (stopped x).

Definition hideTrainingPanel (s : State) : State :=
  if trainingPanel s then snd (setTimeout CbRemoveTrainingPanel 300 s) else s.

Definition cancelTraining (s : State) : State :=
  let s := stopEnrollmentRecognition s in
  let s := clearHandle (enrollmentCountdownInterval s) s in
  let s := set_enrollmentMode false s in
  let s := set_isActive false s in
  let s := hideTrainingPanel s in
  snd (setTimeout CbUpdateOverlayStatus 2000 s).

(** [initializeEnrollment] also switches the voice-activity loop off
    ([voiceDetectionActive]), which is not part of [State]. *)
Definition initializeEnrollment (s : State) : State :=
  let s := set_enrollmentSamples [] s in
  let s := set_currentEnrollmentPhrase 0 s in
  let s := set_currentSampleCount 0 s in
  let s := set_isActive false s in
  let s := set_wakeWordDetected false s in
  let s := set_trainingPanel true s in
  snd (setTimeout CbContinueEnrollment 2000 s).

Definition startSpeakerEnrollment (s : State) : State :=
  let s := set_isActive false s in
  let s := set_enrollmentMode true s in
  if isListening s then snd (setTimeout CbInitializeEnrollment 500 s)
  else initializeEnrollment s.

Definition continueEnrollment (s : State) : State :=
  if (List.length enrollmentPhrases <=? currentEnrollmentPhrase s)%nat
  then completeEnrollment s
  else snd (setTimeout CbStartEnrollmentListening 1500 s).

(** A new recognition object with its own closure; [start()] is answered
    later by the [onstart] event. *)
Definition startEnrollmentListening (s : State) : State :=
  let sid := List.length (sessions s) in
  let s := set_sessions (sessions s ++ [mkSession false None 0 false]) s in
  set_enrollmentRecognition (Some sid) s.

Definition advanceEnrollment (s : State) : State :=
  let s := set_currentSampleCount (S (currentSampleCount s)) s in
  if (samplesPerPhrase <=? currentSampleCount s)%nat
  then
    let s := set_currentEnrollmentPhrase (S (currentEnrollmentPhrase s)) s in
    let s := set_currentSampleCount 0 s in
    if (List.length enrollmentPhrases <=? currentEnrollmentPhrase s)%nat
    then completeEnrollment s
    else snd (setTimeout CbContinueEnrollment 2000 s)
  else snd (setTimeout CbContinueEnrollment 1000 s).

(** *** The handlers of the enrollment recognition object [sid] *)

Definition enrollment_onstart (sid : nat) (s : State) : State :=
  let s := updateSession sid (set_timeLeft 5) s in
  let '(h, s) := setInterval (CbCountdownTick sid) 1000 s in
  let s := set_enrollmentCountdownInterval (Some h) s in
  let '(h, s) := setTimeout (CbEnrollmentTimeout sid) 5000 s in
  let s := updateSession sid (set_enrollmentTimeout (Some h)) s in
  let '(h, s) := setTimeout (CbProcessingTimeout sid) 8000 s in
  set_processingTimeout (Some h) s.

Definition countdownTick (sid : nat) (s : State) : State :=
  match session sid s with
  | None => s
  | Some x =>
      if hasGotResult x then clearHandle (enrollmentCountdownInterval s) s
      else
        let s := updateSession sid (set_timeLeft (timeLeft x - 1)) s in
        if (0 <? timeLeft x - 1)%Z then s
        else clearHandle (enrollmentCountdownInterval s) s
  end.

Definition enrollmentTimeoutFired (sid : nat) (s : State) : State :=
  match session sid s with
  | None => s
  | Some x =>
      if negb (hasGotResult x)
      then stopEnrollmentRecognition (clearHandle (enrollmentCountdownInterval s) s)
      else s
  end.

Definition processingTimeoutFired (sid : nat) (s : State) : State :=
  match session sid s with
  | None => s
  | Some x =>
      if hasGotResult x && negb (enrollmentPhraseMatched s)
      then stopEnrollmentRecognition s
      else s
  end.

(** What [onresult] computes from the trimmed transcript and the phrase. *)
Definition expectedWordCountOf (expectedPhrase : string) : nat :=
  List.length (split_whitespace expectedPhrase).

Definition passesGate (transcript expectedPhrase : string) (x : Session) : bool :=
  let expectedWordCount := expectedWordCountOf expectedPhrase in
  let currentWordCount := List.length (split_whitespace (trim transcript)) in
  let hasEnoughWords := (expectedWordCount <=? currentWordCount)%nat in
  let isLongEnough :=
    Qle_bool (ofNat (String.length expectedPhrase) * 0.7) (ofNat (String.length transcript)) in
  (hasEnoughWords || isLongEnough)
  && (2 <=? String.length transcript)%nat
  && negb (hasGotResult x).

Definition phraseMatches (transcript expectedPhrase : string) : bool :=
  let similarity := calculatePhraseSimilarity (toLowerCase transcript) expectedPhrase in
  let requiredSimilarity :=
    if (expectedWordCountOf expectedPhrase <=? 3)%nat then 0.8%Q else 0.7%Q in
  Qle_bool requiredSimilarity similarity.

(** [onresult]; [heard] is [lastResult[0].transcript].  A current phrase
    index past the end of the phrase list makes the script throw before it
    has changed anything. *)
Definition enrollment_onresult (sid : nat) (env : Env) (heard : string) (s : State) : State :=
  let transcript := trim heard in
  match nth_error enrollmentPhrases (currentEnrollmentPhrase s), session sid s with
  | Some phrase, Some x =>
      let expectedPhrase := toLowerCase phrase in
      if passesGate transcript expectedPhrase x then
        let s := clearHandle (enrollmentTimeout x) s in
        let s := clearHandle (enrollmentCountdownInterval s) s in
        let s := clearHandle (processingTimeout s) s in
        let s := updateSession sid (set_hasGotResult true) s in
        if phraseMatches transcript expectedPhrase then
          let s := stopEnrollmentRecognition s in
          let s := set_enrollmentPhraseMatched true s in
          let s := snd (captureVoiceFeatures env transcript true s) in
          snd (setTimeout CbAdvanceEnrollment 800 s)
        else
          let s := stopEnrollmentRecognition s in
          let s := set_enrollmentPhraseMatched false s in
          snd (setTimeout CbContinueEnrollment 1200 s)
      else s
  | _, _ => s
  end.

Definition enrollment_onend (sid : nat) (s : State) : State :=
  match session sid s with
  | None => s
  | Some x =>
      let s := clearHandle (enrollmentTimeout x) s in
      let s := updateSession sid (set_enrollmentTimeout None) s in
      let s := clearHandle (enrollmentCountdownInterval s) s in
      let s := set_enrollmentCountdownInterval None s in
      let s := clearHandle (processingTimeout s) s in
      let s := set_processingTimeout None s in
      let s :=
        if negb (enrollmentPhraseMatched s) && negb (hasGotResult x)
        then snd (setTimeout CbContinueEnrollment 2000 s)
        else s in
      set_enrollmentPhraseMatched false s
  end.

End Enrollment.

(** ** Ducking, the wake word and the command window *)

Section WakeWord.

Import JSString.

(** The parser of commands and the dispatcher that acts on the player are
    outside what is stated here. *)
Variable Command : Type.
Variable extractCommands : string -> list Command.
Variable executeCommand : Command -> State -> State.

Definition duckAudio (enable : bool) (s : State) : State :=
  match video s with
  | None => s
  | Some volume =>
      if enable && negb (isDucking s) then
        let s := set_originalVolume volume s in
        let s := set_video (Some duckingVolume) s in
        set_isDucking true s
      else if negb enable && isDucking s then
        let s := set_video (Some (originalVolume s)) s in
        set_isDucking false s
      else s
  end.

Definition resetWakeWord (s : State) : State :=
  let s := set_wakeWordDetected false s in
  let s := duckAudio false s in
  match wakeWordTimeout s with
  | Some h => set_wakeWordTimeout None (clearTimer h s)
  | None => s
  end.

Definition processCommand (env : Env) (transcript : string) (s : State) : State :=
  if negb (wakeWordDetected s) then s
  else
    let dispatch (s : State) :=
      match extractCommands transcript with
      | [] => resetWakeWord s
      | command :: _ => resetWakeWord (executeCommand command s)
      end in
    match voiceprint s with
    | Some _ =>
        let '(currentFeatures, s) := captureVoiceFeatures env transcript false s in
        let '(verification, s) := multiLayerVerification currentFeatures "command" s in
        if negb (isVerified verification) then resetWakeWord s else dispatch s
    | None => dispatch s
    end.

(** The part of [processWakeWord] after the speaker has been accepted. *)
Definition openCommandWindow (env : Env) (transcript : string) (s : State) : State :=
  let s := set_wakeWordDetected true s in
  let commandPart := trim (replace "youtube" "" transcript) in
  if negb (String.eqb commandPart "") then
    processCommand env commandPart (duckAudio true s)
  else
    let s := duckAudio true s in
    let '(h, s) := setTimeout CbResetWakeWord wakeWordWindow s in
    set_wakeWordTimeout (Some h) s.

Definition processWakeWord (env : Env) (transcript : string) (s : State) : State :=
  if includes "youtube" transcript then
    match voiceprint s with
    | Some _ =>
        let '(currentFeatures, s) := captureVoiceFeatures env transcript false s in
        let '(verification, s) := multiLayerVerification currentFeatures "wake_word" s in
        if negb (isVerified verification) then s
        else openCommandWindow env transcript s
    | None => openCommandWindow env transcript s
    end
  else s.

(** [recognition.start()] throws when the recognizer is already running;
    whether it does is the browser's answer, [startThrows]. *)
Definition startListening (startThrows : bool) (s : State) : State :=
  if isListening s then s
  else
    let s := set_isActive true s in
    if startThrows
    then if isActive s then snd (setTimeout CbStartListening 1000 s) else s
    else s.

Definition stopListening (s : State) : State :=
  let s := set_isActive false s in
  let s := resetWakeWord s in
  clearHandle (restartTimeout s) s.

(** *** The handlers of the wake-word recognizer *)

Definition recognition_onstart (s : State) : State :=
  let s := set_isListening true s in
  if wakeWordDetected s then duckAudio true s else s.

Definition recognition_onresult (env : Env) (heard : string) (s : State) : State :=
  let transcript := toLowerCase (trim heard) in
  if enrollmentMode s then s
  else if negb (wakeWordDetected s) then processWakeWord env transcript s
  else processCommand env transcript (duckAudio false s).

Definition recognition_onend (s : State) : State :=
  let s := set_isListening false s in
  let s := duckAudio false s in
  if isActive s then
    let '(h, s) := setTimeout CbStartListening 300 s in
    set_restartTimeout (Some h) s
  else s.

(** ** Events

    What the browser delivers to the controller: a timer coming due, an event
    of one of the two recognizers, a frame of the voice-activity loop that
    finds speech, a message from the side panel. *)

Variable completeEnrollment : State -> State.

Definition runCallback (cb : Callback) (startThrows : bool) (s : State) : State :=
  match cb with
  | CbResetWakeWord => resetWakeWord s
  | CbStartListening => startListening startThrows s
  | CbInitializeEnrollment => initializeEnrollment s
  | CbContinueEnrollment => continueEnrollment completeEnrollment s
  | CbStartEnrollmentListening => startEnrollmentListening s
  | CbAdvanceEnrollment => advanceEnrollment completeEnrollment s
  | CbCountdownTick sid => countdownTick sid s
  | CbEnrollmentTimeout sid => enrollmentTimeoutFired sid s
  | CbProcessingTimeout sid => processingTimeoutFired sid s
  | CbUpdateOverlayStatus => s
  | CbRemoveTrainingPanel => set_trainingPanel false s
  end.

Definition pending (h : nat) (s : State) : option Timer :=
  find (fun t => (tid t =? h)%nat) (timers s).

(** The timer with handle [h] comes due: a timeout leaves the table, an
    interval stays; then its callback runs. *)
Definition fire (h : nat) (startThrows : bool) (s : State) : State :=
  match pending h s with
  | None => s
  | Some t =>
      let s := if repeats t then s else clearTimer h s in
      runCallback (callback t) startThrows s
  end.

Inductive Event :=
| TimerDue (h : nat) (startThrows : bool)
| RecognitionStart
| RecognitionResult (env : Env) (heard : string)
| RecognitionError (kind : string)
| RecognitionEnd
| SpeechOnset (startThrows : bool)
| EnrollmentStart (sid : nat)
| EnrollmentResult (sid : nat) (env : Env) (heard : string)
| EnrollmentEnd (sid : nat)
| StartTraining
| StopTraining
| StopListening.

Definition step (e : Event) (s : State) : State :=
  match e with
  | TimerDue h startThrows => fire h startThrows s
  | RecognitionStart => recognition_onstart s
  | RecognitionResult env heard => recognition_onresult env heard s
  | RecognitionError _ => s
  | RecognitionEnd => recognition_onend s
  | SpeechOnset startThrows => startListening startThrows s
  | EnrollmentStart sid => enrollment_onstart sid s
  | EnrollmentResult sid env heard => enrollment_onresult sid env heard s
  | EnrollmentEnd sid => enrollment_onend sid s
  | StartTraining => startSpeakerEnrollment s
  | StopTraining => cancelTraining s
  | StopListening => stopListening s
  end.

Definition run (es : list Event) (s : State) : State :=
  fold_left (fun s e => step e s) es s.

(** An event of the command window that is not an utterance: the recognizer
    starting, ending or failing, speech setting in, the timer that restarts
    the recognizer and the timers that refresh the display. *)
Definition quiet (e : Event) (s : State) : bool :=
  match e with
  | RecognitionStart | RecognitionEnd | RecognitionError _ | SpeechOnset _ => true
  | TimerDue h _ =>
      match pending h s with
      | Some t =>
          match callback t with
          | CbStartListening | CbUpdateOverlayStatus | CbRemoveTrainingPanel => true
          | _ => false
          end
      | None => true
      end
  | _ => false
  end.

Inductive quietRun : State -> State -> Prop :=
| quiet_done s : quietRun s s
| quiet_next e s s' : quiet e s = true -> quietRun (step e s) s' -> quietRun s s'.

(** The volume the video plays at when it is not ducked. *)
Definition unduckedVolume (s : State) : option R :=
  match video s with
  | None => None
  | Some v => Some (if isDucking s then originalVolume s else v)
  end.

(** Handles are handed out in increasing order. *)
Definition handlesFresh (s : State) : Prop :=
  forall t, In t (timers s) -> (tid t < nextTimerId s)%nat.

End WakeWord.


(** Once a recognition object has been created, [this.enrollmentRecognition]
    holds the one created last. *)
Definition recognizerCurrent (s : State) : Prop :=
  sessions s = []
  \/ enrollmentRecognition s = Some (List.length (sessions s) - 1)%nat.

(** *** The acceptance rule in the words of the specification

    The overall confidence is the weighted mean of the five layer scores;
    the verdict asks for the confidence required by the context and for two
    layers at or above their own thresholds. *)

Definition layerScores (vp : Voiceprint.t) (cf : FeatureVector.t) : list R :=
  [ verifyEnergyPattern vp cf;
    calculateFrequencySimilarity (FeatureVector.fundamentalFreq cf)
      (Voiceprint.fundamentalFreq vp) (Voiceprint.fundamentalFreqStd vp);
    calculateFormantSimilarity (FeatureVector.formants cf) (Voiceprint.formants vp);
    calculateSpectralSimilarity vp cf;
    calculateVoiceSimilarity vp cf ].




Definition spec_contextThreshold (context : string) : R :=
  if String.eqb context "wake_word" then 0.45
  else if String.eqb context "command" then 0.40
  else 0.35.


(** The confidence and the number of passed layers that
    [multiLayerVerification] computes, as functions of the five layer
    scores. *)
Definition b2n (b : bool) : nat := if b then 1%nat else 0%nat.

Definition confidenceOf (xs : list R) : R :=
  match xs with
  | [e; f; fo; sp; v] => e * 0.15 + f * 0.25 + fo * 0.25 + sp * 0.20 + v * 0.15
  | _ => 0
  end.

Definition passedOf (xs : list R) : nat :=
  match xs with
  | [e; f; fo; sp; v] =>
      b2n (JS.geb e 0.4) + b2n (JS.geb f 0.5) + b2n (JS.geb fo 0.45)
      + b2n (JS.geb sp 0.4) + b2n (JS.geb v 0.45)
  | _ => 0
  end.

(** A feature vector whose every field equals the field of the same name of
    the voiceprint. *)
Definition sameFields (cf : FeatureVector.t) (vp : Voiceprint.t) : Prop :=
  FeatureVector.fundamentalFreq cf = Voiceprint.fundamentalFreq vp
  /\ FeatureVector.formants cf = Voiceprint.formants vp
  /\ FeatureVector.spectralCentroid cf = Voiceprint.spectralCentroid vp
  /\ FeatureVector.spectralRolloff cf = Voiceprint.spectralRolloff vp
  /\ FeatureVector.spectralFlux cf = Voiceprint.spectralFlux vp
  /\ FeatureVector.spectralFlatness cf = Voiceprint.spectralFlatness vp
  /\ FeatureVector.mfcc cf = Voiceprint.mfcc vp
  /\ FeatureVector.zeroCrossingRate cf = Voiceprint.zeroCrossingRate vp
  /\ FeatureVector.energy cf = Voiceprint.energy vp
  /\ FeatureVector.voicedRatio cf = Voiceprint.voicedRatio vp
  /\ FeatureVector.harmonicRatio cf = Voiceprint.harmonicRatio vp.

(** The feature vector that repeats the fields of a voiceprint. *)
Definition featuresOf (vp : Voiceprint.t) (text : string) (now : Z) : FeatureVector.t :=
  FeatureVector.mk (Voiceprint.fundamentalFreq vp) (Voiceprint.formants vp)
    (Voiceprint.spectralCentroid vp) (Voiceprint.spectralRolloff vp)
    (Voiceprint.spectralFlux vp) (Voiceprint.spectralFlatness vp)
    (Voiceprint.mfcc vp) (Voiceprint.zeroCrossingRate vp) (Voiceprint.energy vp)
    (Voiceprint.voicedRatio vp) (Voiceprint.harmonicRatio vp) text now.

(** *** Example voiceprints

    [pitchedVoiceprint]: a voice with a pitch of 150 Hz.
    [unpitchedVoiceprint]: the same with no peak found between 80 and 400 Hz,
    so that [extractFundamentalFrequency] gave 0 for every sample (and
    [calculateHarmonicRatio] with it). *)
Definition exampleFormants : list Formant :=
  [ mkFormant 562.5 180; mkFormant 1125 140; mkFormant 1687.5 120 ].

Definition pitchedVoiceprint : Voiceprint.t :=
  Voiceprint.mk 150 1500 3000 12 0.3 0.1 0.02 0.5 0.2
    [7; 6; 5; 4; 3; 2; 1; 1; 1; 1; 1; 1; 1] exampleFormants
    10 0.01 100 19 0.

Definition unpitchedVoiceprint : Voiceprint.t :=
  Voiceprint.mk 0 1500 3000 12 0.3 0.1 0.02 0.5 0
    [7; 6; 5; 4; 3; 2; 1; 1; 1; 1; 1; 1; 1] exampleFormants
    0 0.01 100 19 0.

Definition withVoiceprint (vp : Voiceprint.t) : State :=
  set_voiceprint (Some vp) initialState.

(** *** Example states

    [playing v]: the state the constructor leaves, on a page whose video
    plays at volume [v].  [ducked v]: the same after the volume has been
    lowered. *)
Definition playing (v : R) : State := set_video (Some v) initialState.

Definition ducked (v : R) : State := duckAudio true (playing v).

(** *** The command window as a property of the state

    The wake word has been accepted, the timer [h] that will close the
    window is pending with the delay of the window, and the video plays at
    [p] when it is not ducked. *)
Definition commandWindow (h : nat) (p : option R) (s : State) : Prop :=
  wakeWordDetected s = true
  /\ wakeWordTimeout s = Some h
  /\ (exists t, pending h s = Some t /\ callback t = CbResetWakeWord
                /\ delay t = 4000%Z /\ repeats t = false)
  /\ unduckedVolume s = p.

(** The machine is idle: no wake word is being waited on, and no timer of
    the window is left. *)
Definition idle (s : State) : Prop :=
  wakeWordDetected s = false /\ wakeWordTimeout s = None.

(** *** The Levenshtein distance by its recurrence

    The distance between two strings read from their last characters: to an
    empty string it is the length of the other; otherwise it is the least of
    the distance with the last character of the first removed plus 1, with
    the last character of the second removed plus 1, and with both removed
    plus 1 unless the two characters are equal.  [editDistance] takes the
    strings reversed, last character first. *)
Fixpoint editDistance (s t : list ascii) {struct s} : nat :=
  match s with
  | [] => List.length t
  | a :: s' =>
      (fix against (t : list ascii) : nat :=
         match t with
         | [] => List.length s
         | b :: t' =>
             Nat.min (Nat.min (editDistance s' t + 1) (against t' + 1))
                     (editDistance s' t' + (if Ascii.eqb a b then 0 else 1))
         end) t
  end.

Definition spec_levenshtein (str1 str2 : string) : nat :=
  editDistance (List.rev (list_ascii_of_string str1))
               (List.rev (list_ascii_of_string str2)).

(** Row [j] of the matrix, for the prefix of [str2] whose reversal is [rv]:
    the distances of the prefixes of [str1] from the one whose reversal is
    [ru] on, [w] being the rest of [str1]. *)
Fixpoint prefixRow (ru w rv : list ascii) : list nat :=
  editDistance ru rv
  :: match w with
     | [] => []
     | a :: w' => prefixRow (a :: ru) w' rv
     end.

(** *** Spectral flatness in the words of the specification

    The geometric mean of the nonzero magnitudes of the frame divided by
    their arithmetic mean; 0 for a frame without a nonzero magnitude. *)
Definition nonzero (frequencyData : list Z) : list Z :=
  filter (fun x => negb (x =? 0)%Z) frequencyData.

Definition spec_geometricMean (xs : list Z) : R :=
  Rpower (fold_right (fun x acc => IZR x * acc) 1 xs) (1 / INR (List.length xs)).

Definition spec_arithmeticMean (xs : list Z) : R :=
  fold_right (fun x acc => IZR x + acc) 0 xs / INR (List.length xs).

Definition spec_spectralFlatness (frequencyData : list Z) : R :=
  match nonzero frequencyData with
  | [] => 0
  | xs => spec_geometricMean xs / spec_arithmeticMean xs
  end.

(** A frame of two bins, and a frame of 128 bins (the [frequencyBinCount] of
    the analyser, whose [fftSize] is 256) with a single tone in bin 1. *)
Definition twoBins : list Z := [0; 4]%Z.
Definition singleTone : list Z := (0 :: 16 :: repeat 0 126)%Z.

(** *** Equality of feature vectors up to transcript and timestamp *)
Definition sameAcoustics (f g : FeatureVector.t) : Prop :=
  FeatureVector.fundamentalFreq f = FeatureVector.fundamentalFreq g
  /\ FeatureVector.formants f = FeatureVector.formants g
  /\ FeatureVector.spectralCentroid f = FeatureVector.spectralCentroid g
  /\ FeatureVector.spectralRolloff f = FeatureVector.spectralRolloff g
  /\ FeatureVector.spectralFlux f = FeatureVector.spectralFlux g
  /\ FeatureVector.spectralFlatness f = FeatureVector.spectralFlatness g
  /\ FeatureVector.mfcc f = FeatureVector.mfcc g
  /\ FeatureVector.zeroCrossingRate f = FeatureVector.zeroCrossingRate g
  /\ FeatureVector.energy f = FeatureVector.energy g
  /\ FeatureVector.voicedRatio f = FeatureVector.voicedRatio g
  /\ FeatureVector.harmonicRatio f = FeatureVector.harmonicRatio g.

(** *** Example runs

    [exampleRun]: the events run with a parser that finds no command and no
    dispatcher.  [recording s0]: training has been started from [s0] and the
    recognizer of the first phrase has started.  [withAnalyser]: the state
    the constructor leaves once the microphone has been set up at 48 kHz. *)
Definition exampleRun : list Event -> State -> State :=
  run unit (fun _ => []) (fun _ s => s) (fun s => s).

Definition recording (s0 : State) : State :=
  exampleRun [StartTraining; TimerDue 1 false; TimerDue 2 false; EnrollmentStart 0] s0.

Definition withAnalyser : State := set_analyser (Some 48000) initialState.

Definition silence : Env := mkEnv (repeat 0%Z 128) (repeat 128%Z 128) 0.

(** The voiceprint that an enrollment in silence leaves at 48 kHz: no
    energy, no pitch, an empty spectrum, and the formants at the first bin
    of their bands. *)
Definition silentVoiceprint : Voiceprint.t :=
  Voiceprint.mk 0 0 0 0 0 0 0 0 0
    [0; 0; 0; 0; 0; 0; 0; 0; 0; 0; 0; 0; 0]
    [ mkFormant 187.5 0; mkFormant 750 0; mkFormant 1500 0 ]
    0 0 0 19 0.

(** *** Example frames

    [twoPeaks]: 50 bins with magnitudes 50 in bin 7 and 80 in bin 10.
    [threeFormants]: 40 bins with magnitudes 90, 70 and 60 in bins 5, 12
    and 20. *)
Definition twoPeaks : list Z :=
  (repeat 0 7 ++ [50] ++ [0; 0] ++ [80] ++ repeat 0 39)%Z.

Definition threeFormants : list Z :=
  (repeat 0 5 ++ [90] ++ repeat 0 6 ++ [70] ++ repeat 0 7 ++ [60] ++ repeat 0 19)%Z.

(** * The rest of the controller

    ** Building the voiceprint

    [createVoiceprint] and the functions it calls.  A feature is named in the
    script by a string ([sample[featureName]]); here it is the projection
    of that name. *)

From Stdlib Require Import Sorting Permutation.

Section VoiceprintAggregation.

Import JS.

Definition averageFeature (feature : FeatureVector.t -> R)
    (samples : list FeatureVector.t) : R :=
  let sum := fold_left (fun acc sample => acc + feature sample) samples 0 in
  sum / INR (List.length samples).

(** [sample.mfcc[i]] is [undefined] past the end of a sample's array (the
    sum is then [NaN]); [calculateMFCC] gives every sample 13 entries. *)
Definition averageMFCC (samples : list FeatureVector.t) : list R :=
  match samples with
  | [] => []
  | first :: _ =>
      let mfccLength := List.length (FeatureVector.mfcc first) in
      map (fun i => averageFeature (fun sample => nth i (FeatureVector.mfcc sample) 0) samples)
          (seq 0 mfccLength)
  end.

(** [sample.formants[f]] likewise; [extractFormants] gives every sample
    three formants. *)
Definition averageFormants (samples : list FeatureVector.t) : list Formant :=
  match samples with
  | [] => []
  | first :: _ =>
      let formantCount := List.length (FeatureVector.formants first) in
      map (fun f =>
             let at_f sample := nth f (FeatureVector.formants sample) (mkFormant 0 0) in
             mkFormant (averageFeature (fun sample => frequency (at_f sample)) samples)
                       (averageFeature (fun sample => magnitude (at_f sample)) samples))
          (seq 0 formantCount)
  end.

Definition calculateStdDev (feature : FeatureVector.t -> R)
    (samples : list FeatureVector.t) : R :=
  let mean := averageFeature feature samples in
  let squaredDiffs := map (fun sample => sq (feature sample - mean)) samples in
  let variance := fold_left (fun acc val => acc + val) squaredDiffs 0
                  / INR (List.length samples) in
  Math_sqrt variance.

(** [createVoiceprint]; [now] is [Date.now()]. *)
Definition createVoiceprint (now : Z) (s : State) : option Voiceprint.t * State :=
  let samples := enrollmentSamples s in
  if (List.length samples =? 0)%nat then (None, s)
  else
    let voiceprint :=
      Voiceprint.mk
        (averageFeature FeatureVector.fundamentalFreq samples)
        (averageFeature FeatureVector.spectralCentroid samples)
        (averageFeature FeatureVector.spectralRolloff samples)
        (averageFeature FeatureVector.spectralFlux samples)
        (averageFeature FeatureVector.spectralFlatness samples)
        (averageFeature FeatureVector.zeroCrossingRate samples)
        (averageFeature FeatureVector.energy samples)
        (averageFeature FeatureVector.voicedRatio samples)
        (averageFeature FeatureVector.harmonicRatio samples)
        (averageMFCC samples)
        (averageFormants samples)
        (calculateStdDev FeatureVector.fundamentalFreq samples)
        (calculateStdDev FeatureVector.energy samples)
        (calculateStdDev FeatureVector.spectralCentroid samples)
        (List.length samples)
        now in
    (Some voiceprint, set_voiceprint (Some voiceprint) s).

End VoiceprintAggregation.

(** The bytes of a [Uint8Array]. *)
Definition bytes (a : list Z) : Prop := Forall (fun x => (0 <= x <= 255)%Z) a.


(** A state in which [n + 1] samples equal to [f] have been collected. *)
Definition enrolledWith (f : FeatureVector.t) (n : nat) : State :=
  set_enrollmentSamples (repeat f (S n)) initialState.

(** The bins of the frame are wider than 400/3 Hz: the band from 80 to
    400 Hz that [extractFundamentalFrequency] looks at ends before bin 3. *)
Definition coarseBins (sampleRate : R) (frequencyData : list Z) : Prop :=
  0 < sampleRate /\ 400 * len frequencyData / (sampleRate / 2) < 3.


(** ** Commands on the player

    What [extractCommands] puts into its list: the object of a timestamp
    command, the object of a search command, or the name of a command. *)
Inductive VoiceCommand :=
| Timestamp (seconds : Z) (originalText : string)
| Search (query : string) (originalText : string)
| Named (command : string).

Module Player.

Import JS.

(** [video.volume] after the [switch] of [executeCommand]: the cases
    ['louder'] and ['quieter'] assign it, no other case does. *)
Definition volumeAfter (command : string) (volume : R) : R :=
  if String.eqb command "louder" then Math_min (volume + 0.25) 1.0
  else if String.eqb command "quieter" then Math_max (volume - 0.25) 0.0
  else volume.

(** [executeCommand], as far as it acts at once on what [State] holds of
    the page: the volume of the video element and the timers.  The position,
    the rate, the mute and the pause of the video element are not part of
    [State]; a timestamp command assigns the position only, and a search
    command goes on after an [await].  The timer that a named command
    leaves redraws the overlay and nothing else, like the timer of
    [cancelTraining]. *)
Definition executeCommand (command : VoiceCommand) (s : State) : State :=
  match video s with
  | None => s
  | Some volume =>
      match command with
      | Timestamp _ _ => s
      | Search _ _ => s
      | Named name =>
          let s := set_video (Some (volumeAfter name volume)) s in
          snd (setTimeout CbUpdateOverlayStatus 1500 s)
      end
  end.

End Player.

(** ** Searching the transcript

    An entry of [this.transcript] and what [searchTranscript] makes of the
    entries it finds. *)

Module Transcript.

Import JS JSString.

Record Entry := mkEntry {
  text : string;
  start : R;              (* seconds *)
  duration : R
}.

Record Match := mkMatch {
  m_start : R;
  m_duration : R;
  m_text : string;
  m_score : Z;
  m_matchType : string
}.

(** The object that [searchTranscript] returns. *)
Record Found := mkFound {
  f_start : R;
  f_duration : R;
  f_text : string;
  f_score : Z;
  allMatches : list Match
}.

(** [matches.some(existing => ...)] *)
Definition isDuplicate (matches : list Match) (entry : Entry) : bool :=
  existsb
    (fun existing =>
       let timeDiff := Math_abs (m_start existing - start entry) in
       let sameText :=
         String.eqb (toLowerCase (m_text existing)) (toLowerCase (text entry)) in
       let similarText :=
         includes (toLowerCase (text entry)) (toLowerCase (m_text existing))
         || includes (toLowerCase (m_text existing)) (toLowerCase (text entry)) in
       (ltb timeDiff 3 && sameText) || similarText)
    matches.

(** One turn of the loop over the entries. *)
Definition searchStep (searchTerm : string) (matches : list Match) (entry : Entry)
  : list Match :=
  if includes searchTerm (toLowerCase (text entry)) then
    if isDuplicate matches entry then matches
    else matches
         ++ [mkMatch (start entry) (duration entry) (text entry) 100 "text match"]
  else matches.

(** [searchTranscript(query)]; [transcript] is [this.transcript], [None]
    when it is [null]. *)
Definition searchTranscript (transcript : option (list Entry)) (query : string)
  : option Found :=
  match transcript with
  | None | Some [] => None
  | Some entries =>
      let searchTerm := trim (toLowerCase query) in
      let matches := fold_left (searchStep searchTerm) entries [] in
      match matches with
      | [] => None
      | first :: _ =>
          Some (mkFound (m_start first) (m_duration first) (m_text first)
                        (m_score first) matches)
      end
  end.

(** *** Cleaning a transcript *)










(** The entry is a hit for the query: its text contains the search term,
    letter case apart. *)
Definition hit (query : string) (entry : Entry) : bool :=
  includes (trim (toLowerCase query)) (toLowerCase (text entry)).

(** One of the two texts contains the other, letter case apart. *)
Definition similar (a b : string) : bool :=
  includes (toLowerCase a) (toLowerCase b) || includes (toLowerCase b) (toLowerCase a).

(** The match that the loop makes of an entry. *)
Definition matchOf (e : Entry) : Match :=
  mkMatch (start e) (duration e) (text e) 100 "text match".

(** What holds of the matches through the loop over the entries seen so
    far: each is made of a hit among them, and no two have similar texts. *)
Definition matchesOf (query : string) (entries : list Entry) (ms : list Match) : Prop :=
  Forall (fun m => exists e, In e entries /\ hit query e = true /\ m = matchOf e) ms
  /\ ForallOrdPairs (fun a b => similar (m_text a) (m_text b) = false) ms.

Definition exampleTranscript : list Entry :=
  [ mkEntry "Welcome to the show" 0 2;
    mkEntry "Today: neural networks" 2 3;
    mkEntry "networks" 5 1;
    mkEntry "More on Neural Networks later" 60 4 ].

End Transcript.

(** ** Reading a command from an utterance

    The regular expressions of the parser are built from literals,
    alternatives, greedy runs of one character class, an optional part and
    one capturing group.  [matchAt] is the backtracking matcher at one
    position: it hands the rest of the text and the text that the group has
    captured to [k], and takes the next choice when [k] fails.  [search] is
    [text.match(regex)] without the [g] flag: the match at the leftmost
    position that has one; its value is [match[1]]. *)

Module Commands.

Import JSString.

Local Open Scope string_scope.

Inductive Regex :=
| Lit (s : string)                              (* the characters of [s] *)
| Alt (r1 r2 : Regex)                           (* [r1|r2] *)
| Seq (r1 r2 : Regex)
| Many (cls : ascii -> bool) (least : nat)      (* [c*] and [c+], greedy *)
| Opt (r : Regex)                               (* [r?] *)
| Group (r : Regex).                            (* [(r)] *)

(** [\d], [\s] and [.] *)
Definition digit (c : ascii) : bool :=
  let n := nat_of_ascii c in ((48 <=? n) && (n <=? 57))%nat.

Definition space (c : ascii) : bool := isWhitespace c.

Definition dot (c : ascii) : bool :=
  let n := nat_of_ascii c in negb ((n =? 10) || (n =? 13))%nat.

(** The rest of [s] after the literal [lit]; with the [i] flag letters are
    compared in lower case. *)
Fixpoint afterLit (ignoreCase : bool) (lit s : string) : option string :=
  match lit, s with
  | EmptyString, _ => Some s
  | String l lit', String c s' =>
      if (if ignoreCase then Ascii.eqb (lowerChar c) (lowerChar l) else Ascii.eqb c l)
      then afterLit ignoreCase lit' s'
      else None
  | String _ _, EmptyString => None
  end.

(** The longest run first, then shorter ones, down to [least]; [n] counts
    the characters taken. *)
Fixpoint many {A} (cls : ascii -> bool) (least n : nat) (s : string)
    (k : string -> option A) : option A :=
  let stop := if (least <=? n)%nat then k s else None in
  match s with
  | String c s' =>
      if cls c
      then match many cls least (S n) s' k with
           | Some r => Some r
           | None => stop
           end
      else stop
  | EmptyString => stop
  end.

(** The first [String.length s - String.length rest] characters of [s]. *)
Definition consumed (s rest : string) : string :=
  substring 0 (String.length s - String.length rest) s.

Fixpoint matchAt {A} (ignoreCase : bool) (r : Regex) (s : string) (captured : string)
    (k : string -> string -> option A) : option A :=
  match r with
  | Lit lit =>
      match afterLit ignoreCase lit s with
      | Some rest => k rest captured
      | None => None
      end
  | Alt r1 r2 =>
      match matchAt ignoreCase r1 s captured k with
      | Some x => Some x
      | None => matchAt ignoreCase r2 s captured k
      end
  | Seq r1 r2 =>
      matchAt ignoreCase r1 s captured
        (fun rest captured => matchAt ignoreCase r2 rest captured k)
  | Many cls least => many cls least 0 s (fun rest => k rest captured)
  | Opt r1 =>
      match matchAt ignoreCase r1 s captured k with
      | Some x => Some x
      | None => k s captured
      end
  | Group r1 =>
      matchAt ignoreCase r1 s captured (fun rest _ => k rest (consumed s rest))
  end.

Fixpoint search (ignoreCase : bool) (r : Regex) (s : string) : option string :=
  match matchAt ignoreCase r s EmptyString (fun _ captured => Some captured) with
  | Some captured => Some captured
  | None =>
      match s with
      | EmptyString => None
      | String _ s' => search ignoreCase r s'
      end
  end.

(** [/(?:go to|seek|jump to|move to|play at)\s+(.+)/i] *)
Definition timestampPattern : Regex :=
  Seq (Alt (Lit "go to") (Alt (Lit "seek") (Alt (Lit "jump to")
        (Alt (Lit "move to") (Lit "play at")))))
      (Seq (Many space 1) (Group (Many dot 1))).

(** [/(\d+)\s*(?:unit|abbreviation)s?/] *)
Definition unitPattern (unit abbreviation : string) : Regex :=
  Seq (Group (Many digit 1))
      (Seq (Many space 0)
           (Seq (Alt (Lit unit) (Lit abbreviation)) (Opt (Lit "s")))).

(** [/(\d+)/] *)
Definition numberPattern : Regex := Group (Many digit 1).

(** The three patterns of [parseSearchCommand]. *)
Definition searchPatterns : list Regex :=
  [ Seq (Alt (Lit "find") (Alt (Lit "search") (Alt (Lit "look for")
          (Alt (Lit "go to") (Lit "jump to")))))
        (Seq (Many space 1) (Group (Many dot 1)));
    Seq (Lit "where is ") (Group (Many dot 1));
    Seq (Lit "show me ") (Group (Many dot 1)) ].

(** [parseInt] on a run of decimal digits.  (The script has the nearest
    double, which is the integer itself below [2^53].) *)
Definition parseInt (digits : string) : Z :=
  fold_left (fun n c => (10 * n + Z.of_nat (nat_of_ascii c - 48))%Z)
            (list_ascii_of_string digits) 0%Z.

(** [parseTimeToSeconds]; [None] is [null]. *)
Definition parseTimeToSeconds (timeText : string) : option Z :=
  let text := trim (toLowerCase timeText) in
  let totalSeconds := 0%Z in
  let totalSeconds :=
    match search false (unitPattern "hour" "hr") text with
    | Some hours => (totalSeconds + parseInt hours * 3600)%Z
    | None => totalSeconds
    end in
  let totalSeconds :=
    match search false (unitPattern "minute" "min") text with
    | Some minutes => (totalSeconds + parseInt minutes * 60)%Z
    | None => totalSeconds
    end in
  let totalSeconds :=
    match search false (unitPattern "second" "sec") text with
    | Some seconds => (totalSeconds + parseInt seconds)%Z
    | None => totalSeconds
    end in
  let totalSeconds :=
    if (totalSeconds =? 0)%Z then
      match search false numberPattern text with
      | Some number => parseInt number
      | None => totalSeconds
      end
    else totalSeconds in
  if (0 <? totalSeconds)%Z then Some totalSeconds else None.

(** [parseTimestampCommand] *)
Definition parseTimestampCommand (text : string) : option VoiceCommand :=
  match search true timestampPattern text with
  | Some timeText =>
      match parseTimeToSeconds timeText with
      | Some seconds => Some (Timestamp seconds timeText)
      | None => None
      end
  | None => None
  end.

(** [parseSearchCommand]: the first pattern that matches decides. *)
Fixpoint firstMatch (patterns : list Regex) (text : string) : option string :=
  match patterns with
  | [] => None
  | pattern :: rest =>
      match search true pattern text with
      | Some term => Some term
      | None => firstMatch rest text
      end
  end.

Definition parseSearchCommand (text : string) : option VoiceCommand :=
  match firstMatch searchPatterns text with
  | Some term => Some (Search (trim term) text)
  | None => None
  end.

(** The chain of [if ... else if ...] of [extractCommands] on the
    lower-cased text: the name of the first branch whose test holds. *)
Definition keyword (lowText : string) : option string :=
  let has sub := includes sub lowText in
  if has "pause" || has "stop" then Some "pause"
  else if has "play" || has "resume" || has "start" then Some "play"
  else if has "mute" && negb (has "unmute") then Some "mute"
  else if has "unmute" then Some "unmute"
  else if has "skip" || has "forward" then Some "skip"
  else if has "back" || has "rewind" then Some "back"
  else if has "faster" || has "speed up" then Some "faster"
  else if has "slower" || has "slow down" then Some "slower"
  else if has "fullscreen" then Some "fullscreen"
  else if has "restart" || has "beginning" then Some "restart"
  else if has "louder" || has "increase volume" || has "volume up" then Some "louder"
  else if has "quieter" || has "reduce volume" || has "decrease volume"
          || has "volume down" then Some "quieter"
  else None.

Definition extractCommands (text : string) : list VoiceCommand :=
  let lowText := toLowerCase text in
  match parseTimestampCommand lowText with
  | Some timestampCommand => [timestampCommand]
  | None =>
      match parseSearchCommand lowText with
      | Some searchCommand => [searchCommand]
      | None =>
          match keyword lowText with
          | Some name => [Named name]
          | None => []
          end
      end
  end.

(** The names that the [switch] of [executeCommand] has a case for. *)
Definition handledNames : list string :=
  [ "pause"; "play"; "mute"; "unmute"; "skip"; "back"; "faster"; "slower";
    "fullscreen"; "restart"; "louder"; "quieter" ]%string.

End Commands.

(** * Properties *)

(** ** Comparisons *)

Module JSFacts.
Import JS.

Lemma geb_true x y : geb x y = true <-> x >= y.
Proof. unfold geb. destruct (Rge_dec x y); split; intros; congruence || lra. Qed.

Lemma gtb_true x y : gtb x y = true <-> x > y.
Proof. unfold gtb. destruct (Rgt_dec x y); split; intros; congruence || lra. Qed.

Lemma ltb_true x y : ltb x y = true <-> x < y.
Proof. unfold ltb. destruct (Rlt_dec x y); split; intros; congruence || lra. Qed.

Lemma eqb_true x y : eqb x y = true <-> x = y.
Proof. unfold eqb. destruct (Req_dec_T x y); split; intros; congruence. Qed.

Lemma eqb_false x y : eqb x y = false <-> x <> y.
Proof. unfold eqb. destruct (Req_dec_T x y); split; intros; congruence. Qed.

Lemma eqb_refl x : eqb x x = true.
Proof. now apply eqb_true. Qed.

Lemma geb_false x y : geb x y = false <-> x < y.
Proof. unfold geb. destruct (Rge_dec x y); split; intros; congruence || lra. Qed.


Lemma Math_ceil_layers : Math_ceil (INR (List.length layerTable) * 0.4) = 2%Z.
Proof.
  unfold Math_ceil. apply Zceil_eq. simpl. lra.
Qed.

End JSFacts.

(** ** The verification verdict *)

Section VerdictFacts.

Import JS JSFacts.

Lemma multiLayerVerification_frame cf ctx s :
  snd (multiLayerVerification cf ctx s) = s.
Proof.
  unfold multiLayerVerification.
  destruct (voiceprint s); [destruct cf|]; reflexivity.
Qed.

Lemma totalWeight_positive : gtb (0 + 0.15 + 0.25 + 0.25 + 0.20 + 0.15) 0 = true.
Proof. apply gtb_true. lra. Qed.

Lemma multiLayerVerification_confidence s vp cf context :
  voiceprint s = Some vp ->
  confidence (fst (multiLayerVerification (Some cf) context s))
  = confidenceOf (layerScores vp cf).
Proof.
  intros Hvp. unfold multiLayerVerification. rewrite Hvp.
  cbn [pushLayer layerAt nth layerTable app fst confidence v_confidence].
  rewrite totalWeight_positive. unfold layerScores, confidenceOf. lra.
Qed.

Lemma multiLayerVerification_isVerified s vp cf context :
  voiceprint s = Some vp ->
  isVerified (fst (multiLayerVerification (Some cf) context s))
  = reaches (confidenceOf (layerScores vp cf)) (requiredThresholdOf context)
    && (2 <=? passedOf (layerScores vp cf))%nat.
Proof.
  intros Hvp. unfold multiLayerVerification. rewrite Hvp.
  cbn [pushLayer layerAt nth layerTable app fst isVerified v_isVerified].
  rewrite totalWeight_positive, Math_ceil_layers.
  unfold layerScores, confidenceOf, passedOf.
  set (e := verifyEnergyPattern vp cf).
  set (f := calculateFrequencySimilarity _ _ _).
  set (fo := calculateFormantSimilarity _ _).
  set (sp := calculateSpectralSimilarity vp cf).
  set (v := calculateVoiceSimilarity vp cf).
  replace ((0 + e * 0.15 + f * 0.25 + fo * 0.25 + sp * 0.20 + v * 0.15) /
           (0 + 0.15 + 0.25 + 0.25 + 0.20 + 0.15))
    with (e * 0.15 + f * 0.25 + fo * 0.25 + sp * 0.20 + v * 0.15) by lra.
  f_equal.
  cbn [filter passed].
  destruct (geb e 0.4), (geb f 0.5), (geb fo 0.45), (geb sp 0.4), (geb v 0.45);
    reflexivity.
Qed.

Lemma truthy_Number x : x <> 0 -> truthy (Number x) = true.
Proof. intros H. cbn. now rewrite (proj2 (eqb_false x 0) H). Qed.

(** For a context that names no member of [Object.prototype] the required
    threshold is the number of the table, 0.35 when the table has none. *)
Lemma requiredThresholdOf_spec context :
  inherited context = false ->
  requiredThresholdOf context = Some (Number (spec_contextThreshold context)).
Proof.
  intros Hown.
  unfold requiredThresholdOf, getThreshold, spec_contextThreshold, contextThresholds.
  cbn [lookup]. rewrite Hown.
  change (inherited "general") with false. cbn [String.eqb Ascii.eqb Bool.eqb].
  destruct (String.eqb context "wake_word").
  - rewrite truthy_Number by lra. reflexivity.
  - destruct (String.eqb context "command").
    + rewrite truthy_Number by lra. reflexivity.
    + destruct (String.eqb context "general"); [|reflexivity].
      rewrite truthy_Number by lra. reflexivity.
Qed.


Lemma reaches_true x context :
  inherited context = false ->
  reaches x (requiredThresholdOf context) = true <-> x >= spec_contextThreshold context.
Proof.
  intros Hown. rewrite (requiredThresholdOf_spec _ Hown). cbn [reaches]. apply geb_true.
Qed.





(** *** Without a voiceprint or without features *)

(** C10. With no stored voiceprint, or with [null] in place of the feature
    vector, the result is negative with confidence 0 and no layers, and the
    state is the one the call found. *)
Theorem multiLayerVerification_unavailable :
  forall (s : State) (cf : option FeatureVector.t) (context : string),
    voiceprint s = None \/ cf = None ->
    let (r, s') := multiLayerVerification cf context s in
    isVerified r = false /\ confidence r = 0 /\ layers r = [] /\ s' = s.
Proof.
  intros s cf context H. unfold multiLayerVerification.
  destruct H as [H | H]; rewrite H.
  - cbn. auto.
  - destruct (voiceprint s); cbn; auto.
Qed.

Lemma multiLayerVerification_unavailable_witness :
  (voiceprint initialState = None \/ Some (featuresOf pitchedVoiceprint "youtube" 0) = None)
  /\ let (r, s') := multiLayerVerification
                       (Some (featuresOf pitchedVoiceprint "youtube" 0))
                       "command" initialState in
     isVerified r = false /\ confidence r = 0 /\ layers r = [] /\ s' = initialState.
Proof.
  split; [left; reflexivity|].
  apply (multiLayerVerification_unavailable initialState
           (Some (featuresOf pitchedVoiceprint "youtube" 0)) "command").
  left; reflexivity.
Defined.

End VerdictFacts.

(** ** The similarity kernel and the layers on identical input *)

Section LayerFacts.

Import JS JSFacts.

(** The expression [Math.exp(-Math.pow(difference / tolerance, 2))] that all
    layers share is 1 at difference 0 and lies in (0, 1]. *)
Lemma kernel_same a tol : Math_exp (- sq (Math_abs (a - a) / tol)) = 1.
Proof.
  unfold Math_exp, sq, Math_abs.
  rewrite Rminus_diag, Rabs_R0. unfold Rdiv. rewrite Rmult_0_l.
  replace (- 0 ^ 2) with 0 by (simpl; lra). apply exp_0.
Qed.

Lemma kernel_range x : 0 < Math_exp (- sq x) <= 1.
Proof.
  unfold Math_exp, sq. split; [apply exp_pos|].
  rewrite <- exp_0.
  destruct (Req_dec (x ^ 2) 0) as [E | N].
  - rewrite E, Ropp_0. lra.
  - left. apply exp_increasing. pose proof (pow2_ge_0 x). lra.
Qed.

Lemma gaussian_same a tol : gaussian (mkCompared a a tol) = 1.
Proof. unfold gaussian. cbn [current stored tolerance]. apply kernel_same. Qed.

Lemma gaussian_range f : 0 < gaussian f <= 1.
Proof. unfold gaussian. apply kernel_range. Qed.

Lemma clamp_range x : 0 <= Math_max 0 (Math_min 1 x) <= 1.
Proof.
  unfold Math_max, Math_min, Rmax, Rmin.
  destruct (Rle_dec 1 x); destruct (Rle_dec 0 _); lra.
Qed.

Lemma clamp_one : Math_max 0 (Math_min 1 1) = 1.
Proof.
  unfold Math_max, Math_min, Rmax, Rmin.
  destruct (Rle_dec 1 1); destruct (Rle_dec 0 _); lra.
Qed.

Lemma calculateFrequencySimilarity_zero b sd :
  calculateFrequencySimilarity 0 b sd = 0.
Proof. unfold calculateFrequencySimilarity. now rewrite eqb_refl. Qed.

Lemma calculateFrequencySimilarity_same a sd :
  a <> 0 -> calculateFrequencySimilarity a a sd = 1.
Proof.
  intros Ha. unfold calculateFrequencySimilarity.
  rewrite (proj2 (eqb_false a 0) Ha). cbn [orb].
  rewrite kernel_same. apply clamp_one.
Qed.

Lemma calculateFrequencySimilarity_range a b sd :
  0 <= calculateFrequencySimilarity a b sd <= 1.
Proof.
  unfold calculateFrequencySimilarity.
  destruct (eqb a 0 || eqb b 0); [lra | apply clamp_range].
Qed.

Lemma calculateFrequencySimilarity_zero_r a sd :
  calculateFrequencySimilarity a 0 sd = 0.
Proof.
  unfold calculateFrequencySimilarity. rewrite (eqb_refl 0). now rewrite orb_true_r.
Qed.

(** C7, as the script has it.  [calculateFrequencySimilarity] gives 1 on two
    equal frequencies when that frequency is not 0, for every standard
    deviation (the tolerance is [max(2 * stdDev, 20)], never 0); it gives 0
    when either frequency is 0; and its result lies in [0, 1] on all
    inputs. *)
Theorem calculateFrequencySimilarity_same_and_range :
  forall a b stdDev : R,
    (a <> 0 -> calculateFrequencySimilarity a a stdDev = 1)
    /\ (a = 0 \/ b = 0 -> calculateFrequencySimilarity a b stdDev = 0)
    /\ 0 <= calculateFrequencySimilarity a b stdDev <= 1.
Proof.
  intros a b sd. split; [|split].
  - apply calculateFrequencySimilarity_same.
  - intros [-> | ->].
    + apply calculateFrequencySimilarity_zero.
    + apply calculateFrequencySimilarity_zero_r.
  - apply calculateFrequencySimilarity_range.
Qed.

Lemma calculateFrequencySimilarity_same_and_range_witness :
  150 <> 0
  /\ calculateFrequencySimilarity 150 150 10 = 1
  /\ calculateFrequencySimilarity 0 150 10 = 0
  /\ calculateFrequencySimilarity 150 0 10 = 0
  /\ 0 <= calculateFrequencySimilarity 150 140 10 <= 1.
Proof.
  split; [lra|].
  destruct (calculateFrequencySimilarity_same_and_range 150 140 10) as (_ & _ & Hr).
  destruct (calculateFrequencySimilarity_same_and_range 150 150 10) as (Hs & _ & _).
  destruct (calculateFrequencySimilarity_same_and_range 0 150 10) as (_ & Hl & _).
  destruct (calculateFrequencySimilarity_same_and_range 150 0 10) as (_ & Hz & _).
  split; [apply Hs; lra|]. split; [apply Hl; left; reflexivity|].
  split; [apply Hz; right; reflexivity | exact Hr].
Defined.

(** C7, as stated, fails at frequency 0: a frequency of 0 stands for "no
    pitch found" and scores 0 against anything, itself included. *)
Lemma calculateFrequencySimilarity_not_reflexive :
  10 > 0 /\ calculateFrequencySimilarity 0 0 10 <> 1.
Proof.
  split; [lra|]. rewrite calculateFrequencySimilarity_zero. lra.
Qed.

Lemma verifyEnergyPattern_same vp cf :
  sameFields cf vp -> Voiceprint.energy vp <> 0 ->
  verifyEnergyPattern vp cf = 1.
Proof.
  intros (_ & _ & _ & _ & _ & _ & _ & Hz & He & _) Hne.
  unfold verifyEnergyPattern. rewrite He, Hz.
  rewrite (proj2 (eqb_false _ 0) Hne). cbn [orb].
  rewrite !kernel_same. lra.
Qed.

Lemma verifyEnergyPattern_silent vp cf :
  Voiceprint.energy vp = 0 -> verifyEnergyPattern vp cf = 0.
Proof.
  intros H. unfold verifyEnergyPattern. rewrite H, eqb_refl, orb_true_r.
  reflexivity.
Qed.

Lemma calculateFormantSimilarity_same f1 f2 f3 :
  frequency f1 <> 0 -> frequency f2 <> 0 -> frequency f3 <> 0 ->
  calculateFormantSimilarity [f1; f2; f3] [f1; f2; f3] = 1.
Proof.
  intros H1 H2 H3. unfold calculateFormantSimilarity.
  cbn [List.length Nat.eqb negb formantLoop formantWeights].
  rewrite (proj2 (eqb_false _ 0) H1), (proj2 (eqb_false _ 0) H2),
    (proj2 (eqb_false _ 0) H3).
  cbn [orb]. rewrite !kernel_same.
  replace (0 + 1 * 0.4 + 1 * 0.4 + 1 * 0.2) with 1 by lra.
  apply clamp_one.
Qed.

Lemma calculateVoiceSimilarity_same vp cf :
  sameFields cf vp -> calculateVoiceSimilarity vp cf = 1.
Proof.
  intros (_ & _ & _ & _ & _ & _ & _ & Hz & _ & Hv & Hh).
  unfold calculateVoiceSimilarity. rewrite Hz, Hv, Hh.
  cbn [fold_left]. unfold voiceStep. rewrite !gaussian_same.
  unfold mean_of. cbn [fst snd Nat.ltb Nat.leb INR]. lra.
Qed.

Lemma spectralStep_same acc a tol :
  spectralStep acc (mkCompared a a tol)
  = if eqb a 0 then acc else (fst acc + 1, S (snd acc)).
Proof.
  unfold spectralStep. cbn [current stored]. rewrite orb_diag, gaussian_same.
  reflexivity.
Qed.

Lemma calculateSpectralSimilarity_same vp cf :
  sameFields cf vp ->
  (Voiceprint.spectralCentroid vp <> 0 \/ Voiceprint.spectralRolloff vp <> 0
   \/ Voiceprint.spectralFlux vp <> 0 \/ Voiceprint.spectralFlatness vp <> 0) ->
  calculateSpectralSimilarity vp cf = 1.
Proof.
  intros (_ & _ & Hc & Hr & Hx & Ha & _) Hnz.
  unfold calculateSpectralSimilarity. rewrite Hc, Hr, Hx, Ha.
  cbn [fold_left]. rewrite !spectralStep_same.
  destruct (eqb (Voiceprint.spectralCentroid vp) 0) eqn:E1;
    destruct (eqb (Voiceprint.spectralRolloff vp) 0) eqn:E2;
    destruct (eqb (Voiceprint.spectralFlux vp) 0) eqn:E3;
    destruct (eqb (Voiceprint.spectralFlatness vp) 0) eqn:E4;
    unfold mean_of; cbn [fst snd Nat.ltb Nat.leb INR]; try lra.
  apply eqb_true in E1, E2, E3, E4. tauto.
Qed.

Lemma calculateSpectralSimilarity_silent vp cf :
  Voiceprint.spectralCentroid vp = 0 -> Voiceprint.spectralRolloff vp = 0 ->
  Voiceprint.spectralFlux vp = 0 -> Voiceprint.spectralFlatness vp = 0 ->
  calculateSpectralSimilarity vp cf = 0.
Proof.
  intros H1 H2 H3 H4. unfold calculateSpectralSimilarity.
  rewrite H1, H2, H3, H4. cbn [fold_left]. unfold spectralStep.
  cbn [current stored]. rewrite eqb_refl, !orb_true_r.
  unfold mean_of. reflexivity.
Qed.

(** *** Every layer scores between 0 and 1 *)

Lemma fold_spectralStep_range l acc :
  0 <= fst acc <= INR (snd acc) ->
  0 <= fst (fold_left spectralStep l acc) <= INR (snd (fold_left spectralStep l acc)).
Proof.
  revert acc. induction l as [|f l IH]; intros acc H; [exact H|].
  cbn [fold_left]. apply IH. unfold spectralStep.
  destruct (eqb (current f) 0 || eqb (stored f) 0); [exact H|].
  cbn [fst snd]. rewrite S_INR. pose proof (gaussian_range f). lra.
Qed.

Lemma fold_voiceStep_range l acc :
  0 <= fst acc <= INR (snd acc) ->
  0 <= fst (fold_left voiceStep l acc) <= INR (snd (fold_left voiceStep l acc)).
Proof.
  revert acc. induction l as [|f l IH]; intros acc H; [exact H|].
  cbn [fold_left]. apply IH. unfold voiceStep.
  cbn [fst snd]. rewrite S_INR. pose proof (gaussian_range f). lra.
Qed.

Lemma mean_of_range acc :
  0 <= fst acc <= INR (snd acc) -> 0 <= mean_of acc <= 1.
Proof.
  intros H. unfold mean_of.
  destruct (0 <? snd acc)%nat eqn:E; [|lra].
  apply Nat.ltb_lt in E. apply lt_0_INR in E.
  split.
  - apply Rmult_le_pos; [lra|]. left. now apply Rinv_0_lt_compat.
  - apply Rmult_le_reg_r with (INR (snd acc)); [exact E|].
    unfold Rdiv. rewrite Rmult_assoc, Rinv_l by lra. lra.
Qed.

Lemma calculateSpectralSimilarity_range vp cf :
  0 <= calculateSpectralSimilarity vp cf <= 1.
Proof.
  unfold calculateSpectralSimilarity. apply mean_of_range, fold_spectralStep_range.
  cbn. lra.
Qed.

Lemma calculateVoiceSimilarity_range vp cf :
  0 <= calculateVoiceSimilarity vp cf <= 1.
Proof.
  unfold calculateVoiceSimilarity. apply mean_of_range, fold_voiceStep_range.
  cbn. lra.
Qed.

Lemma calculateFormantSimilarity_range cur vp :
  0 <= calculateFormantSimilarity cur vp <= 1.
Proof.
  unfold calculateFormantSimilarity.
  destruct (negb _); [lra | apply clamp_range].
Qed.

Lemma verifyEnergyPattern_range vp cf : 0 <= verifyEnergyPattern vp cf <= 1.
Proof.
  unfold verifyEnergyPattern.
  destruct (eqb _ 0 || eqb _ 0); [lra|].
  match goal with
  | |- _ <= Math_exp (- sq ?x) * _ + Math_exp (- sq ?y) * _ <= _ =>
      pose proof (kernel_range x); pose proof (kernel_range y)
  end.
  lra.
Qed.

Lemma sameFields_featuresOf vp text now : sameFields (featuresOf vp text now) vp.
Proof. unfold sameFields, featuresOf. cbn. repeat split. Qed.

(** The confidence lies between 0 and 1. *)
Lemma multiLayerVerification_confidence_range s cf context :
  0 <= confidence (fst (multiLayerVerification cf context s)) <= 1.
Proof.
  destruct (voiceprint s) as [vp|] eqn:Hvp; [destruct cf as [cf|]|].
  - rewrite (multiLayerVerification_confidence _ _ _ _ Hvp).
    unfold layerScores, confidenceOf.
    pose proof (verifyEnergyPattern_range vp cf).
    pose proof (calculateFrequencySimilarity_range
                  (FeatureVector.fundamentalFreq cf) (Voiceprint.fundamentalFreq vp)
                  (Voiceprint.fundamentalFreqStd vp)).
    pose proof (calculateFormantSimilarity_range
                  (FeatureVector.formants cf) (Voiceprint.formants vp)).
    pose proof (calculateSpectralSimilarity_range vp cf).
    pose proof (calculateVoiceSimilarity_range vp cf).
    lra.
  - unfold multiLayerVerification. rewrite Hvp. cbn. lra.
  - unfold multiLayerVerification. rewrite Hvp. cbn. lra.
Qed.

End LayerFacts.

(** ** A feature vector identical to the voiceprint *)

Section IdenticalFeatures.

Import JS JSFacts.

Lemma five_pass : passedOf [1; 1; 1; 1; 1] = 5%nat.
Proof.
  unfold passedOf.
  rewrite !(proj2 (geb_true 1 _)) by lra. reflexivity.
Qed.

(** Every layer scores 1 on a feature vector equal to a voiceprint that has
    no zero where a layer looks for one. *)
Lemma all_layers_one vp cf f1 f2 f3 :
  sameFields cf vp ->
  Voiceprint.energy vp <> 0 ->
  Voiceprint.fundamentalFreq vp <> 0 ->
  Voiceprint.formants vp = [f1; f2; f3] ->
  frequency f1 <> 0 -> frequency f2 <> 0 -> frequency f3 <> 0 ->
  (Voiceprint.spectralCentroid vp <> 0 \/ Voiceprint.spectralRolloff vp <> 0
   \/ Voiceprint.spectralFlux vp <> 0 \/ Voiceprint.spectralFlatness vp <> 0) ->
  layerScores vp cf = [1; 1; 1; 1; 1].
Proof.
  intros Hsame He Hf Hfo H1 H2 H3 Hsp. unfold layerScores.
  rewrite (verifyEnergyPattern_same _ _ Hsame He).
  rewrite (calculateSpectralSimilarity_same _ _ Hsame Hsp).
  rewrite (calculateVoiceSimilarity_same _ _ Hsame).
  destruct Hsame as (Hf0 & Hfs & _). rewrite Hf0, Hfs, Hfo.
  rewrite (calculateFrequencySimilarity_same _ _ Hf).
  rewrite (calculateFormantSimilarity_same _ _ _ H1 H2 H3).
  reflexivity.
Qed.

(** The three contexts that the script names. *)
Lemma named_context_own context :
  In context ["wake_word"; "command"; "general"]%string -> inherited context = false.
Proof. intros [<- | [<- | [<- | []]]]; reflexivity. Qed.

(** A confidence of 1 reaches the threshold of every context that names no
    member of [Object.prototype]. *)
Lemma reaches_one context :
  inherited context = false -> reaches 1 (requiredThresholdOf context) = true.
Proof.
  intros Hown. apply (reaches_true _ _ Hown). unfold spec_contextThreshold.
  destruct (String.eqb context "wake_word"); [lra|].
  destruct (String.eqb context "command"); lra.
Qed.

(** C2, as the script has it.  When the voiceprint has a nonzero energy, a
    nonzero fundamental frequency, three formants of nonzero frequency and at
    least one nonzero spectral feature, a feature vector equal to it field by
    field gets confidence 1 and a positive verdict in each of the contexts
    wake_word, command and general. *)
Theorem identical_features_verified :
  forall (s : State) (vp : Voiceprint.t) (cf : FeatureVector.t) (context : string)
         (f1 f2 f3 : Formant),
    voiceprint s = Some vp ->
    sameFields cf vp ->
    Voiceprint.energy vp <> 0 ->
    Voiceprint.fundamentalFreq vp <> 0 ->
    Voiceprint.formants vp = [f1; f2; f3] ->
    frequency f1 <> 0 -> frequency f2 <> 0 -> frequency f3 <> 0 ->
    (Voiceprint.spectralCentroid vp <> 0 \/ Voiceprint.spectralRolloff vp <> 0
     \/ Voiceprint.spectralFlux vp <> 0 \/ Voiceprint.spectralFlatness vp <> 0) ->
    In context ["wake_word"; "command"; "general"]%string ->
    let r := fst (multiLayerVerification (Some cf) context s) in
    confidence r = 1 /\ isVerified r = true.
Proof.
  intros s vp cf context f1 f2 f3 Hvp Hsame He Hf Hfo H1 H2 H3 Hsp Hctx r. subst r.
  rewrite (multiLayerVerification_confidence _ _ _ _ Hvp).
  rewrite (multiLayerVerification_isVerified _ _ _ _ Hvp).
  rewrite (all_layers_one vp cf f1 f2 f3 Hsame He Hf Hfo H1 H2 H3 Hsp), five_pass.
  unfold confidenceOf. split; [lra|].
  replace (1 * 0.15 + 1 * 0.25 + 1 * 0.25 + 1 * 0.20 + 1 * 0.15) with 1 by lra.
  rewrite (reaches_one _ (named_context_own _ Hctx)). reflexivity.
Qed.

Lemma identical_features_verified_witness :
  let s := withVoiceprint pitchedVoiceprint in
  let cf := featuresOf pitchedVoiceprint "youtube" 0 in
  sameFields cf pitchedVoiceprint
  /\ (confidence (fst (multiLayerVerification (Some cf) "wake_word" s)) = 1
      /\ isVerified (fst (multiLayerVerification (Some cf) "wake_word" s)) = true)
  /\ (confidence (fst (multiLayerVerification (Some cf) "command" s)) = 1
      /\ isVerified (fst (multiLayerVerification (Some cf) "command" s)) = true)
  /\ (confidence (fst (multiLayerVerification (Some cf) "general" s)) = 1
      /\ isVerified (fst (multiLayerVerification (Some cf) "general" s)) = true).
Proof.
  intros s cf.
  assert (H : forall context,
             In context ["wake_word"; "command"; "general"]%string ->
             confidence (fst (multiLayerVerification (Some cf) context s)) = 1
             /\ isVerified (fst (multiLayerVerification (Some cf) context s)) = true).
  { intros context Hctx.
    apply (identical_features_verified s pitchedVoiceprint cf context
             (mkFormant 562.5 180) (mkFormant 1125 140) (mkFormant 1687.5 120)).
    - reflexivity.
    - apply sameFields_featuresOf.
    - cbn; lra.
    - cbn; lra.
    - reflexivity.
    - cbn; lra.
    - cbn; lra.
    - cbn; lra.
    - left; cbn; lra.
    - exact Hctx. }
  split; [apply sameFields_featuresOf|].
  split; [apply H; simpl; auto|]. split; apply H; simpl; auto.
Defined.


(** C2, as stated, fails on a voiceprint of a voice in which no pitch was
    found: its fundamental frequency is 0, the frequency layer scores 0, and
    the confidence of the identical feature vector is 0.75. *)
Lemma identical_features_unpitched :
  let s := withVoiceprint unpitchedVoiceprint in
  let cf := featuresOf unpitchedVoiceprint "youtube" 0 in
  sameFields cf unpitchedVoiceprint
  /\ confidence (fst (multiLayerVerification (Some cf) "wake_word" s)) = 0.75
  /\ confidence (fst (multiLayerVerification (Some cf) "wake_word" s)) <> 1.
Proof.
  intros s cf.
  assert (Hsame : sameFields cf unpitchedVoiceprint) by apply sameFields_featuresOf.
  assert (Hc : confidence (fst (multiLayerVerification (Some cf) "wake_word" s)) = 0.75).
  { rewrite (multiLayerVerification_confidence s unpitchedVoiceprint) by reflexivity.
    unfold layerScores.
    rewrite (verifyEnergyPattern_same _ _ Hsame) by (cbn; lra).
    rewrite (calculateSpectralSimilarity_same _ _ Hsame) by (left; cbn; lra).
    rewrite (calculateVoiceSimilarity_same _ _ Hsame).
    replace (FeatureVector.fundamentalFreq cf) with 0 by reflexivity.
    rewrite calculateFrequencySimilarity_zero.
    replace (FeatureVector.formants cf) with exampleFormants by reflexivity.
    replace (Voiceprint.formants unpitchedVoiceprint) with exampleFormants by reflexivity.
    unfold exampleFormants.
    rewrite calculateFormantSimilarity_same by (cbn; lra).
    unfold confidenceOf. lra. }
  split; [exact Hsame|]. split; [exact Hc|]. rewrite Hc. lra.
Qed.

(** On the voiceprint of an enrollment in silence the identical feature
    vector has confidence 0.40 and is rejected as a wake word. *)
Lemma identical_features_silent :
  let s := withVoiceprint silentVoiceprint in
  let cf := featuresOf silentVoiceprint "youtube" 0 in
  confidence (fst (multiLayerVerification (Some cf) "wake_word" s)) = 0.40
  /\ isVerified (fst (multiLayerVerification (Some cf) "wake_word" s)) = false.
Proof.
  intros s cf.
  assert (Hsame : sameFields cf silentVoiceprint) by apply sameFields_featuresOf.
  assert (Hscores : layerScores silentVoiceprint cf = [0; 0; 1; 0; 1]).
  { unfold layerScores.
    rewrite verifyEnergyPattern_silent by reflexivity.
    rewrite calculateSpectralSimilarity_silent by reflexivity.
    rewrite (calculateVoiceSimilarity_same _ _ Hsame).
    replace (FeatureVector.fundamentalFreq cf) with 0 by reflexivity.
    rewrite calculateFrequencySimilarity_zero.
    replace (FeatureVector.formants cf)
      with [mkFormant 187.5 0; mkFormant 750 0; mkFormant 1500 0] by reflexivity.
    replace (Voiceprint.formants silentVoiceprint)
      with [mkFormant 187.5 0; mkFormant 750 0; mkFormant 1500 0] by reflexivity.
    rewrite calculateFormantSimilarity_same by (cbn; lra).
    reflexivity. }
  rewrite (multiLayerVerification_confidence s silentVoiceprint) by reflexivity.
  rewrite (multiLayerVerification_isVerified s silentVoiceprint) by reflexivity.
  rewrite Hscores. unfold confidenceOf. split; [lra|].
  apply andb_false_iff. left.
  rewrite requiredThresholdOf_spec by reflexivity.
  unfold spec_contextThreshold. cbn [String.eqb Ascii.eqb Bool.eqb reaches].
  unfold geb. destruct (Rge_dec _ _) as [H|H]; [lra | reflexivity].
Qed.

End IdenticalFeatures.

(** ** Ducking *)

Section Ducking.

Lemma duckAudio_skip (enable : bool) (s : State) :
  isDucking s = enable -> duckAudio enable s = s.
Proof.
  intros H. unfold duckAudio. destruct (video s); [|reflexivity].
  rewrite H. destruct enable; reflexivity.
Qed.

Lemma duckAudio_isDucking (enable : bool) (s : State) (v : R) :
  video s = Some v -> isDucking (duckAudio enable s) = enable.
Proof.
  intros Hv. unfold duckAudio. rewrite Hv.
  destruct enable, (isDucking s) eqn:E; cbn; auto.
Qed.

Lemma duckAudio_twice (enable : bool) (s : State) :
  duckAudio enable (duckAudio enable s) = duckAudio enable s.
Proof.
  destruct (video s) as [v|] eqn:Hv.
  - apply duckAudio_skip. now apply duckAudio_isDucking with v.
  - unfold duckAudio at 2. rewrite Hv. unfold duckAudio. now rewrite Hv.
Qed.

(** C6. Ducking while ducked and restoring while not ducked change nothing,
    neither the volume nor the flag nor the remembered volume; a second call
    with the same argument changes nothing; and after two calls
    [duckAudio(true)] from a state that was not ducked the remembered volume
    is the volume the video had before the first. *)
Theorem duckAudio_idempotent :
  forall s : State,
    (isDucking s = true -> duckAudio true s = s)
    /\ (isDucking s = false -> duckAudio false s = s)
    /\ (forall enable, duckAudio enable (duckAudio enable s) = duckAudio enable s)
    /\ (forall v, video s = Some v -> isDucking s = false ->
        originalVolume (duckAudio true (duckAudio true s)) = v).
Proof.
  intros s. repeat split.
  - apply duckAudio_skip.
  - apply duckAudio_skip.
  - intros enable. apply duckAudio_twice.
  - intros v Hv Hd. rewrite duckAudio_twice.
    unfold duckAudio. rewrite Hv, Hd. reflexivity.
Qed.

End Ducking.

Lemma duckAudio_idempotent_witness :
  isDucking (ducked 0.8) = true
  /\ duckAudio true (ducked 0.8) = ducked 0.8
  /\ isDucking (playing 0.8) = false
  /\ duckAudio false (playing 0.8) = playing 0.8
  /\ originalVolume (duckAudio true (duckAudio true (playing 0.8))) = 0.8.
Proof.
  destruct (duckAudio_idempotent (ducked 0.8)) as (H1 & _).
  destruct (duckAudio_idempotent (playing 0.8)) as (_ & H2 & _ & H3).
  split; [reflexivity|]. split; [apply H1; reflexivity|].
  split; [reflexivity|]. split; [apply H2; reflexivity|].
  apply H3; reflexivity.
Defined.

(** ** The command window *)

Section CommandWindow.

Variable Command : Type.
Variable extractCommands : string -> list Command.
Variable executeCommand : Command -> State -> State.
Variable completeEnrollment : State -> State.

Local Abbreviation stepE := (step Command extractCommands executeCommand completeEnrollment).
Local Abbreviation quietRunE := (quietRun Command extractCommands executeCommand completeEnrollment).
Local Abbreviation processWakeWordE := (processWakeWord Command extractCommands executeCommand).
Local Abbreviation openCommandWindowE := (openCommandWindow Command extractCommands executeCommand).

Ltac duck_cases s :=
  unfold duckAudio; destruct (video s);
  [ destruct (_ && negb (isDucking s));
    [ | destruct (_ && isDucking s) ] | ]; reflexivity.

Lemma duckAudio_timers b s : timers (duckAudio b s) = timers s.
Proof. duck_cases s. Qed.

Lemma duckAudio_nextTimerId b s : nextTimerId (duckAudio b s) = nextTimerId s.
Proof. duck_cases s. Qed.

Lemma duckAudio_wakeWordDetected b s :
  wakeWordDetected (duckAudio b s) = wakeWordDetected s.
Proof. duck_cases s. Qed.

Lemma duckAudio_wakeWordTimeout b s :
  wakeWordTimeout (duckAudio b s) = wakeWordTimeout s.
Proof. duck_cases s. Qed.

Lemma duckAudio_isActive b s : isActive (duckAudio b s) = isActive s.
Proof. duck_cases s. Qed.

Lemma duckAudio_pending b h s : pending h (duckAudio b s) = pending h s.
Proof. unfold pending. now rewrite duckAudio_timers. Qed.

(** Ducking and restoring never change the volume that playback returns to. *)
Lemma duckAudio_unduckedVolume b s :
  unduckedVolume (duckAudio b s) = unduckedVolume s.
Proof.
  unfold unduckedVolume, duckAudio.
  destruct (video s) as [v|] eqn:Hv; [|now rewrite Hv].
  destruct b, (isDucking s) eqn:Hd; cbn; rewrite ?Hv, ?Hd; reflexivity.
Qed.

Lemma duckAudio_false_video s : video (duckAudio false s) = unduckedVolume s.
Proof.
  unfold unduckedVolume, duckAudio.
  destruct (video s) as [v|] eqn:Hv; [|now rewrite Hv].
  destruct (isDucking s) eqn:Hd; cbn; rewrite ?Hv; reflexivity.
Qed.

Lemma pending_setTimer h d rep cb s t :
  pending h s = Some t -> pending h (snd (setTimer d rep cb s)) = Some t.
Proof.
  unfold pending, setTimer. cbn. intros H.
  induction (timers s) as [|x l IH]; [discriminate|].
  cbn in *. destruct (tid x =? h)%nat; auto.
Qed.

Lemma pending_setTimer_fresh d rep cb s :
  handlesFresh s ->
  pending (nextTimerId s) (snd (setTimer d rep cb s))
  = Some (mkTimer (nextTimerId s) d rep cb).
Proof.
  unfold pending, setTimer, handlesFresh. cbn. intros H.
  induction (timers s) as [|x l IH].
  - cbn. now rewrite Nat.eqb_refl.
  - cbn. destruct (tid x =? nextTimerId s)%nat eqn:E.
    + apply Nat.eqb_eq in E. specialize (H x (or_introl eq_refl)). lia.
    + apply IH. intros t Ht. apply H. now right.
Qed.

Lemma pending_clearTimer_other h h' s :
  h <> h' -> pending h (clearTimer h' s) = pending h s.
Proof.
  unfold pending, clearTimer. cbn. intros Hne.
  induction (timers s) as [|x l IH]; [reflexivity|].
  cbn. destruct (tid x =? h')%nat eqn:E'; cbn.
  - apply Nat.eqb_eq in E'.
    destruct (tid x =? h)%nat eqn:E; [apply Nat.eqb_eq in E; lia | exact IH].
  - destruct (tid x =? h)%nat; [reflexivity | exact IH].
Qed.

Lemma pending_clearTimer_same h s : pending h (clearTimer h s) = None.
Proof.
  unfold pending, clearTimer. cbn.
  induction (timers s) as [|x l IH]; [reflexivity|].
  cbn. destruct (tid x =? h)%nat eqn:E; cbn; [exact IH|].
  now rewrite E.
Qed.

Lemma startListening_commandWindow h p throws s :
  commandWindow h p s -> commandWindow h p (startListening throws s).
Proof.
  intros (Hw & Ht & (t & Hp & Hc) & Hu). unfold startListening.
  destruct (isListening s); [repeat split; eauto|].
  destruct throws; cbn.
  - repeat split; auto. exists t. split; [|exact Hc].
    apply (pending_setTimer h 1000 false CbStartListening
             (set_isActive true s) t Hp).
  - repeat split; eauto.
Qed.

Lemma recognition_onstart_commandWindow h p s :
  commandWindow h p s -> commandWindow h p (recognition_onstart s).
Proof.
  intros (Hw & Ht & (t & Hp & Hc) & Hu). unfold recognition_onstart.
  cbn. rewrite Hw.
  unfold commandWindow.
  rewrite duckAudio_wakeWordDetected, duckAudio_wakeWordTimeout,
    duckAudio_pending, duckAudio_unduckedVolume.
  repeat split; eauto.
Qed.

Lemma recognition_onend_commandWindow h p s :
  commandWindow h p s -> commandWindow h p (recognition_onend s).
Proof.
  intros (Hw & Ht & (t & Hp & Hc) & Hu). unfold recognition_onend.
  set (s1 := duckAudio false (set_isListening false s)).
  assert (H1 : commandWindow h p s1).
  { unfold commandWindow, s1.
    rewrite duckAudio_wakeWordDetected, duckAudio_wakeWordTimeout,
      duckAudio_pending, duckAudio_unduckedVolume.
    repeat split; eauto. }
  destruct (isActive s1); [|exact H1].
  destruct H1 as (Hw1 & Ht1 & (t1 & Hp1 & Hc1) & Hu1).
  cbn. repeat split; auto. exists t1. split; [|exact Hc1].
  apply (pending_setTimer h 300 false CbStartListening s1 t1 Hp1).
Qed.

Lemma quiet_step_commandWindow h p e s :
  quiet e s = true -> commandWindow h p s -> commandWindow h p (stepE e s).
Proof.
  intros Hq Hcw. destruct e; cbn in Hq; try discriminate; cbn [step].
  - (* a timer other than the one of the window *)
    unfold fire.
    destruct (pending h0 s) as [t0|] eqn:Hp0; [|exact Hcw].
    assert (Hother : callback t0 <> CbResetWakeWord)
      by (intros E; rewrite E in Hq; discriminate).
    assert (Hcw' : commandWindow h p (if repeats t0 then s else clearTimer h0 s)).
    { destruct (repeats t0); [exact Hcw|].
      destruct Hcw as (Hw & Ht & (t & Hp & Hc) & Hu).
      assert (Hne : h <> h0).
      { intros ->. rewrite Hp in Hp0. injection Hp0 as ->.
        destruct Hc as (Hc & _). congruence. }
      repeat split; auto. exists t. split; [|exact Hc].
      rewrite pending_clearTimer_other; auto. }
    destruct (callback t0) eqn:Hcb; try discriminate; cbn [runCallback].
    + now apply startListening_commandWindow.
    + exact Hcw'.
    + exact Hcw'.
  - now apply recognition_onstart_commandWindow.
  - exact Hcw.
  - now apply recognition_onend_commandWindow.
  - now apply startListening_commandWindow.
Qed.

Lemma quietRun_commandWindow h p s s' :
  quietRunE s s' -> commandWindow h p s -> commandWindow h p s'.
Proof.
  induction 1 as [s | e s s' Hq Hrun IH]; [auto|].
  intros Hcw. apply IH. now apply quiet_step_commandWindow.
Qed.

Lemma openCommandWindow_commandWindow env transcript s :
  handlesFresh s ->
  JSString.trim (JSString.replace "youtube" "" transcript) = ""%string ->
  commandWindow (nextTimerId s) (unduckedVolume s) (openCommandWindowE env transcript s).
Proof.
  intros Hfresh Hcmd. unfold openCommandWindow. rewrite Hcmd. cbn [String.eqb negb].
  set (s1 := duckAudio true (set_wakeWordDetected true s)).
  assert (Hid : nextTimerId s1 = nextTimerId s)
    by (unfold s1; now rewrite duckAudio_nextTimerId).
  assert (Hf1 : handlesFresh s1).
  { unfold handlesFresh, s1. rewrite duckAudio_timers, duckAudio_nextTimerId.
    exact Hfresh. }
  unfold setTimeout.
  pose proof (pending_setTimer_fresh wakeWordWindow false CbResetWakeWord s1 Hf1) as Hp.
  destruct (setTimer wakeWordWindow false CbResetWakeWord s1) as [h s2] eqn:E.
  assert (Hh : h = nextTimerId s) by (unfold setTimer in E; injection E as <- _; exact Hid).
  subst h. cbn [snd] in Hp. rewrite Hid in Hp.
  unfold commandWindow. cbn.
  assert (Hs2 : s2 = snd (setTimer wakeWordWindow false CbResetWakeWord s1)) by now rewrite E.
  repeat split.
  - rewrite Hs2. cbn. unfold s1. now rewrite duckAudio_wakeWordDetected.
  - eexists. split; [exact Hp|]. cbn. auto.
  - unfold unduckedVolume. rewrite Hs2. cbn.
    change (unduckedVolume s1 = unduckedVolume s).
    unfold s1. now rewrite duckAudio_unduckedVolume.
Qed.

Lemma resetWakeWord_idle s :
  idle (resetWakeWord s) /\ video (resetWakeWord s) = unduckedVolume s.
Proof.
  unfold resetWakeWord, idle.
  set (s1 := duckAudio false (set_wakeWordDetected false s)).
  assert (Hw : wakeWordDetected s1 = false)
    by (unfold s1; now rewrite duckAudio_wakeWordDetected).
  assert (Hv : video s1 = unduckedVolume s)
    by (unfold s1; now rewrite duckAudio_false_video).
  destruct (wakeWordTimeout s1) eqn:E; cbn; auto.
Qed.

Lemma captureVoiceFeatures_frame env transcript s :
  snd (captureVoiceFeatures env transcript false s) = s.
Proof. unfold captureVoiceFeatures. destruct (analyser s); reflexivity. Qed.

Lemma processWakeWord_accepted env transcript s :
  JSString.includes "youtube" transcript = true ->
  (voiceprint s = None
   \/ isVerified (fst (multiLayerVerification
                         (fst (captureVoiceFeatures env transcript false s))
                         "wake_word" s)) = true) ->
  processWakeWordE env transcript s = openCommandWindowE env transcript s.
Proof.
  intros Hinc Hok. unfold processWakeWord. rewrite Hinc.
  destruct (voiceprint s) as [vp|] eqn:Hvp; [|reflexivity].
  destruct Hok as [Hno | Hok]; [discriminate|].
  pose proof (captureVoiceFeatures_frame env transcript s) as Hf.
  destruct (captureVoiceFeatures env transcript false s) as [cf s1].
  cbn [fst snd] in *. subst s1.
  pose proof (multiLayerVerification_frame cf "wake_word" s) as Hm.
  destruct (multiLayerVerification cf "wake_word" s) as [v s2].
  cbn [fst snd] in *. subst s2. now rewrite Hok.
Qed.

(** C5. When the wake word is accepted and the utterance carries no
    command, the window opens with a timer of 4000 ms pending whose callback
    is [resetWakeWord]; and if, from there, only events that are not
    utterances occur until that timer comes due, the machine is idle
    afterwards (wake-word flag cleared, no window timer left) and the video
    plays at the volume it had before it was ducked. *)
Theorem command_window_times_out :
  forall (env : Env) (transcript : string) (s s2 : State) (startThrows : bool),
    handlesFresh s ->
    JSString.includes "youtube" transcript = true ->
    JSString.trim (JSString.replace "youtube" "" transcript) = ""%string ->
    (voiceprint s = None
     \/ isVerified (fst (multiLayerVerification
                           (fst (captureVoiceFeatures env transcript false s))
                           "wake_word" s)) = true) ->
    let s1 := processWakeWordE env transcript s in
    let h := nextTimerId s in
    commandWindow h (unduckedVolume s) s1
    /\ (quietRunE s1 s2 ->
        let s3 := stepE (TimerDue h startThrows) s2 in
        idle s3 /\ video s3 = unduckedVolume s /\ pending h s3 = None).
Proof.
  intros env transcript s s2 throws Hfresh Hinc Hcmd Hok s1 h.
  assert (H1 : commandWindow h (unduckedVolume s) s1).
  { unfold s1. rewrite processWakeWord_accepted by assumption.
    now apply openCommandWindow_commandWindow. }
  split; [exact H1|].
  intros Hrun s3.
  pose proof (quietRun_commandWindow h _ s1 s2 Hrun H1)
    as (Hw & Ht & (t & Hp & Hc & _ & Hrep) & Hu).
  unfold s3. cbn [step]. unfold fire.
  rewrite Hp, Hrep, Hc. cbn [runCallback].
  destruct (resetWakeWord_idle (clearTimer h s2)) as (Hidle & Hv).
  split; [exact Hidle|]. split.
  - rewrite Hv. rewrite <- Hu. reflexivity.
  - unfold resetWakeWord.
    set (s' := duckAudio false (set_wakeWordDetected false (clearTimer h s2))).
    assert (Hp' : pending h s' = None).
    { unfold s'. rewrite duckAudio_pending.
      apply (pending_clearTimer_same h s2). }
    destruct (wakeWordTimeout s') as [h'|]; [|exact Hp'].
    change (pending h (clearTimer h' s') = None).
    destruct (Nat.eq_dec h h') as [<- | Hne].
    + apply pending_clearTimer_same.
    + now rewrite pending_clearTimer_other.
Qed.

End CommandWindow.

Lemma command_window_times_out_witness :
  let env := mkEnv [] [] 0 in
  let s := playing 0.8 in
  let step := step unit (fun _ => []) (fun _ s => s) (fun s => s) in
  let s1 := processWakeWord unit (fun _ => []) (fun _ s => s) env "youtube" s in
  let s2 := step RecognitionStart (step RecognitionEnd s1) in
  let s3 := step (TimerDue 1 false) s2 in
  commandWindow 1 (Some 0.8) s1
  /\ idle s3 /\ video s3 = Some 0.8 /\ pending 1 s3 = None.
Proof.
  intros env s step s1 s2 s3.
  assert (Hfresh : handlesFresh s) by (intros t []).
  destruct (command_window_times_out unit (fun _ => []) (fun _ s => s) (fun s => s)
              env "youtube" s s2 false Hfresh eq_refl eq_refl (or_introl eq_refl))
    as (H1 & H2).
  split; [exact H1|].
  apply H2.
  apply quiet_next with (e := RecognitionEnd); [reflexivity|].
  apply quiet_next with (e := RecognitionStart); [reflexivity|].
  apply quiet_done.
Defined.

(** ** Cancelling a training run *)

Section Cancellation.

Variable Command : Type.
Variable extractCommands : string -> list Command.
Variable executeCommand : Command -> State -> State.
Variable completeEnrollment : State -> State.

Local Abbreviation runE := (run Command extractCommands executeCommand completeEnrollment).

Lemma stopEnrollmentRecognition_timers s :
  timers (stopEnrollmentRecognition s) = timers s.
Proof. unfold stopEnrollmentRecognition. destruct (enrollmentRecognition s); reflexivity. Qed.

Lemma stopEnrollmentRecognition_interval s :
  enrollmentCountdownInterval (stopEnrollmentRecognition s)
  = enrollmentCountdownInterval s.
Proof. unfold stopEnrollmentRecognition. destruct (enrollmentRecognition s); reflexivity. Qed.

(** Of the timers pending when [cancelTraining] is called, it removes the
    one whose handle is in [enrollmentCountdownInterval] and no other. *)
Lemma cancelTraining_keeps_timers s t :
  In t (timers s) ->
  enrollmentCountdownInterval s <> Some (tid t) ->
  In t (timers (cancelTraining s)).
Proof.
  intros Hin Hne. unfold cancelTraining, setTimeout, setTimer. cbn [snd].
  cbn. apply in_or_app. left.
  unfold hideTrainingPanel, setTimeout, setTimer. cbn.
  assert (Hkept : In t (timers (clearHandle
            (enrollmentCountdownInterval (stopEnrollmentRecognition s))
            (stopEnrollmentRecognition s)))).
  { rewrite stopEnrollmentRecognition_interval.
    destruct (enrollmentCountdownInterval s) as [h|] eqn:E; cbn.
    - rewrite stopEnrollmentRecognition_timers. apply filter_In. split; [exact Hin|].
      apply negb_true_iff, Nat.eqb_neq. congruence.
    - now rewrite stopEnrollmentRecognition_timers. }
  destruct (trainingPanel _); cbn; [apply in_or_app; left|]; exact Hkept.
Qed.

(** C3 on the script.  A training run is cancelled while the first phrase
    is being recorded.  Right after [cancelTraining] the 5 s session timeout
    and the 8 s processing timeout are still pending (only the countdown
    interval is gone), and enrollment mode is off.  The recognizer then ends,
    as [stop()] makes it, its [onend] handler schedules a retry, and when the
    retry and the timer it sets have come due a new recognition session has
    been created for the phrase: the enrollment step has started again. *)
Theorem cancelTraining_does_not_stop_enrollment :
  let recording :=
    runE [StartTraining; TimerDue 1 false; TimerDue 2 false; EnrollmentStart 0]
      initialState in
  let cancelled := cancelTraining recording in
  let later :=
    runE [EnrollmentEnd 0; TimerDue 8 false; TimerDue 9 false] cancelled in
  (enrollmentRecognition recording = Some 0%nat
   /\ pending 3 recording = Some (mkTimer 3 1000 true (CbCountdownTick 0))
   /\ pending 4 recording = Some (mkTimer 4 5000 false (CbEnrollmentTimeout 0))
   /\ pending 5 recording = Some (mkTimer 5 8000 false (CbProcessingTimeout 0)))
  /\ (enrollmentMode cancelled = false
      /\ pending 3 cancelled = None
      /\ pending 4 cancelled = Some (mkTimer 4 5000 false (CbEnrollmentTimeout 0))
      /\ pending 5 cancelled = Some (mkTimer 5 8000 false (CbProcessingTimeout 0)))
  /\ (enrollmentMode later = false
      /\ enrollmentRecognition later = Some 1%nat
      /\ session 1 later = Some (mkSession false None 0 false)).
Proof.
  cbv zeta. repeat split; reflexivity.
Qed.

(** The same with a retry already scheduled: the phrase was heard and
    rejected, the session has ended, and the retry of 1.2 s is pending when
    the run is cancelled.  It stays pending, and when it has come due a new
    session is created. *)
Lemma cancelTraining_keeps_retry :
  let env := mkEnv [] [] 0 in
  let rejected :=
    runE [StartTraining; TimerDue 1 false; TimerDue 2 false; EnrollmentStart 0;
          EnrollmentResult 0 env "hello there"; EnrollmentEnd 0]
      initialState in
  let cancelled := cancelTraining rejected in
  let later := runE [TimerDue 6 false; TimerDue 9 false] cancelled in
  pending 6 rejected = Some (mkTimer 6 1200 false CbContinueEnrollment)
  /\ pending 6 cancelled = Some (mkTimer 6 1200 false CbContinueEnrollment)
  /\ enrollmentMode cancelled = false
  /\ enrollmentRecognition later = Some 1%nat
  /\ session 1 later = Some (mkSession false None 0 false).
Proof.
  cbv zeta. repeat split; reflexivity.
Qed.

End Cancellation.

(** ** Phrase matching during enrollment *)

Section PhraseMatching.

Import JSString.

Lemma lowerChar_idempotent c : lowerChar (lowerChar c) = lowerChar c.
Proof. destruct c as [[] [] [] [] [] [] [] []]; reflexivity. Qed.

Lemma toLowerCase_idempotent s : toLowerCase (toLowerCase s) = toLowerCase s.
Proof.
  induction s as [|c s IH]; [reflexivity|].
  cbn. now rewrite lowerChar_idempotent, IH.
Qed.





Lemma clearHandle_analyser h s : analyser (clearHandle h s) = analyser s.
Proof. destruct h; reflexivity. Qed.

Lemma clearHandle_enrollmentSamples h s :
  enrollmentSamples (clearHandle h s) = enrollmentSamples s.
Proof. destruct h; reflexivity. Qed.

Lemma clearHandle_nextTimerId h s : nextTimerId (clearHandle h s) = nextTimerId s.
Proof. destruct h; reflexivity. Qed.

Lemma stopEnrollmentRecognition_nextTimerId s :
  nextTimerId (stopEnrollmentRecognition s) = nextTimerId s.
Proof. unfold stopEnrollmentRecognition. destruct (enrollmentRecognition s); reflexivity. Qed.

Lemma captureVoiceFeatures_nextTimerId env transcript b s :
  nextTimerId (snd (captureVoiceFeatures env transcript b s)) = nextTimerId s.
Proof. unfold captureVoiceFeatures. destruct (analyser s), b; reflexivity. Qed.


Lemma stopEnrollmentRecognition_analyser s :
  analyser (stopEnrollmentRecognition s) = analyser s.
Proof. unfold stopEnrollmentRecognition. destruct (enrollmentRecognition s); reflexivity. Qed.

Lemma stopEnrollmentRecognition_enrollmentSamples s :
  enrollmentSamples (stopEnrollmentRecognition s) = enrollmentSamples s.
Proof. unfold stopEnrollmentRecognition. destruct (enrollmentRecognition s); reflexivity. Qed.

Lemma captureVoiceFeatures_samples env transcript s :
  enrollmentSamples (snd (captureVoiceFeatures env transcript true s))
  = enrollmentSamples s
    ++ match analyser s with
       | Some sampleRate => [extractFeatures sampleRate env transcript]
       | None => []
       end.
Proof.
  unfold captureVoiceFeatures. destruct (analyser s); cbn; [reflexivity|].
  now rewrite app_nil_r.
Qed.


Lemma captureVoiceFeatures_matched env transcript b s :
  enrollmentPhraseMatched (snd (captureVoiceFeatures env transcript b s))
  = enrollmentPhraseMatched s.
Proof. unfold captureVoiceFeatures. destruct (analyser s), b; reflexivity. Qed.

(** *** The matrix of [levenshteinDistance] holds the edit distances *)

Lemma editDistance_nil_r s : editDistance s [] = List.length s.
Proof. destruct s; reflexivity. Qed.

Lemma prefixRow_head ru w rv :
  prefixRow ru w rv = editDistance ru rv :: tl (prefixRow ru w rv).
Proof. destruct w; reflexivity. Qed.

Lemma prefixRow_first_row ru w :
  prefixRow ru w [] = seq (List.length ru) (S (List.length w)).
Proof.
  revert ru. induction w as [|a w IH]; intros ru.
  - cbn. now rewrite editDistance_nil_r.
  - cbn [prefixRow List.length]. rewrite IH, editDistance_nil_r. reflexivity.
Qed.

Lemma levRow_prefixRow w ru rv c :
  levRow w c (prefixRow ru w rv) (editDistance ru (c :: rv))
  = tl (prefixRow ru w (c :: rv)).
Proof.
  revert ru. induction w as [|a w IH]; intros ru; [reflexivity|].
  cbn [prefixRow tl]. rewrite (prefixRow_head (a :: ru) w rv).
  cbn [levRow].
  change (Nat.min (Nat.min (editDistance ru (c :: rv) + 1)
                           (editDistance (a :: ru) rv + 1))
                  (editDistance ru rv + (if Ascii.eqb a c then 0 else 1))%nat)
    with (editDistance (a :: ru) (c :: rv)).
  rewrite <- (prefixRow_head (a :: ru) w rv), IH.
  now rewrite <- prefixRow_head.
Qed.

Lemma levRows_prefixRow s1 rest rv :
  levRows s1 rest (prefixRow [] s1 rv) (S (List.length rv))
  = prefixRow [] s1 (List.rev rest ++ rv).
Proof.
  revert rv. induction rest as [|c rest IH]; intros rv; [reflexivity|].
  cbn [levRows].
  change (S (List.length rv)) with (editDistance [] (c :: rv)) at 1 2.
  rewrite levRow_prefixRow, <- prefixRow_head.
  change (S (editDistance [] (c :: rv))) with (S (List.length (c :: rv))).
  rewrite IH. cbn [List.rev]. now rewrite <- app_assoc.
Qed.

Lemma last_prefixRow ru w rv d :
  last (prefixRow ru w rv) d = editDistance (List.rev w ++ ru) rv.
Proof.
  revert ru. induction w as [|a w IH]; intros ru; [reflexivity|].
  cbn [prefixRow List.rev]. rewrite <- app_assoc. cbn [app].
  rewrite <- IH. rewrite (prefixRow_head (a :: ru) w rv). reflexivity.
Qed.

(** The number that [levenshteinDistance] reads from the last cell of its
    matrix is the Levenshtein distance of the two strings. *)
Lemma levenshteinDistance_spec str1 str2 :
  levenshteinDistance str1 str2 = spec_levenshtein str1 str2.
Proof.
  unfold levenshteinDistance, spec_levenshtein.
  set (s1 := list_ascii_of_string str1). set (s2 := list_ascii_of_string str2).
  pose proof (prefixRow_first_row [] s1) as Hrow. cbn [List.length] in Hrow.
  rewrite <- Hrow.
  change 1%nat with (S (@List.length ascii [])).
  rewrite levRows_prefixRow, last_prefixRow. now rewrite !app_nil_r.
Qed.

Example kitten_sitting : levenshteinDistance "kitten" "sitting" = 3%nat.
Proof. reflexivity. Qed.


End PhraseMatching.


(** Phrases of the specification's examples. *)
Example cer_same : calculateCER "youtube pause" "youtube pause" == 0.
Proof. reflexivity. Qed.

Example cer_one_off :
  (0 < calculateCER "youtub pause" "youtube pause" < 1)%Q.
Proof. split; reflexivity. Qed.

(** "okay" is two substitutions away from "play": the error rate is 2/12 and
    the similarity 10/12, above the 0.8 asked of a two-word phrase. *)
Example okay_similarity :
  calculatePhraseSimilarity "youtube okay" "youtube play" == 10 # 12.
Proof. reflexivity. Qed.

Example okay_accepted : phraseMatches "youtube okay" "youtube play" = true.
Proof. reflexivity. Qed.

Example stop_rejected : phraseMatches "youtube stop" "youtube play" = false.
Proof. reflexivity. Qed.

Example play_accepted : phraseMatches "youtube play" "youtube play" = true.
Proof. reflexivity. Qed.

(** ** Feature extraction *)

Section Flatness.

Import JS.

Lemma sqrt_4 : sqrt 4 = 2.
Proof. apply sqrt_lem_1; lra. Qed.

Lemma calculateSpectralFlatness_twoBins : calculateSpectralFlatness twoBins = 1 / 2.
Proof.
  unfold calculateSpectralFlatness, twoBins, len.
  cbn [List.length tl fold_left flatnessStep Z.ltb Z.compare Nat.ltb Nat.leb
       Z.of_nat Pos.of_succ_nat Pos.succ INR].
  unfold Math_pow.
  replace (1.0 / 2) with (/ 2) by lra.
  rewrite Rpower_sqrt by lra. rewrite sqrt_4. lra.
Qed.

Lemma spec_spectralFlatness_twoBins : spec_spectralFlatness twoBins = 1.
Proof.
  unfold spec_spectralFlatness, twoBins, spec_geometricMean, spec_arithmeticMean.
  cbn [nonzero filter Z.eqb negb fold_right List.length INR].
  replace (1 / 1) with 1 by lra. rewrite Rpower_1 by lra. lra.
Qed.

Lemma flatnessStep_zeros n k acc :
  fold_left (flatnessStep n) (repeat 0%Z k) acc = acc.
Proof.
  induction k as [|k IH]; [reflexivity|].
  cbn [repeat fold_left]. destruct acc as [[g a] c]. cbn [flatnessStep Z.ltb Z.compare].
  apply IH.
Qed.

Lemma Rpower_16_128 : Rpower 16 (1 / 128) < 2.
Proof.
  unfold Rpower. replace 16 with (2 ^ 4) by lra. rewrite ln_pow by lra.
  pose proof ln_lt_2 as Hln.
  rewrite <- (exp_ln 2) at 2 by lra. apply exp_increasing.
  cbn [INR]. lra.
Qed.

Lemma calculateSpectralFlatness_singleTone :
  calculateSpectralFlatness singleTone = Rpower 16 (1 / 128) / 16.
Proof.
  unfold calculateSpectralFlatness, singleTone, len.
  replace (List.length (0 :: 16 :: repeat 0 126)%Z) with 128%nat by reflexivity.
  change (Z.of_nat 128) with 128%Z.
  cbn [tl fold_left]. cbn [flatnessStep Z.ltb Z.compare].
  rewrite flatnessStep_zeros. cbn [Nat.ltb Nat.leb INR]. unfold Math_pow.
  replace (1.0 / 128) with (1 / 128) by lra.
  pose proof (exp_pos (1 / 128 * ln 16)) as Hpos. unfold Rpower in *. field.
Qed.

Lemma spec_spectralFlatness_singleTone : spec_spectralFlatness singleTone = 1.
Proof.
  unfold spec_spectralFlatness.
  replace (nonzero singleTone) with [16%Z] by reflexivity.
  unfold spec_geometricMean, spec_arithmeticMean.
  cbn [fold_right List.length INR].
  replace (1 / 1) with 1 by lra. rewrite Rpower_1 by lra. lra.
Qed.

(** C8 on the script.  On the frame of two bins [0; 4] the script returns
    1/2, and on the frame of 128 bins with the single tone 16 in bin 1 it
    returns less than 1/8, where the geometric mean of the nonzero
    magnitudes over their arithmetic mean is 1 in both: the script raises
    each nonzero magnitude to the power 1/N for the N bins of the frame, not
    for the number of nonzero bins it divides the sum by. *)
Theorem calculateSpectralFlatness_not_flatness :
  (calculateSpectralFlatness twoBins = 1 / 2 /\ spec_spectralFlatness twoBins = 1)
  /\ (calculateSpectralFlatness singleTone < 1 / 8
      /\ spec_spectralFlatness singleTone = 1).
Proof.
  split; split.
  - apply calculateSpectralFlatness_twoBins.
  - apply spec_spectralFlatness_twoBins.
  - rewrite calculateSpectralFlatness_singleTone.
    pose proof Rpower_16_128. lra.
  - apply spec_spectralFlatness_singleTone.
Qed.

(** Bin 0 is skipped as well: a frame whose only nonzero magnitude is in
    bin 0 has flatness 0 for the script. *)
Lemma calculateSpectralFlatness_skips_bin0 :
  calculateSpectralFlatness [9; 0; 0]%Z = 0
  /\ spec_spectralFlatness [9; 0; 0]%Z = 1.
Proof.
  split.
  - unfold calculateSpectralFlatness. cbn [tl fold_left flatnessStep Z.ltb Z.compare].
    reflexivity.
  - unfold spec_spectralFlatness, spec_geometricMean, spec_arithmeticMean.
    cbn [nonzero filter Z.eqb negb fold_right List.length INR].
    replace (1 / 1) with 1 by lra. rewrite Rpower_1 by lra. lra.
Qed.

End Flatness.

Section Capture.

Import JS.

(** C9, as the script has it.  With an analyser, [captureVoiceFeatures]
    returns a feature vector; two calls on frames with the same frequency
    data and time-domain data at the same sample rate return vectors that
    agree in every acoustic field, whatever the transcript, the clock and
    the rest of the state; the transcript and the timestamp of the vector
    are the argument and the clock; and the call leaves the state as it
    found it, except that with [isEnrollment] set it appends the vector to
    the enrollment samples. *)
Theorem captureVoiceFeatures_deterministic :
  forall (sampleRate : R) (env1 env2 : Env) (t1 t2 : string) (b1 b2 : bool)
         (s1 s2 : State),
    analyser s1 = Some sampleRate ->
    analyser s2 = Some sampleRate ->
    frequencyData env1 = frequencyData env2 ->
    timeDomainData env1 = timeDomainData env2 ->
    exists f1 f2 : FeatureVector.t,
      fst (captureVoiceFeatures env1 t1 b1 s1) = Some f1
      /\ fst (captureVoiceFeatures env2 t2 b2 s2) = Some f2
      /\ sameAcoustics f1 f2
      /\ FeatureVector.transcript f1 = t1
      /\ FeatureVector.timestamp f1 = now env1
      /\ snd (captureVoiceFeatures env1 t1 b1 s1)
         = if b1 then set_enrollmentSamples (enrollmentSamples s1 ++ [f1]) s1 else s1.
Proof.
  intros sr env1 env2 t1 t2 b1 b2 s1 s2 H1 H2 Hf Ht.
  exists (extractFeatures sr env1 t1), (extractFeatures sr env2 t2).
  unfold captureVoiceFeatures. rewrite H1, H2. cbn [fst snd].
  repeat split; try reflexivity;
    unfold extractFeatures; cbn; rewrite ?Hf, ?Ht; reflexivity.
Qed.

Lemma captureVoiceFeatures_deterministic_witness :
  analyser withAnalyser = Some 48000
  /\ exists f1 f2 : FeatureVector.t,
      fst (captureVoiceFeatures silence "youtube" false withAnalyser) = Some f1
      /\ fst (captureVoiceFeatures
                (mkEnv (frequencyData silence) (timeDomainData silence) 5)
                "youtube pause" true withAnalyser) = Some f2
      /\ sameAcoustics f1 f2
      /\ FeatureVector.transcript f1 = "youtube"%string
      /\ FeatureVector.timestamp f1 = 0%Z
      /\ snd (captureVoiceFeatures silence "youtube" false withAnalyser) = withAnalyser.
Proof.
  split; [reflexivity|].
  apply (captureVoiceFeatures_deterministic 48000 silence
           (mkEnv (frequencyData silence) (timeDomainData silence) 5)
           "youtube" "youtube pause" false true withAnalyser withAnalyser);
    reflexivity.
Defined.

(** C9, as stated, fails: the feature vector carries [Date.now()], so two
    extractions from the same frame at different times differ; and an
    extraction for enrollment changes the state. *)
Lemma captureVoiceFeatures_depends_on_clock :
  let later := mkEnv (frequencyData silence) (timeDomainData silence) 5 in
  fst (captureVoiceFeatures silence "youtube" false withAnalyser)
  <> fst (captureVoiceFeatures later "youtube" false withAnalyser)
  /\ snd (captureVoiceFeatures silence "youtube" true withAnalyser) <> withAnalyser.
Proof.
  cbv zeta. split.
  - unfold captureVoiceFeatures, withAnalyser. cbn [analyser set_analyser fst].
    intros H.
    apply (f_equal (option_map FeatureVector.timestamp)) in H.
    unfold extractFeatures in H.
    cbn [option_map FeatureVector.timestamp now silence] in H.
    discriminate.
  - unfold captureVoiceFeatures, withAnalyser. cbn [analyser set_analyser snd].
    intros H.
    apply (f_equal (fun s => List.length (enrollmentSamples s))) in H.
    cbn [enrollmentSamples set_enrollmentSamples set_analyser initialState
         app List.length] in H.
    discriminate.
Qed.

(** The extractors on small frames. *)
Example zeroCrossingRate_example :
  calculateZeroCrossingRate [120; 130; 125; 135]%Z = 3 / 4.
Proof.
  unfold calculateZeroCrossingRate, len. cbn [adjacent fold_left List.length].
  replace ((120 - 128) * (130 - 128) <? 0)%Z with true by reflexivity.
  replace ((130 - 128) * (125 - 128) <? 0)%Z with true by reflexivity.
  replace ((125 - 128) * (135 - 128) <? 0)%Z with true by reflexivity.
  change (Z.of_nat 4) with 4%Z. lra.
Qed.

Example energy_example : calculateEnergy [128; 0; 255]%Z = (1 + (127 / 128) ^ 2) / 3.
Proof.
  unfold calculateEnergy, len. cbn [fold_left List.length].
  change (Z.of_nat 3) with 3%Z. field.
Qed.

Example spectralCentroid_example :
  calculateSpectralCentroid 48000 [0; 10; 30; 0]%Z = 10500.
Proof.
  unfold calculateSpectralCentroid, indexed, len.
  replace (range 0 (Z.of_nat (List.length [0; 10; 30; 0]%Z)))
    with [0; 1; 2; 3]%Z by reflexivity.
  cbn [List.length combine fold_left]. change (Z.of_nat 4) with 4%Z.
  rewrite (proj2 (JSFacts.gtb_true _ 0)) by lra. field.
Qed.

Example spectralRolloff_example :
  calculateSpectralRolloff 48000 [10; 10; 10; 10]%Z = 18000.
Proof.
  unfold calculateSpectralRolloff, indexed, len, total.
  replace (range 0 (Z.of_nat (List.length [10; 10; 10; 10]%Z)))
    with [0; 1; 2; 3]%Z by reflexivity.
  cbn [List.length combine fold_left rolloffLoop]. change (Z.of_nat 4) with 4%Z.
  unfold geb. repeat (destruct (Rge_dec _ _); try lra).
Qed.

(** At a sample rate of 2 kHz the 50 bins of [twoPeaks] are 20 Hz apart; the
    higher of its two peaks is in bin 10. *)
Example fundamentalFrequency_example :
  extractFundamentalFrequency 2000 twoPeaks = 200.
Proof.
  unfold extractFundamentalFrequency, len.
  replace (List.length twoPeaks) with 50%nat by reflexivity.
  change (Z.of_nat 50) with 50%Z.
  replace (Math_floor (80 * 50 / (2000 / 2))) with 4%Z
    by (symmetry; apply Zfloor_eq; lra).
  replace (Math_floor (400 * 50 / (2000 / 2))) with 20%Z
    by (symmetry; apply Zfloor_eq; lra).
  replace (range (4 + 1) (20 - 1))
    with [5; 6; 7; 8; 9; 10; 11; 12; 13; 14; 15; 16; 17; 18]%Z by reflexivity.
  cbn [flat_map].
  repeat match goal with
         | |- context [gt ?a ?b] =>
             let v := eval vm_compute in (gt a b) in
             replace (gt a b) with v by reflexivity
         end.
  cbn [andb app].
  replace (get twoPeaks 7) with (Some 50%Z) by reflexivity.
  replace (get twoPeaks 10) with (Some 80%Z) by reflexivity.
  cbn [app sortPeaks fold_right insertPeak peakMagnitude Z.leb Z.compare
       Pos.compare Pos.compare_cont peakFrequency].
  lra.
Qed.

(** At 8 kHz the 40 bins of [threeFormants] are 100 Hz apart. *)
Example formants_example :
  extractFormants 8000 threeFormants
  = [mkFormant 500 90; mkFormant 1200 70; mkFormant 2000 60].
Proof.
  unfold extractFormants, len, formantRanges.
  replace (List.length threeFormants) with 40%nat by reflexivity.
  change (Z.of_nat 40) with 40%Z. cbn [map].
  replace (Math_floor (300 * 40 / (8000 / 2))) with 3%Z
    by (symmetry; apply Zfloor_eq; lra).
  replace (Math_floor (1000 * 40 / (8000 / 2))) with 10%Z
    by (symmetry; apply Zfloor_eq; lra).
  replace (Math_floor (800 * 40 / (8000 / 2))) with 8%Z
    by (symmetry; apply Zfloor_eq; lra).
  replace (Math_floor (2500 * 40 / (8000 / 2))) with 25%Z
    by (symmetry; apply Zfloor_eq; lra).
  replace (Math_floor (1500 * 40 / (8000 / 2))) with 15%Z
    by (symmetry; apply Zfloor_eq; lra).
  replace (Math_floor (3500 * 40 / (8000 / 2))) with 35%Z
    by (symmetry; apply Zfloor_eq; lra).
  repeat match goal with
         | |- context [fold_left ?f (range ?a ?b) ?i] =>
             let v := eval vm_compute in (fold_left f (range a b) i) in
             replace (fold_left f (range a b) i) with v by reflexivity
         end.
  cbv beta iota zeta.
  repeat f_equal; lra.
Qed.

(** With the analyser's 128 bins at a sample rate of 48 kHz or 44.1 kHz the
    band from 80 to 400 Hz spans bins 0 to 2, the loop over the inner bins is
    empty, and no fundamental frequency is ever found. *)
Lemma extractFundamentalFrequency_48k frequencyData :
  List.length frequencyData = 128%nat ->
  extractFundamentalFrequency 48000 frequencyData = 0.
Proof.
  intros Hlen. unfold extractFundamentalFrequency, len. rewrite Hlen.
  change (Z.of_nat 128) with 128%Z.
  replace (Math_floor (80 * 128 / (48000 / 2))) with 0%Z
    by (symmetry; apply Zfloor_eq; lra).
  replace (Math_floor (400 * 128 / (48000 / 2))) with 2%Z
    by (symmetry; apply Zfloor_eq; lra).
  reflexivity.
Qed.

Lemma extractFundamentalFrequency_44k frequencyData :
  List.length frequencyData = 128%nat ->
  extractFundamentalFrequency 44100 frequencyData = 0.
Proof.
  intros Hlen. unfold extractFundamentalFrequency, len. rewrite Hlen.
  change (Z.of_nat 128) with 128%Z.
  replace (Math_floor (80 * 128 / (44100 / 2))) with 0%Z
    by (symmetry; apply Zfloor_eq; lra).
  replace (Math_floor (400 * 128 / (44100 / 2))) with 2%Z
    by (symmetry; apply Zfloor_eq; lra).
  reflexivity.
Qed.

End Capture.

(** ** Handles stay fresh

    Every handler keeps the handles of the pending timers below the next
    handle to be handed out, so that [handlesFresh] holds in every state the
    events lead to from the state the constructor leaves. *)

Section Freshness.

Variable Command : Type.
Variable extractCommands : string -> list Command.
Variable executeCommand : Command -> State -> State.
Variable completeEnrollment : State -> State.

Hypothesis executeCommand_fresh :
  forall c s, handlesFresh s -> handlesFresh (executeCommand c s).
Hypothesis completeEnrollment_fresh :
  forall s, handlesFresh s -> handlesFresh (completeEnrollment s).

Local Abbreviation stepE := (step Command extractCommands executeCommand completeEnrollment).
Local Abbreviation runE := (run Command extractCommands executeCommand completeEnrollment).

Lemma handlesFresh_same s s' :
  timers s' = timers s -> nextTimerId s' = nextTimerId s ->
  handlesFresh s -> handlesFresh s'.
Proof. unfold handlesFresh. intros -> ->. auto. Qed.

Lemma handlesFresh_setTimer d rep cb s :
  handlesFresh s -> handlesFresh (snd (setTimer d rep cb s)).
Proof.
  unfold handlesFresh, setTimer. cbn. intros H t Ht.
  apply in_app_or in Ht as [Ht | [<- | []]]; [apply H in Ht; lia | cbn; lia].
Qed.

Lemma handlesFresh_clearTimer h s :
  handlesFresh s -> handlesFresh (clearTimer h s).
Proof.
  unfold handlesFresh, clearTimer. cbn. intros H t Ht.
  apply filter_In in Ht as [Ht _]. auto.
Qed.

Lemma handlesFresh_clearHandle h s :
  handlesFresh s -> handlesFresh (clearHandle h s).
Proof. destruct h; [apply handlesFresh_clearTimer | auto]. Qed.

Lemma handlesFresh_stop s :
  handlesFresh s -> handlesFresh (stopEnrollmentRecognition s).
Proof.
  apply handlesFresh_same.
  - apply stopEnrollmentRecognition_timers.
  - apply stopEnrollmentRecognition_nextTimerId.
Qed.

Lemma handlesFresh_duckAudio b s :
  handlesFresh s -> handlesFresh (duckAudio b s).
Proof.
  apply handlesFresh_same; [apply duckAudio_timers | apply duckAudio_nextTimerId].
Qed.

Lemma handlesFresh_capture env transcript b s :
  handlesFresh s -> handlesFresh (snd (captureVoiceFeatures env transcript b s)).
Proof.
  apply handlesFresh_same; unfold captureVoiceFeatures;
    destruct (analyser s), b; reflexivity.
Qed.

Lemma handlesFresh_newTimer d rep cb s :
  handlesFresh s ->
  handlesFresh
    (set_nextTimerId (S (nextTimerId s))
       (set_timers (timers s ++ [mkTimer (nextTimerId s) d rep cb]) s)).
Proof. apply (handlesFresh_setTimer d rep cb s). Qed.

Ltac timers_fresh :=
  repeat first
    [ assumption
    | apply handlesFresh_setTimer
    | apply handlesFresh_newTimer
    | apply handlesFresh_clearTimer
    | apply handlesFresh_clearHandle
    | apply handlesFresh_stop
    | apply handlesFresh_duckAudio
    | apply handlesFresh_capture
    | apply executeCommand_fresh
    | apply completeEnrollment_fresh
    | match goal with
      | |- handlesFresh (?f ?v ?x) =>
          apply (handlesFresh_same x); [reflexivity | reflexivity | ]
      | |- handlesFresh (if ?b then _ else _) => destruct b
      | |- handlesFresh (match ?o with Some _ => _ | None => _ end) => destruct o
      end ].

Lemma resetWakeWord_fresh s : handlesFresh s -> handlesFresh (resetWakeWord s).
Proof.
  intros H. unfold resetWakeWord.
  set (s1 := duckAudio false (set_wakeWordDetected false s)).
  assert (H1 : handlesFresh s1) by (unfold s1; timers_fresh).
  destruct (wakeWordTimeout s1); timers_fresh.
Qed.

Lemma processCommand_fresh env transcript s :
  handlesFresh s ->
  handlesFresh (processCommand Command extractCommands executeCommand env transcript s).
Proof.
  intros H. unfold processCommand.
  destruct (negb (wakeWordDetected s)); [exact H|].
  assert (Hd : forall s', handlesFresh s' ->
             handlesFresh match extractCommands transcript with
                          | [] => resetWakeWord s'
                          | command :: _ => resetWakeWord (executeCommand command s')
                          end).
  { intros s' H'. destruct (extractCommands transcript);
      apply resetWakeWord_fresh; timers_fresh. }
  destruct (voiceprint s); [|now apply Hd].
  pose proof (handlesFresh_capture env transcript false s H) as Hc.
  destruct (captureVoiceFeatures env transcript false s) as [cf s1]. cbn [snd] in Hc.
  pose proof (multiLayerVerification_frame cf "command" s1) as Hm.
  destruct (multiLayerVerification cf "command" s1) as [v s2]. cbn [snd] in Hm. subst s2.
  destruct (negb (isVerified v)); [now apply resetWakeWord_fresh | now apply Hd].
Qed.

Lemma openCommandWindow_fresh env transcript s :
  handlesFresh s ->
  handlesFresh (openCommandWindow Command extractCommands executeCommand env transcript s).
Proof.
  intros H. unfold openCommandWindow.
  destruct (negb _).
  - apply processCommand_fresh. timers_fresh.
  - unfold setTimeout.
    set (s1 := duckAudio true (set_wakeWordDetected true s)).
    assert (H1 : handlesFresh s1) by (unfold s1; timers_fresh).
    pose proof (handlesFresh_setTimer wakeWordWindow false CbResetWakeWord s1 H1) as H2.
    destruct (setTimer wakeWordWindow false CbResetWakeWord s1) as [h2 s2].
    cbn [snd] in H2. timers_fresh.
Qed.

Lemma processWakeWord_fresh env transcript s :
  handlesFresh s ->
  handlesFresh (processWakeWord Command extractCommands executeCommand env transcript s).
Proof.
  intros H. unfold processWakeWord.
  destruct (JSString.includes _ _); [|exact H].
  destruct (voiceprint s); [|now apply openCommandWindow_fresh].
  pose proof (handlesFresh_capture env transcript false s H) as Hc.
  destruct (captureVoiceFeatures env transcript false s) as [cf s1]. cbn [snd] in Hc.
  pose proof (multiLayerVerification_frame cf "wake_word" s1) as Hm.
  destruct (multiLayerVerification cf "wake_word" s1) as [v s2]. cbn [snd] in Hm. subst s2.
  destruct (negb (isVerified v)); [exact Hc | now apply openCommandWindow_fresh].
Qed.

Lemma startListening_fresh throws s :
  handlesFresh s -> handlesFresh (startListening throws s).
Proof. intros H. unfold startListening, setTimeout. timers_fresh. Qed.

Lemma handlesFresh_updateSession sid f s :
  handlesFresh s -> handlesFresh (updateSession sid f s).
Proof. apply handlesFresh_same; reflexivity. Qed.

Lemma enrollment_onstart_fresh sid s :
  handlesFresh s -> handlesFresh (enrollment_onstart sid s).
Proof.
  intros H. unfold enrollment_onstart, setInterval, setTimeout.
  set (s0 := updateSession sid (set_timeLeft 5) s).
  assert (H0 : handlesFresh s0) by (unfold s0; timers_fresh).
  pose proof (handlesFresh_setTimer 1000 true (CbCountdownTick sid) s0 H0) as H1.
  destruct (setTimer 1000 true (CbCountdownTick sid) s0) as [h1 s1]. cbn [snd] in H1.
  set (s1' := set_enrollmentCountdownInterval (Some h1) s1).
  assert (H1' : handlesFresh s1') by (unfold s1'; timers_fresh).
  pose proof (handlesFresh_setTimer 5000 false (CbEnrollmentTimeout sid) s1' H1') as H2.
  destruct (setTimer 5000 false (CbEnrollmentTimeout sid) s1') as [h2 s2]. cbn [snd] in H2.
  set (s2' := updateSession sid (set_enrollmentTimeout (Some h2)) s2).
  assert (H2' : handlesFresh s2') by (unfold s2'; timers_fresh).
  pose proof (handlesFresh_setTimer 8000 false (CbProcessingTimeout sid) s2' H2') as H3.
  destruct (setTimer 8000 false (CbProcessingTimeout sid) s2') as [h3 s3]. cbn [snd] in H3.
  timers_fresh.
Qed.

Lemma enrollment_onresult_fresh sid env heard s :
  handlesFresh s -> handlesFresh (enrollment_onresult sid env heard s).
Proof.
  intros H. unfold enrollment_onresult, setTimeout.
  destruct (nth_error _ _); [|exact H]. destruct (session sid s); [|exact H].
  destruct (passesGate _ _ _); [|exact H].
  destruct (phraseMatches _ _);
    repeat first [ apply handlesFresh_updateSession | progress timers_fresh ].
Qed.

Lemma enrollment_onend_fresh sid s :
  handlesFresh s -> handlesFresh (enrollment_onend sid s).
Proof.
  intros H. unfold enrollment_onend, setTimeout.
  destruct (session sid s); [|exact H].
  repeat first [ apply handlesFresh_updateSession | progress timers_fresh ].
Qed.

Lemma initializeEnrollment_fresh s :
  handlesFresh s -> handlesFresh (initializeEnrollment s).
Proof. intros H. unfold initializeEnrollment, setTimeout. timers_fresh. Qed.

Lemma cancelTraining_fresh s : handlesFresh s -> handlesFresh (cancelTraining s).
Proof.
  intros H. unfold cancelTraining, hideTrainingPanel, setTimeout. timers_fresh.
Qed.

Lemma runCallback_fresh cb throws s :
  handlesFresh s ->
  handlesFresh (runCallback completeEnrollment cb throws s).
Proof.
  intros H. destruct cb; cbn [runCallback].
  - now apply resetWakeWord_fresh.
  - now apply startListening_fresh.
  - now apply initializeEnrollment_fresh.
  - unfold continueEnrollment, setTimeout. timers_fresh.
  - unfold startEnrollmentListening. timers_fresh.
  - unfold advanceEnrollment, setTimeout. timers_fresh.
  - unfold countdownTick. destruct (session _ s); [|exact H].
    repeat first [ apply handlesFresh_updateSession | progress timers_fresh ].
  - unfold enrollmentTimeoutFired. destruct (session _ s); [|exact H]. timers_fresh.
  - unfold processingTimeoutFired. destruct (session _ s); [|exact H]. timers_fresh.
  - exact H.
  - timers_fresh.
Qed.

Lemma step_handlesFresh e s : handlesFresh s -> handlesFresh (stepE e s).
Proof.
  intros H. destruct e; cbn [step].
  - unfold fire. destruct (pending h s); [|exact H].
    apply runCallback_fresh. destruct (repeats t); timers_fresh.
  - unfold recognition_onstart. timers_fresh.
  - unfold recognition_onresult.
    destruct (enrollmentMode s); [exact H|].
    destruct (negb (wakeWordDetected s)).
    + now apply processWakeWord_fresh.
    + apply processCommand_fresh. timers_fresh.
  - exact H.
  - unfold recognition_onend, setTimeout.
    set (s1 := duckAudio false (set_isListening false s)).
    assert (H1 : handlesFresh s1) by (unfold s1; timers_fresh).
    destruct (isActive s1); [|exact H1].
    pose proof (handlesFresh_setTimer 300 false CbStartListening s1 H1) as H2.
    destruct (setTimer 300 false CbStartListening s1) as [h2 s2]. cbn [snd] in H2.
    timers_fresh.
  - now apply startListening_fresh.
  - now apply enrollment_onstart_fresh.
  - now apply enrollment_onresult_fresh.
  - now apply enrollment_onend_fresh.
  - unfold startSpeakerEnrollment, setTimeout.
    destruct (isListening _); [timers_fresh | apply initializeEnrollment_fresh; timers_fresh].
  - now apply cancelTraining_fresh.
  - unfold stopListening.
    set (s1 := resetWakeWord (set_isActive false s)).
    assert (H1 : handlesFresh s1) by (unfold s1; apply resetWakeWord_fresh; timers_fresh).
    timers_fresh.
Qed.

Lemma initialState_fresh : handlesFresh initialState.
Proof. intros t []. Qed.

(** [handlesFresh] holds after any sequence of events. *)
Lemma run_handlesFresh es s : handlesFresh s -> handlesFresh (runE es s).
Proof.
  revert s. induction es as [|e es IH]; intros s H; [exact H|].
  cbn. apply IH. now apply step_handlesFresh.
Qed.

End Freshness.

(** ** What stays true of the recognition sessions

    The handlers touch the closures of the recognition sessions and
    [this.enrollmentRecognition] in three ways only: they change the closure
    of one session, leaving a set [hasGotResult] set; they create a session
    and put it into [this.enrollmentRecognition]; or they leave both
    alone.  A property of the state that survives the three survives every
    event. *)

Section SessionInvariant.

Variable Command : Type.
Variable extractCommands : string -> list Command.
Variable executeCommand : Command -> State -> State.
Variable completeEnrollment : State -> State.

Variable P : State -> Prop.

Hypothesis P_same :
  forall s s', sessions s' = sessions s ->
               enrollmentRecognition s' = enrollmentRecognition s -> P s -> P s'.
Hypothesis P_update :
  forall sid f s,
    (forall x, hasGotResult x = true -> hasGotResult (f x) = true) ->
    P s -> P (updateSession sid f s).
Hypothesis P_create : forall s, P s -> P (startEnrollmentListening s).
Hypothesis P_executeCommand : forall c s, P s -> P (executeCommand c s).
Hypothesis P_completeEnrollment : forall s, P s -> P (completeEnrollment s).

Local Abbreviation stepP := (step Command extractCommands executeCommand completeEnrollment).
Local Abbreviation runP := (run Command extractCommands executeCommand completeEnrollment).

Lemma P_setTimer d rep cb s : P s -> P (snd (setTimer d rep cb s)).
Proof. apply P_same; reflexivity. Qed.

Lemma P_newTimer d rep cb s :
  P s ->
  P (set_nextTimerId (S (nextTimerId s))
       (set_timers (timers s ++ [mkTimer (nextTimerId s) d rep cb]) s)).
Proof. apply (P_setTimer d rep cb s). Qed.

Lemma P_clearTimer h s : P s -> P (clearTimer h s).
Proof. apply P_same; reflexivity. Qed.

Lemma P_clearHandle h s : P s -> P (clearHandle h s).
Proof. destruct h; [apply P_clearTimer | auto]. Qed.

Lemma P_stop s : P s -> P (stopEnrollmentRecognition s).
Proof.
  intros H. unfold stopEnrollmentRecognition.
  destruct (enrollmentRecognition s); [|exact H].
  apply P_update; [|exact H]. intros x Hx. exact Hx.
Qed.

Lemma P_duckAudio b s : P s -> P (duckAudio b s).
Proof.
  apply P_same; unfold duckAudio; destruct (video s); try reflexivity;
    destruct (b && negb (isDucking s)); try reflexivity;
    destruct (negb b && isDucking s); reflexivity.
Qed.

Lemma P_capture env transcript b s :
  P s -> P (snd (captureVoiceFeatures env transcript b s)).
Proof.
  apply P_same; unfold captureVoiceFeatures; destruct (analyser s), b; reflexivity.
Qed.

Lemma P_timeLeft sid n s : P s -> P (updateSession sid (set_timeLeft n) s).
Proof. apply P_update. intros x Hx. exact Hx. Qed.

Lemma P_enrollmentTimeout sid h s :
  P s -> P (updateSession sid (set_enrollmentTimeout h) s).
Proof. apply P_update. intros x Hx. exact Hx. Qed.

Lemma P_hasGotResult sid s : P s -> P (updateSession sid (set_hasGotResult true) s).
Proof. apply P_update. intros x _. reflexivity. Qed.

Ltac kept :=
  repeat first
    [ assumption
    | apply P_setTimer
    | apply P_newTimer
    | apply P_clearTimer
    | apply P_clearHandle
    | apply P_stop
    | apply P_duckAudio
    | apply P_capture
    | apply P_timeLeft
    | apply P_enrollmentTimeout
    | apply P_hasGotResult
    | apply P_create
    | apply P_executeCommand
    | apply P_completeEnrollment
    | match goal with
      | |- P (?f ?v ?x) => apply (P_same x); [reflexivity | reflexivity | ]
      | |- P (if ?b then _ else _) => destruct b
      | |- P (match ?o with Some _ => _ | None => _ end) => destruct o
      end ].

Lemma P_resetWakeWord s : P s -> P (resetWakeWord s).
Proof.
  intros H. unfold resetWakeWord.
  set (s1 := duckAudio false (set_wakeWordDetected false s)).
  assert (H1 : P s1) by (unfold s1; kept).
  destruct (wakeWordTimeout s1); kept.
Qed.

Lemma P_processCommand env transcript s :
  P s -> P (processCommand Command extractCommands executeCommand env transcript s).
Proof.
  intros H. unfold processCommand.
  destruct (negb (wakeWordDetected s)); [exact H|].
  assert (Hd : forall s', P s' ->
             P match extractCommands transcript with
               | [] => resetWakeWord s'
               | command :: _ => resetWakeWord (executeCommand command s')
               end).
  { intros s' H'. destruct (extractCommands transcript);
      apply P_resetWakeWord; kept. }
  destruct (voiceprint s); [|now apply Hd].
  pose proof (P_capture env transcript false s H) as Hc.
  destruct (captureVoiceFeatures env transcript false s) as [cf s1]. cbn [snd] in Hc.
  pose proof (multiLayerVerification_frame cf "command" s1) as Hm.
  destruct (multiLayerVerification cf "command" s1) as [v s2]. cbn [snd] in Hm. subst s2.
  destruct (negb (isVerified v)); [now apply P_resetWakeWord | now apply Hd].
Qed.

Lemma P_openCommandWindow env transcript s :
  P s -> P (openCommandWindow Command extractCommands executeCommand env transcript s).
Proof.
  intros H. unfold openCommandWindow.
  destruct (negb _).
  - apply P_processCommand. kept.
  - unfold setTimeout.
    set (s1 := duckAudio true (set_wakeWordDetected true s)).
    assert (H1 : P s1) by (unfold s1; kept).
    pose proof (P_setTimer wakeWordWindow false CbResetWakeWord s1 H1) as H2.
    destruct (setTimer wakeWordWindow false CbResetWakeWord s1) as [h2 s2].
    cbn [snd] in H2. kept.
Qed.

Lemma P_processWakeWord env transcript s :
  P s -> P (processWakeWord Command extractCommands executeCommand env transcript s).
Proof.
  intros H. unfold processWakeWord.
  destruct (JSString.includes _ _); [|exact H].
  destruct (voiceprint s); [|now apply P_openCommandWindow].
  pose proof (P_capture env transcript false s H) as Hc.
  destruct (captureVoiceFeatures env transcript false s) as [cf s1]. cbn [snd] in Hc.
  pose proof (multiLayerVerification_frame cf "wake_word" s1) as Hm.
  destruct (multiLayerVerification cf "wake_word" s1) as [v s2]. cbn [snd] in Hm. subst s2.
  destruct (negb (isVerified v)); [exact Hc | now apply P_openCommandWindow].
Qed.

Lemma P_startListening throws s : P s -> P (startListening throws s).
Proof. intros H. unfold startListening, setTimeout. kept. Qed.

Lemma P_enrollment_onstart sid s : P s -> P (enrollment_onstart sid s).
Proof.
  intros H. unfold enrollment_onstart, setInterval, setTimeout.
  set (s0 := updateSession sid (set_timeLeft 5) s).
  assert (H0 : P s0) by (unfold s0; kept).
  pose proof (P_setTimer 1000 true (CbCountdownTick sid) s0 H0) as H1.
  destruct (setTimer 1000 true (CbCountdownTick sid) s0) as [h1 s1]. cbn [snd] in H1.
  set (s1' := set_enrollmentCountdownInterval (Some h1) s1).
  assert (H1' : P s1') by (unfold s1'; kept).
  pose proof (P_setTimer 5000 false (CbEnrollmentTimeout sid) s1' H1') as H2.
  destruct (setTimer 5000 false (CbEnrollmentTimeout sid) s1') as [h2 s2]. cbn [snd] in H2.
  set (s2' := updateSession sid (set_enrollmentTimeout (Some h2)) s2).
  assert (H2' : P s2') by (unfold s2'; kept).
  pose proof (P_setTimer 8000 false (CbProcessingTimeout sid) s2' H2') as H3.
  destruct (setTimer 8000 false (CbProcessingTimeout sid) s2') as [h3 s3]. cbn [snd] in H3.
  kept.
Qed.

Lemma P_enrollment_onresult sid env heard s :
  P s -> P (enrollment_onresult sid env heard s).
Proof.
  intros H. unfold enrollment_onresult, setTimeout.
  destruct (nth_error _ _); [|exact H]. destruct (session sid s); [|exact H].
  destruct (passesGate _ _ _); [|exact H].
  destruct (phraseMatches _ _); kept.
Qed.

Lemma P_enrollment_onend sid s : P s -> P (enrollment_onend sid s).
Proof.
  intros H. unfold enrollment_onend, setTimeout.
  destruct (session sid s); [|exact H]. kept.
Qed.

Lemma P_initializeEnrollment s : P s -> P (initializeEnrollment s).
Proof. intros H. unfold initializeEnrollment, setTimeout. kept. Qed.

Lemma P_cancelTraining s : P s -> P (cancelTraining s).
Proof. intros H. unfold cancelTraining, hideTrainingPanel, setTimeout. kept. Qed.

Lemma P_runCallback cb throws s :
  P s -> P (runCallback completeEnrollment cb throws s).
Proof.
  intros H. destruct cb as [| | | | | | k | k | k | |]; cbn [runCallback].
  - now apply P_resetWakeWord.
  - now apply P_startListening.
  - now apply P_initializeEnrollment.
  - unfold continueEnrollment, setTimeout. kept.
  - now apply P_create.
  - unfold advanceEnrollment, setTimeout. kept.
  - unfold countdownTick. destruct (session _ s); [|exact H]. kept.
  - unfold enrollmentTimeoutFired. destruct (session _ s); [|exact H]. kept.
  - unfold processingTimeoutFired. destruct (session _ s); [|exact H]. kept.
  - exact H.
  - kept.
Qed.

Lemma step_keeps e s : P s -> P (stepP e s).
Proof.
  intros H. destruct e; cbn [step].
  - unfold fire. destruct (pending h s); [|exact H].
    apply P_runCallback. destruct (repeats t); kept.
  - unfold recognition_onstart. kept.
  - unfold recognition_onresult.
    destruct (enrollmentMode s); [exact H|].
    destruct (negb (wakeWordDetected s)).
    + now apply P_processWakeWord.
    + apply P_processCommand. kept.
  - exact H.
  - unfold recognition_onend, setTimeout.
    set (s1 := duckAudio false (set_isListening false s)).
    assert (H1 : P s1) by (unfold s1; kept).
    destruct (isActive s1); [|exact H1].
    pose proof (P_setTimer 300 false CbStartListening s1 H1) as H2.
    destruct (setTimer 300 false CbStartListening s1) as [h2 s2]. cbn [snd] in H2.
    kept.
  - now apply P_startListening.
  - now apply P_enrollment_onstart.
  - now apply P_enrollment_onresult.
  - now apply P_enrollment_onend.
  - unfold startSpeakerEnrollment, setTimeout.
    destruct (isListening _); [kept | apply P_initializeEnrollment; kept].
  - now apply P_cancelTraining.
  - unfold stopListening.
    set (s1 := resetWakeWord (set_isActive false s)).
    assert (H1 : P s1) by (unfold s1; apply P_resetWakeWord; kept).
    kept.
Qed.

Lemma run_keeps es s : P s -> P (runP es s).
Proof.
  revert s. induction es as [|e es IH]; intros s H; [exact H|].
  cbn. apply IH. now apply step_keeps.
Qed.

End SessionInvariant.

(** ** One result for each recognition session *)

Section ResultOnce.

Import JSString.

Variable Command : Type.
Variable extractCommands : string -> list Command.
Variable executeCommand : Command -> State -> State.
Variable completeEnrollment : State -> State.

(** The dispatcher of commands and the end of the training run create no
    recognition session and change none. *)
Hypothesis executeCommand_sessions :
  forall c s, sessions (executeCommand c s) = sessions s.
Hypothesis completeEnrollment_sessions :
  forall s, sessions (completeEnrollment s) = sessions s.

Local Abbreviation runS := (run Command extractCommands executeCommand completeEnrollment).







Lemma length_updateSession sid f s :
  List.length (sessions (updateSession sid f s)) = List.length (sessions s).
Proof.
  unfold updateSession. cbn.
  now rewrite length_map, length_combine, length_seq, Nat.min_id.
Qed.

Lemma recognizerCurrent_same s s' :
  sessions s' = sessions s -> enrollmentRecognition s' = enrollmentRecognition s ->
  recognizerCurrent s -> recognizerCurrent s'.
Proof. unfold recognizerCurrent. now intros -> ->. Qed.

Lemma recognizerCurrent_updateSession sid f s :
  recognizerCurrent s -> recognizerCurrent (updateSession sid f s).
Proof.
  unfold recognizerCurrent. rewrite length_updateSession.
  intros [H | H].
  - left. unfold updateSession. cbn. now rewrite H.
  - right. exact H.
Qed.

Lemma recognizerCurrent_create s :
  recognizerCurrent (startEnrollmentListening s).
Proof.
  right. unfold startEnrollmentListening. cbn. rewrite length_app. cbn. f_equal. lia.
Qed.


End ResultOnce.

(** [this.enrollmentRecognition] holds the recognition object created last
    after every event, when the dispatcher of commands and the end of the
    training run leave it and the sessions alone. *)
Lemma run_recognizerCurrent
    (Command : Type) (extractCommands : string -> list Command)
    (executeCommand : Command -> State -> State) (completeEnrollment : State -> State) :
  (forall c s, sessions (executeCommand c s) = sessions s
               /\ enrollmentRecognition (executeCommand c s) = enrollmentRecognition s) ->
  (forall s, sessions (completeEnrollment s) = sessions s
             /\ enrollmentRecognition (completeEnrollment s) = enrollmentRecognition s) ->
  forall es s,
    recognizerCurrent s ->
    recognizerCurrent (run Command extractCommands executeCommand completeEnrollment es s).
Proof.
  intros Hexec Hcomplete es s.
  apply (run_keeps Command extractCommands executeCommand completeEnrollment
           recognizerCurrent).
  - intros s1 s2. apply recognizerCurrent_same.
  - intros k f s1 _. apply recognizerCurrent_updateSession.
  - intros s1 _. apply recognizerCurrent_create.
  - intros c s1. apply recognizerCurrent_same; apply Hexec.
  - intros s1. apply recognizerCurrent_same; apply Hcomplete.
Qed.

Lemma initialState_recognizerCurrent : recognizerCurrent initialState.
Proof. now left. Qed.


(** The hypothesis of a session that is not the one created last: the phrase
    is accepted, and the recognition object that is stopped is the newer
    one. *)
Lemma accepted_session_keeps_running :
  let s := exampleRun [StartTraining; TimerDue 6 false; TimerDue 7 false]
             (recording withAnalyser) in
  let s' := enrollment_onresult 0 silence "YouTube pause" s in
  enrollmentRecognition s = Some 1%nat
  /\ enrollmentPhraseMatched s' = true
  /\ option_map stopped (session 0 s') = Some false
  /\ option_map stopped (session 1 s') = Some true.
Proof.
  cbv zeta. repeat split; reflexivity.
Qed.

(** * Properties of the rest of the controller *)

(** ** Building the voiceprint *)

Section AggregationFacts.

Import JS JSFacts.

Lemma fold_sum_shift {A} (g : A -> R) (l : list A) (a : R) :
  fold_left (fun acc x => acc + g x) l a
  = a + fold_left (fun acc x => acc + g x) l 0.
Proof.
  revert a. induction l as [|x l IH]; intros a; cbn [fold_left]; [lra|].
  rewrite IH, (IH (0 + g x)). lra.
Qed.

Lemma fold_sum_bounds {A} (g : A -> R) (l : list A) (lo hi : R) :
  Forall (fun x => lo <= g x <= hi) l ->
  INR (List.length l) * lo
  <= fold_left (fun acc x => acc + g x) l 0
  <= INR (List.length l) * hi.
Proof.
  induction 1 as [|x l Hx Hl IH].
  - cbn. lra.
  - cbn [fold_left List.length]. rewrite fold_sum_shift, S_INR. lra.
Qed.

(** The mean of a feature over a nonempty list of samples lies between any
    two bounds that hold for every sample. *)
Lemma averageFeature_bounds feature samples lo hi :
  samples <> [] ->
  Forall (fun sample => lo <= feature sample <= hi) samples ->
  lo <= averageFeature feature samples <= hi.
Proof.
  intros Hne Hall. unfold averageFeature.
  pose proof (fold_sum_bounds feature samples lo hi Hall) as [Hlo Hhi].
  assert (Hn : 0 < INR (List.length samples)).
  { destruct samples; [contradiction|]. cbn [List.length]. apply lt_0_INR. lia. }
  set (n := INR (List.length samples)) in *.
  set (sum := fold_left _ _ _) in *.
  split.
  - apply Rmult_le_reg_r with n; [exact Hn|].
    unfold Rdiv. rewrite Rmult_assoc, Rinv_l by lra. lra.
  - apply Rmult_le_reg_r with n; [exact Hn|].
    unfold Rdiv. rewrite Rmult_assoc, Rinv_l by lra. lra.
Qed.



Lemma averageFeature_repeat feature f n :
  averageFeature feature (repeat f (S n)) = feature f.
Proof.
  assert (H : feature f <= averageFeature feature (repeat f (S n)) <= feature f).
  { apply averageFeature_bounds; [discriminate|].
    apply Forall_forall. intros x Hx. apply repeat_spec in Hx. subst. lra. }
  lra.
Qed.


Lemma map_nth_seq {A B} (h : A -> B) (l : list A) (d : A) :
  map (fun i => h (nth i l d)) (seq 0 (List.length l)) = map h l.
Proof.
  induction l as [|x l IH]; [reflexivity|].
  cbn [List.length seq map nth]. f_equal.
  rewrite <- seq_shift, map_map. exact IH.
Qed.

Lemma averageMFCC_repeat f n :
  averageMFCC (repeat f (S n)) = FeatureVector.mfcc f.
Proof.
  unfold averageMFCC. cbn [repeat].
  change (f :: repeat f n) with (repeat f (S n)).
  rewrite (map_ext _ (fun i => nth i (FeatureVector.mfcc f) 0))
    by (intros i;
        apply (averageFeature_repeat (fun sample => nth i (FeatureVector.mfcc sample) 0))).
  rewrite (map_nth_seq (fun x => x)). apply map_id.
Qed.

Lemma averageFormants_repeat f n :
  averageFormants (repeat f (S n)) = FeatureVector.formants f.
Proof.
  unfold averageFormants. cbn [repeat].
  change (f :: repeat f n) with (repeat f (S n)).
  rewrite (map_ext _ (fun i =>
             (fun x => mkFormant (frequency x) (magnitude x))
               (nth i (FeatureVector.formants f) (mkFormant 0 0))))
    by (intros i; cbv zeta;
        rewrite (averageFeature_repeat
                   (fun sample => frequency (nth i (FeatureVector.formants sample)
                                                 (mkFormant 0 0)))),
                (averageFeature_repeat
                   (fun sample => magnitude (nth i (FeatureVector.formants sample)
                                                 (mkFormant 0 0))));
        reflexivity).
  rewrite (map_nth_seq (fun x => mkFormant (frequency x) (magnitude x))).
  rewrite (map_ext _ (fun x => x)) by (intros [fr mg]; reflexivity).
  apply map_id.
Qed.



Lemma createVoiceprint_repeat_stored now s f n :
  enrollmentSamples s = repeat f (S n) ->
  exists vp, voiceprint (snd (createVoiceprint now s)) = Some vp /\ sameFields f vp.
Proof.
  intros E. unfold createVoiceprint. rewrite E.
  replace (List.length (repeat f (S n)) =? 0)%nat with false
    by (rewrite repeat_length; reflexivity).
  eexists. split; [reflexivity|].
  unfold sameFields. cbn [Voiceprint.fundamentalFreq Voiceprint.formants
    Voiceprint.spectralCentroid Voiceprint.spectralRolloff Voiceprint.spectralFlux
    Voiceprint.spectralFlatness Voiceprint.mfcc Voiceprint.zeroCrossingRate
    Voiceprint.energy Voiceprint.voicedRatio Voiceprint.harmonicRatio].
  rewrite !averageFeature_repeat, averageMFCC_repeat, averageFormants_repeat.
  repeat split; reflexivity.
Qed.

(** X3. a speaker enrolled on one frame is recognised on that frame.  When
    all samples equal [f], and [f] has a nonzero energy, a nonzero
    fundamental frequency, three formants of nonzero frequency and a nonzero
    spectral feature, then verifying [f] against the voiceprint that
    [createVoiceprint] stores gives confidence 1 and a positive verdict in
    every context that is not the name of a member inherited from
    [Object.prototype]. *)
Theorem enroll_then_verify :
  forall (now : Z) (s : State) (f : FeatureVector.t) (n : nat) (context : string)
         (f1 f2 f3 : Formant),
    enrollmentSamples s = repeat f (S n) ->
    FeatureVector.energy f <> 0 ->
    FeatureVector.fundamentalFreq f <> 0 ->
    FeatureVector.formants f = [f1; f2; f3] ->
    frequency f1 <> 0 -> frequency f2 <> 0 -> frequency f3 <> 0 ->
    (FeatureVector.spectralCentroid f <> 0 \/ FeatureVector.spectralRolloff f <> 0
     \/ FeatureVector.spectralFlux f <> 0 \/ FeatureVector.spectralFlatness f <> 0) ->
    inherited context = false ->
    let s' := snd (createVoiceprint now s) in
    let r := fst (multiLayerVerification (Some f) context s') in
    confidence r = 1 /\ isVerified r = true.
Proof.
  intros now s f n context f1 f2 f3 E He Hf Hfo H1 H2 H3 Hsp Hown s' r.
  destruct (createVoiceprint_repeat_stored now s f n E) as (vp & Hvp & Hsame).
  fold s' in Hvp. subst r.
  rewrite (multiLayerVerification_confidence _ _ _ _ Hvp).
  rewrite (multiLayerVerification_isVerified _ _ _ _ Hvp).
  pose proof Hsame as (E0 & Efo & Ec & Er & Ex & Ea & _ & _ & Een & _).
  rewrite (all_layers_one vp f f1 f2 f3 Hsame)
    by (rewrite <- ?Een, <- ?E0, <- ?Efo, <- ?Ec, <- ?Er, <- ?Ex, <- ?Ea; assumption).
  rewrite five_pass. unfold confidenceOf. split; [lra|].
  replace (1 * 0.15 + 1 * 0.25 + 1 * 0.25 + 1 * 0.20 + 1 * 0.15) with 1 by lra.
  rewrite (reaches_one _ Hown). reflexivity.
Qed.

Lemma enroll_then_verify_witness :
  let f := featuresOf pitchedVoiceprint "youtube" 0 in
  let s' := snd (createVoiceprint 7 (enrolledWith f 1)) in
  confidence (fst (multiLayerVerification (Some f) "wake_word" s')) = 1
  /\ isVerified (fst (multiLayerVerification (Some f) "wake_word" s')) = true.
Proof.
  intros f s'.
  apply (enroll_then_verify 7 (enrolledWith f 1) f 1 "wake_word"
           (mkFormant 562.5 180) (mkFormant 1125 140) (mkFormant 1687.5 120)).
  - reflexivity.
  - cbn; lra.
  - cbn; lra.
  - reflexivity.
  - cbn; lra.
  - cbn; lra.
  - cbn; lra.
  - left; cbn; lra.
  - reflexivity.
Defined.

End AggregationFacts.

(** ** The fundamental frequency on coarse bins *)

Section CoarseBins.

Import JS JSFacts.

Lemma len_nonneg a : 0 <= len a.
Proof. unfold len. apply IZR_le. lia. Qed.

Lemma extractFundamentalFrequency_coarse sampleRate frequencyData :
  coarseBins sampleRate frequencyData ->
  extractFundamentalFrequency sampleRate frequencyData = 0.
Proof.
  intros [Hsr Hcoarse]. unfold extractFundamentalFrequency.
  set (startBin := Math_floor (80 * len frequencyData / (sampleRate / 2))).
  set (endBin := Math_floor (400 * len frequencyData / (sampleRate / 2))).
  assert (Hstart : (0 <= startBin)%Z).
  { apply Zfloor_lub. pose proof (len_nonneg frequencyData).
    apply Rmult_le_pos; [lra|]. left. apply Rinv_0_lt_compat. lra. }
  assert (Hend : (endBin < 3)%Z).
  { apply lt_IZR.
    pose proof (Zfloor_bound (400 * len frequencyData / (sampleRate / 2))) as [Hb _].
    fold (Math_floor (400 * len frequencyData / (sampleRate / 2))) in Hb.
    fold endBin in Hb. lra. }
  unfold range.
  replace (Z.to_nat (endBin - 1 - (startBin + 1))) with 0%nat by lia.
  reflexivity.
Qed.

(** X4. with bins wider than 400/3 Hz no pitch is ever found.  For every
    frame, [extractFundamentalFrequency] returns 0, and so does
    [calculateHarmonicRatio]. *)
Theorem no_pitch_on_coarse_bins :
  forall (sampleRate : R) (frequencyData : list Z),
    coarseBins sampleRate frequencyData ->
    extractFundamentalFrequency sampleRate frequencyData = 0
    /\ calculateHarmonicRatio sampleRate frequencyData = 0.
Proof.
  intros sr fd H. split; [now apply extractFundamentalFrequency_coarse|].
  unfold calculateHarmonicRatio. rewrite extractFundamentalFrequency_coarse by exact H.
  rewrite (proj2 (ltb_true 0 50)) by lra. reflexivity.
Qed.

Lemma coarseBins_48k frequencyData :
  List.length frequencyData = 128%nat -> coarseBins 48000 frequencyData.
Proof.
  intros H. unfold coarseBins, len. rewrite H. change (Z.of_nat 128) with 128%Z. lra.
Qed.

Lemma no_pitch_on_coarse_bins_witness :
  coarseBins 48000 singleTone
  /\ extractFundamentalFrequency 48000 singleTone = 0
  /\ calculateHarmonicRatio 48000 singleTone = 0.
Proof.
  assert (H : coarseBins 48000 singleTone) by (apply coarseBins_48k; reflexivity).
  split; [exact H|]. apply (no_pitch_on_coarse_bins 48000 singleTone H).
Defined.



End CoarseBins.

(** ** Edit distance and phrase matching *)

Section EditDistance.

Import JSString.

Lemma editDistance_refl s : editDistance s s = 0%nat.
Proof.
  induction s as [|a s IH]; [reflexivity|].
  cbn [editDistance]. rewrite IH, Ascii.eqb_refl. lia.
Qed.

Lemma editDistance_zero s t : editDistance s t = 0%nat -> s = t.
Proof.
  revert t. induction s as [|a s IH]; intros t H.
  - destruct t; [reflexivity|discriminate].
  - destruct t as [|b t]; [discriminate|].
    cbn [editDistance] in H.
    destruct (Ascii.eqb a b) eqn:Hab.
    + apply Ascii.eqb_eq in Hab. subst b. f_equal. apply IH. lia.
    + lia.
Qed.

Lemma editDistance_sym s t : editDistance s t = editDistance t s.
Proof.
  revert t. induction s as [|a s IH]; intros t.
  - now rewrite editDistance_nil_r.
  - induction t as [|b t IHt]; [reflexivity|].
    change (editDistance (a :: s) (b :: t))
      with (Nat.min (Nat.min (editDistance s (b :: t) + 1) (editDistance (a :: s) t + 1))
                    (editDistance s t + (if Ascii.eqb a b then 0 else 1)))%nat.
    change (editDistance (b :: t) (a :: s))
      with (Nat.min (Nat.min (editDistance t (a :: s) + 1) (editDistance (b :: t) s + 1))
                    (editDistance t s + (if Ascii.eqb b a then 0 else 1)))%nat.
    rewrite IHt, (IH (b :: t)), (IH t), (Ascii.eqb_sym b a). lia.
Qed.

Lemma editDistance_upper s t :
  (editDistance s t <= Nat.max (List.length s) (List.length t))%nat.
Proof.
  revert t. induction s as [|a s IH]; intros t.
  - cbn. lia.
  - destruct t as [|b t]; [cbn; lia|].
    cbn [editDistance List.length]. pose proof (IH t).
    destruct (Ascii.eqb a b); lia.
Qed.

Lemma editDistance_lower s t :
  (List.length s - List.length t <= editDistance s t)%nat.
Proof.
  revert t. induction s as [|a s IH]; intros t.
  - cbn. lia.
  - induction t as [|b t IHt]; [cbn; lia|].
    change (editDistance (a :: s) (b :: t))
      with (Nat.min (Nat.min (editDistance s (b :: t) + 1) (editDistance (a :: s) t + 1))
                    (editDistance s t + (if Ascii.eqb a b then 0 else 1)))%nat.
    pose proof (IH (b :: t)). pose proof (IH t). cbn [List.length] in *.
    destruct (Ascii.eqb a b); lia.
Qed.

Lemma length_list_ascii_of_string s :
  List.length (list_ascii_of_string s) = String.length s.
Proof. induction s; cbn; congruence. Qed.

Lemma list_ascii_of_string_inj s t :
  list_ascii_of_string s = list_ascii_of_string t -> s = t.
Proof.
  intros H. rewrite <- (string_of_list_ascii_of_string s),
              <- (string_of_list_ascii_of_string t). now rewrite H.
Qed.

Lemma rev_inj {A} (l l' : list A) : List.rev l = List.rev l' -> l = l'.
Proof. intros H. rewrite <- (rev_involutive l), <- (rev_involutive l'). now rewrite H. Qed.

Lemma levenshteinDistance_zero str1 str2 :
  levenshteinDistance str1 str2 = 0%nat <-> str1 = str2.
Proof.
  rewrite levenshteinDistance_spec. unfold spec_levenshtein. split.
  - intros H. apply editDistance_zero in H.
    now apply list_ascii_of_string_inj, rev_inj.
  - intros ->. apply editDistance_refl.
Qed.

(** X6. [levenshteinDistance] is the Levenshtein distance.  The last cell of
    the matrix that the script fills row by row is the least number of
    insertions, deletions and substitutions of single characters that turn
    one string into the other, as the recursive definition of that number
    has it. *)
Theorem levenshteinDistance_is_edit_distance :
  forall str1 str2 : string,
    levenshteinDistance str1 str2 = spec_levenshtein str1 str2.
Proof. exact levenshteinDistance_spec. Qed.

(** X7. what [levenshteinDistance] returns.  It is 0 exactly for equal
    strings, it does not depend on the order of its arguments, and it lies
    between the difference of the two lengths and the greater of them. *)
Theorem levenshteinDistance_metric :
  forall str1 str2 : string,
    (levenshteinDistance str1 str2 = 0%nat <-> str1 = str2)
    /\ levenshteinDistance str1 str2 = levenshteinDistance str2 str1
    /\ (String.length str1 - String.length str2 <= levenshteinDistance str1 str2)%nat
    /\ (levenshteinDistance str1 str2
        <= Nat.max (String.length str1) (String.length str2))%nat.
Proof.
  intros str1 str2. split; [apply levenshteinDistance_zero|].
  rewrite !levenshteinDistance_spec. unfold spec_levenshtein.
  repeat split.
  - apply editDistance_sym.
  - pose proof (editDistance_lower (List.rev (list_ascii_of_string str1))
                  (List.rev (list_ascii_of_string str2))) as H.
    now rewrite !length_rev, !length_list_ascii_of_string in H.
  - pose proof (editDistance_upper (List.rev (list_ascii_of_string str1))
                  (List.rev (list_ascii_of_string str2))) as H.
    now rewrite !length_rev, !length_list_ascii_of_string in H.
Qed.

End EditDistance.

Section PhraseFacts.

Import JSString.

Lemma ofNat_nonneg n : (0 <= ofNat n)%Q.
Proof. unfold ofNat. change 0%Q with (inject_Z 0). rewrite <- Zle_Qle. lia. Qed.

Lemma ofNat_pos n : (0 < n)%nat -> (0 < ofNat n)%Q.
Proof. intros H. unfold ofNat. change 0%Q with (inject_Z 0). rewrite <- Zlt_Qlt. lia. Qed.

Lemma ofNat_zero n : (ofNat n == 0)%Q <-> n = 0%nat.
Proof.
  unfold ofNat. change 0%Q with (inject_Z 0). rewrite inject_Z_injective. lia.
Qed.

Lemma ratio_nonneg d n : (0 < n)%nat -> (0 <= ofNat d / ofNat n)%Q.
Proof.
  intros H. apply Qle_shift_div_l; [now apply ofNat_pos|].
  rewrite Qmult_0_l. apply ofNat_nonneg.
Qed.

Lemma ratio_zero d n : (0 < n)%nat -> (ofNat d / ofNat n == 0)%Q <-> d = 0%nat.
Proof.
  intros H. pose proof (ofNat_pos n H) as Hn. split.
  - intros Hz. apply ofNat_zero.
    assert (Hd : (ofNat d == (ofNat d / ofNat n) * ofNat n)%Q).
    { field. intros E. rewrite E in Hn. now apply Qlt_irrefl in Hn. }
    rewrite Hd, Hz. apply Qmult_0_l.
  - intros ->. unfold ofNat. cbn. unfold Qdiv. apply Qmult_0_l.
Qed.

Lemma calculateCER_range spoken expected :
  (0 <= calculateCER spoken expected <= 1)%Q.
Proof.
  unfold calculateCER. split.
  - apply Q.min_glb; [apply ratio_nonneg; lia|discriminate].
  - apply Q.le_min_r.
Qed.

Lemma calculateCER_zero spoken expected :
  (calculateCER spoken expected == 0)%Q <-> levenshteinDistance spoken expected = 0%nat.
Proof.
  unfold calculateCER.
  set (n := Nat.max (String.length expected) 1).
  assert (Hn : (0 < n)%nat) by (unfold n; lia).
  rewrite <- (ratio_zero _ n Hn).
  set (r := (ofNat _ / ofNat n)%Q).
  destruct (Q.min_spec r 1) as [[Hlt ->]|[Hle ->]]; [reflexivity|].
  split; [intros E; discriminate E|].
  intros E. rewrite E in Hle. exfalso. apply Hle. reflexivity.
Qed.

(** X8. the similarity of two phrases.  [calculatePhraseSimilarity] lies
    between 0 and 1, and it is 1 exactly when the two phrases are equal once
    put in lower case and trimmed. *)
Theorem calculatePhraseSimilarity_range_and_one :
  forall spoken expected : string,
    (0 <= calculatePhraseSimilarity spoken expected <= 1)%Q
    /\ ((calculatePhraseSimilarity spoken expected == 1)%Q
        <-> trim (toLowerCase spoken) = trim (toLowerCase expected)).
Proof.
  intros spoken expected. unfold calculatePhraseSimilarity.
  set (a := trim (toLowerCase spoken)). set (b := trim (toLowerCase expected)).
  pose proof (calculateCER_range a b) as [H0 H1].
  pose proof (calculateCER_zero a b) as Hz.
  split; [split|].
  - unfold Qminus. rewrite <- Qle_minus_iff. exact H1.
  - apply Qplus_le_l with (z := (calculateCER a b - 1)%Q). ring_simplify. exact H0.
  - rewrite <- (levenshteinDistance_zero a b), <- Hz.
    split; intros E.
    + apply Qplus_inj_l with (z := (1 - calculateCER a b)%Q). rewrite E at 2. ring.
    + rewrite E. reflexivity.
Qed.

End PhraseFacts.

Section PhraseAccepted.

Import JSString.

Lemma toLowerCase_length s : String.length (toLowerCase s) = String.length s.
Proof. induction s as [|c s IH]; cbn; congruence. Qed.

Lemma enrollmentPhrases_long phrase :
  In phrase enrollmentPhrases -> (2 <= String.length phrase)%nat.
Proof.
  intros H.
  assert (Hall : forallb (fun p => (2 <=? String.length p)%nat) enrollmentPhrases = true)
    by reflexivity.
  rewrite forallb_forall in Hall. apply Nat.leb_le. now apply Hall.
Qed.

Lemma calculatePhraseSimilarity_same spoken expected :
  trim (toLowerCase spoken) = trim (toLowerCase expected) ->
  (calculatePhraseSimilarity spoken expected == 1)%Q.
Proof.
  intros E. unfold calculatePhraseSimilarity. rewrite E.
  assert (Hz : (calculateCER (trim (toLowerCase expected)) (trim (toLowerCase expected)) == 0)%Q)
    by (apply calculateCER_zero, levenshteinDistance_zero; reflexivity).
  rewrite Hz. reflexivity.
Qed.

Lemma seventy_percent n : (ofNat n * 0.7 <= ofNat n)%Q.
Proof.
  pose proof (ofNat_nonneg n) as H.
  apply Qle_minus_iff.
  assert (E : (ofNat n + - (ofNat n * 0.7) == ofNat n * 0.3)%Q) by ring.
  rewrite E. apply Qmult_le_0_compat; [exact H|discriminate].
Qed.

(** X9. the expected phrase is accepted.  When the recognizer hears the
    phrase that is being trained, in any letter case and with any blanks
    around it, and the session has not taken a result yet, [onresult] takes
    it as a match: the match flag is set, the feature vector of the frame is
    stored as a sample when the analyser exists, and [advanceEnrollment] is
    due in 800 ms. *)
Theorem expected_phrase_accepted :
  forall (sid : nat) (env : Env) (heard : string) (s : State)
         (phrase : string) (x : Session),
    nth_error enrollmentPhrases (currentEnrollmentPhrase s) = Some phrase ->
    session sid s = Some x ->
    hasGotResult x = false ->
    toLowerCase (trim heard) = toLowerCase phrase ->
    let s' := enrollment_onresult sid env heard s in
    enrollmentPhraseMatched s' = true
    /\ enrollmentSamples s'
       = enrollmentSamples s
         ++ match analyser s with
            | Some sampleRate => [extractFeatures sampleRate env (trim heard)]
            | None => []
            end
    /\ In (mkTimer (nextTimerId s) 800 false CbAdvanceEnrollment) (timers s').
Proof.
  intros sid env heard s phrase x Hphrase Hx Hfirst Hsame s'.
  assert (Hlen : String.length (trim heard) = String.length phrase).
  { rewrite <- (toLowerCase_length (trim heard)), Hsame. apply toLowerCase_length. }
  assert (Hgate : passesGate (trim heard) (toLowerCase phrase) x = true).
  { unfold passesGate. rewrite Hfirst, toLowerCase_length, Hlen.
    rewrite (proj2 (Qle_bool_iff _ _) (seventy_percent _)), orb_true_r.
    apply nth_error_In, enrollmentPhrases_long in Hphrase.
    apply Nat.leb_le in Hphrase. now rewrite Hphrase. }
  assert (Hmatch : phraseMatches (trim heard) (toLowerCase phrase) = true).
  { unfold phraseMatches. cbv zeta. apply Qle_bool_iff.
    assert (Hsim : (calculatePhraseSimilarity (toLowerCase (trim heard)) (toLowerCase phrase)
                    == 1)%Q).
    { apply calculatePhraseSimilarity_same.
      now rewrite !toLowerCase_idempotent, Hsame. }
    rewrite Hsim.
    destruct (expectedWordCountOf (toLowerCase phrase) <=? 3)%nat; discriminate. }
  unfold s', enrollment_onresult. rewrite Hphrase, Hx, Hgate, Hmatch.
  set (s1 := updateSession sid (set_hasGotResult true) _).
  assert (Hsamples1 : enrollmentSamples s1 = enrollmentSamples s).
  { unfold s1, updateSession. cbn. now rewrite !clearHandle_enrollmentSamples. }
  assert (Han1 : analyser s1 = analyser s).
  { unfold s1, updateSession. cbn. now rewrite !clearHandle_analyser. }
  assert (Hid1 : nextTimerId s1 = nextTimerId s).
  { unfold s1, updateSession. cbn. now rewrite !clearHandle_nextTimerId. }
  set (s2 := set_enrollmentPhraseMatched true (stopEnrollmentRecognition s1)).
  unfold setTimeout, setTimer. cbn [snd].
  repeat split.
  - cbn. apply captureVoiceFeatures_matched.
  - cbn. rewrite captureVoiceFeatures_samples. subst s2. cbn.
    now rewrite stopEnrollmentRecognition_enrollmentSamples,
      stopEnrollmentRecognition_analyser, Hsamples1, Han1.
  - cbn. apply in_or_app. right.
    rewrite captureVoiceFeatures_nextTimerId. subst s2. cbn.
    rewrite stopEnrollmentRecognition_nextTimerId, Hid1. now left.
Qed.

End PhraseAccepted.

Lemma expected_phrase_accepted_witness :
  let s := recording withAnalyser in
  let s' := enrollment_onresult 0 silence " youtube PAUSE " s in
  JSString.toLowerCase (JSString.trim " youtube PAUSE ")
  = JSString.toLowerCase "YouTube pause"
  /\ enrollmentPhraseMatched s' = true
  /\ enrollmentSamples s'
     = [extractFeatures 48000 silence (JSString.trim " youtube PAUSE ")].
Proof.
  intros s s'.
  destruct (expected_phrase_accepted 0 silence " youtube PAUSE " s
              "YouTube pause" (mkSession false (Some 4%nat) 5 false)
              eq_refl eq_refl eq_refl eq_refl)
    as (Hm & Hs & _).
  split; [reflexivity|]. split; [exact Hm | exact Hs].
Defined.

(** ** The verdict across contexts *)

Section Contexts.

Import JS JSFacts.

Lemma verified_at_wake_word s cf context :
  inherited context = false ->
  isVerified (fst (multiLayerVerification cf "wake_word" s)) = true ->
  isVerified (fst (multiLayerVerification cf context s)) = true.
Proof.
  intros Hown.
  destruct (voiceprint s) as [vp|] eqn:Hvp; [destruct cf as [cf|]|].
  - rewrite !(multiLayerVerification_isVerified _ _ _ _ Hvp).
    rewrite !andb_true_iff, (reaches_true _ _ Hown), (reaches_true _ "wake_word" eq_refl).
    intros [Hc Hp]. split; [|exact Hp].
    assert (spec_contextThreshold context <= spec_contextThreshold "wake_word").
    { unfold spec_contextThreshold. cbn [String.eqb Ascii.eqb Bool.eqb].
      destruct (String.eqb context "wake_word"), (String.eqb context "command"); cbn; lra. }
    lra.
  - unfold multiLayerVerification. rewrite Hvp. cbn. discriminate.
  - unfold multiLayerVerification. rewrite Hvp. cbn. discriminate.
Qed.

(** X10. the wake word is the strictest context.  A feature vector that
    [multiLayerVerification] accepts in the context of the wake word is
    accepted in every other context that is not the name of a member
    inherited from [Object.prototype]. *)
Theorem wake_word_is_strictest :
  forall (s : State) (currentFeatures : option FeatureVector.t) (context : string),
    inherited context = false ->
    isVerified (fst (multiLayerVerification currentFeatures "wake_word" s)) = true ->
    isVerified (fst (multiLayerVerification currentFeatures context s)) = true.
Proof.
  intros s cf context. apply verified_at_wake_word.
Qed.

Lemma wake_word_is_strictest_witness :
  let s := withVoiceprint pitchedVoiceprint in
  let cf := Some (featuresOf pitchedVoiceprint "youtube" 0) in
  isVerified (fst (multiLayerVerification cf "wake_word" s)) = true
  /\ isVerified (fst (multiLayerVerification cf "command" s)) = true.
Proof.
  cbv zeta.
  assert (H : isVerified
                (fst (multiLayerVerification
                        (Some (featuresOf pitchedVoiceprint "youtube" 0)) "wake_word"
                        (withVoiceprint pitchedVoiceprint))) = true).
  { rewrite (multiLayerVerification_isVerified (withVoiceprint pitchedVoiceprint)
               pitchedVoiceprint _ _ eq_refl).
    rewrite (all_layers_one pitchedVoiceprint _
               (mkFormant 562.5 180) (mkFormant 1125 140) (mkFormant 1687.5 120)).
    - rewrite five_pass. unfold confidenceOf.
      replace (1 * 0.15 + 1 * 0.25 + 1 * 0.25 + 1 * 0.20 + 1 * 0.15) with 1 by lra.
      rewrite (reaches_one "wake_word" eq_refl). reflexivity.
    - apply sameFields_featuresOf.
    - cbn; lra.
    - cbn; lra.
    - reflexivity.
    - cbn; lra.
    - cbn; lra.
    - cbn; lra.
    - left; cbn; lra. }
  split; [exact H|].
  apply (wake_word_is_strictest _ _ "command" eq_refl H).
Defined.

(** X11. the confidence is a number between 0 and 1.  Whatever the
    voiceprint, the feature vector and the context, the confidence that
    [multiLayerVerification] reports lies in [0, 1], and so does the score
    of each of the layers it lists. *)
Theorem confidence_and_scores_in_range :
  forall (s : State) (currentFeatures : option FeatureVector.t) (context : string),
    let r := fst (multiLayerVerification currentFeatures context s) in
    0 <= confidence r <= 1
    /\ Forall (fun layer => 0 <= score layer <= 1) (layers r).
Proof.
  intros s cf context r. split; [apply multiLayerVerification_confidence_range|].
  subst r. unfold multiLayerVerification.
  destruct (voiceprint s) as [vp|]; [destruct cf as [cf|]|]; try (cbn; apply Forall_nil).
  cbn [pushLayer layerAt nth layerTable app fst layers v_layers].
  repeat match goal with |- Forall _ _ => constructor end; cbn [score].
  - apply verifyEnergyPattern_range.
  - apply calculateFrequencySimilarity_range.
  - apply calculateFormantSimilarity_range.
  - apply calculateSpectralSimilarity_range.
  - apply calculateVoiceSimilarity_range.
Qed.

End Contexts.

(** ** Commands on the volume *)

Section VolumeCommands.

Import JS JSFacts JSString.

Variable extractCommands : string -> list VoiceCommand.

Local Abbreviation onresult :=
  (recognition_onresult VoiceCommand extractCommands Player.executeCommand).
Local Abbreviation processCommandP :=
  (processCommand VoiceCommand extractCommands Player.executeCommand).

(** The verdict looks at the acoustic fields only: it is the same for
    every transcript, and in every state with the same analyser and
    voiceprint. *)
Lemma verification_of_frame env t1 t2 context s1 s2 :
  analyser s1 = analyser s2 -> voiceprint s1 = voiceprint s2 ->
  isVerified (fst (multiLayerVerification
                     (fst (captureVoiceFeatures env t1 false s1)) context s1))
  = isVerified (fst (multiLayerVerification
                       (fst (captureVoiceFeatures env t2 false s2)) context s2)).
Proof.
  intros Ha Hv. unfold captureVoiceFeatures. rewrite Ha.
  destruct (analyser s2) as [sr|]; cbn [fst].
  - destruct (voiceprint s2) as [vp|] eqn:Hvp.
    + rewrite (multiLayerVerification_isVerified s1 vp) by congruence.
      rewrite (multiLayerVerification_isVerified s2 vp) by exact Hvp.
      reflexivity.
    + unfold multiLayerVerification. rewrite Hv, Hvp. reflexivity.
  - unfold multiLayerVerification. rewrite Hv.
    destruct (voiceprint s2); reflexivity.
Qed.

Lemma executeCommand_named name v s :
  video s = Some v ->
  video (Player.executeCommand (Named name) s) = Some (Player.volumeAfter name v)
  /\ isDucking (Player.executeCommand (Named name) s) = isDucking s
  /\ originalVolume (Player.executeCommand (Named name) s) = originalVolume s
  /\ wakeWordTimeout (Player.executeCommand (Named name) s) = wakeWordTimeout s.
Proof.
  intros Hv. unfold Player.executeCommand. rewrite Hv. cbn. auto.
Qed.

Lemma resetWakeWord_isDucking v s :
  video s = Some v -> isDucking (resetWakeWord s) = false.
Proof.
  intros Hv. unfold resetWakeWord.
  set (s1 := duckAudio false (set_wakeWordDetected false s)).
  assert (Hd : isDucking s1 = false)
    by (unfold s1; now apply (duckAudio_isDucking false _ v)).
  destruct (wakeWordTimeout s1); exact Hd.
Qed.

(** What [processCommand] leaves when the speaker is accepted and the
    parser finds a named command. *)
Lemma processCommand_named env transcript name rest v s :
  wakeWordDetected s = true ->
  video s = Some v ->
  (voiceprint s = None
   \/ isVerified (fst (multiLayerVerification
                         (fst (captureVoiceFeatures env transcript false s))
                         "command" s)) = true) ->
  extractCommands transcript = Named name :: rest ->
  processCommandP env transcript s
  = resetWakeWord (Player.executeCommand (Named name) s).
Proof.
  intros Hw Hv Hok Hcmd. unfold processCommand. rewrite Hw, Hcmd. cbn [negb].
  destruct (voiceprint s) as [vp|] eqn:Hvp; [|reflexivity].
  destruct Hok as [Hno | Hok]; [discriminate|].
  pose proof (captureVoiceFeatures_frame env transcript s) as Hf.
  destruct (captureVoiceFeatures env transcript false s) as [cf s1].
  cbn [fst snd] in *. subst s1.
  pose proof (multiLayerVerification_frame cf "command" s) as Hm.
  destruct (multiLayerVerification cf "command" s) as [r s2].
  cbn [fst snd] in *. subst s2. now rewrite Hok.
Qed.

(** X12. a command on the volume said together with the wake word is undone.
    When one utterance carries the wake word and a named command, the
    speaker being accepted, the video plays afterwards at the volume it had
    before, whatever the command: [executeCommand] acts on the ducked
    volume, and [resetWakeWord] then puts the remembered volume back.  So
    ['louder'] and ['quieter'] have no effect there. *)
Theorem volume_command_with_wake_word_is_undone :
  forall (env : Env) (heard : string) (s : State) (v : R)
         (name : string) (rest : list VoiceCommand),
    enrollmentMode s = false ->
    wakeWordDetected s = false ->
    video s = Some v ->
    isDucking s = false ->
    let transcript := toLowerCase (trim heard) in
    includes "youtube" transcript = true ->
    (voiceprint s = None
     \/ isVerified (fst (multiLayerVerification
                           (fst (captureVoiceFeatures env transcript false s))
                           "wake_word" s)) = true) ->
    let commandPart := trim (replace "youtube" "" transcript) in
    commandPart <> ""%string ->
    extractCommands commandPart = Named name :: rest ->
    let s' := onresult env heard s in
    video s' = Some v /\ isDucking s' = false /\ idle s'.
Proof.
  intros env heard s v name rest Hmode Hw Hv Hd transcript Hinc Hok commandPart
    Hpart Hcmd s'.
  unfold s', recognition_onresult. rewrite Hmode, Hw. cbn [negb]. fold transcript.
  rewrite (processWakeWord_accepted VoiceCommand extractCommands Player.executeCommand
             env transcript s Hinc Hok).
  unfold openCommandWindow. fold commandPart.
  rewrite (proj2 (String.eqb_neq commandPart "") Hpart). cbn [negb].
  set (s1 := duckAudio true (set_wakeWordDetected true s)).
  assert (Hs1 : video s1 = Some duckingVolume /\ isDucking s1 = true
                /\ originalVolume s1 = v /\ wakeWordDetected s1 = true
                /\ voiceprint s1 = voiceprint s /\ analyser s1 = analyser s).
  { unfold s1, duckAudio. cbn [video set_wakeWordDetected isDucking].
    rewrite Hv, Hd. cbn. repeat split. }
  destruct Hs1 as (Hv1 & Hd1 & Ho1 & Hw1 & Hvp1 & Han1).
  rewrite (processCommand_named env commandPart name rest duckingVolume s1 Hw1 Hv1);
    [| | exact Hcmd].
  - destruct (executeCommand_named name duckingVolume s1 Hv1) as (Hve & Hde & Hoe & _).
    destruct (resetWakeWord_idle (Player.executeCommand (Named name) s1)) as (Hidle & Hvr).
    split; [|split; [|exact Hidle]].
    + rewrite Hvr. unfold unduckedVolume. rewrite Hve, Hde, Hd1, Hoe, Ho1. reflexivity.
    + apply (resetWakeWord_isDucking _ _ Hve).
  - destruct Hok as [Hno | Hyes]; [left; congruence|]. right.
    rewrite (verification_of_frame env commandPart transcript "command" s1 s Han1 Hvp1).
    now apply verified_at_wake_word.
Qed.


End VolumeCommands.

Lemma volume_command_with_wake_word_is_undone_witness :
  let parse := Commands.extractCommands in
  let s' := recognition_onresult VoiceCommand parse Player.executeCommand
              silence "YouTube louder" (playing 0.8) in
  JSString.trim (JSString.replace "youtube" ""
                   (JSString.toLowerCase (JSString.trim "YouTube louder")))
  = "louder"%string
  /\ video s' = Some 0.8 /\ isDucking s' = false /\ idle s'.
Proof.
  intros parse s'.
  split; [reflexivity|].
  apply (volume_command_with_wake_word_is_undone parse silence "YouTube louder"
           (playing 0.8) 0.8 "louder" []).
  - reflexivity.
  - reflexivity.
  - reflexivity.
  - reflexivity.
  - reflexivity.
  - left; reflexivity.
  - discriminate.
  - reflexivity.
Defined.


(** ** Searching the transcript *)

Section TranscriptSearch.

Import JS JSString Transcript.

Lemma prefix_refl s : String.prefix s s = true.
Proof.
  induction s as [|c s IH]; [reflexivity|]. cbn.
  destruct (ascii_dec c c); [exact IH | contradiction].
Qed.

Lemma includes_refl s : includes s s = true.
Proof. destruct s; unfold includes; fold includes; now rewrite prefix_refl. Qed.

Lemma isDuplicate_similar matches entry :
  isDuplicate matches entry
  = existsb (fun existing => similar (text entry) (m_text existing)) matches.
Proof.
  unfold isDuplicate, similar. induction matches as [|m ms IH]; [reflexivity|].
  cbn [existsb]. rewrite IH. f_equal.
  destruct (String.eqb (toLowerCase (m_text m)) (toLowerCase (text entry))) eqn:E.
  - apply String.eqb_eq in E. rewrite E, includes_refl.
    now rewrite !orb_true_r.
  - now rewrite andb_false_r.
Qed.

(** X14. the time between two entries plays no part in the search.  An entry
    counts as a duplicate of the matches found so far exactly when its text
    contains, or is contained in, the text of one of them, letter case
    apart; how far apart in time the two are makes no difference. *)
Theorem duplicates_ignore_time :
  forall (matches : list Match) (entry : Entry) (t : R),
    isDuplicate matches (mkEntry (text entry) t (duration entry))
    = isDuplicate matches entry.
Proof.
  intros matches entry t. now rewrite !isDuplicate_similar.
Qed.

Lemma searchStep_head term m ms e :
  hd_error (searchStep term (m :: ms) e) = Some m.
Proof.
  unfold searchStep. destruct (includes _ _); [|reflexivity].
  destruct (isDuplicate _ _); reflexivity.
Qed.

Lemma searchStep_nonempty term m ms e :
  exists m' ms', searchStep term (m :: ms) e = m' :: ms'.
Proof.
  unfold searchStep. destruct (includes _ _); [|eauto].
  destruct (isDuplicate _ _); cbn; eauto.
Qed.

Lemma fold_searchStep_head term entries m ms :
  hd_error (fold_left (searchStep term) entries (m :: ms)) = Some m.
Proof.
  revert m ms. induction entries as [|e l IH]; intros m ms; [reflexivity|].
  cbn [fold_left].
  destruct (searchStep_nonempty term m ms e) as (m' & ms' & E).
  pose proof (searchStep_head term m ms e) as H. rewrite E in H |- *.
  cbn in H. injection H as ->. apply IH.
Qed.

Lemma fold_searchStep_first query entries :
  hd_error (fold_left (searchStep (trim (toLowerCase query))) entries [])
  = option_map matchOf (find (hit query) entries).
Proof.
  induction entries as [|e l IH]; [reflexivity|].
  cbn [fold_left find]. unfold searchStep at 2. unfold hit at 1.
  destruct (includes (trim (toLowerCase query)) (toLowerCase (text e))).
  - cbn [isDuplicate existsb app]. apply fold_searchStep_head.
  - exact IH.
Qed.

(** X15. the search returns the first entry that contains the term.
    [searchTranscript] returns [null] exactly when no entry of the
    transcript contains the search term, letter case apart; otherwise the
    start, the duration and the text it returns are those of the first such
    entry, which also heads the list of all matches. *)
Theorem searchTranscript_first_hit :
  forall (entries : list Entry) (query : string),
    match find (hit query) entries with
    | None => searchTranscript (Some entries) query = None
    | Some e =>
        exists r, searchTranscript (Some entries) query = Some r
                  /\ f_start r = start e /\ f_duration r = duration e
                  /\ f_text r = text e /\ f_score r = 100%Z
                  /\ hd_error (allMatches r) = Some (matchOf e)
    end.
Proof.
  intros entries query.
  pose proof (fold_searchStep_first query entries) as H.
  unfold searchTranscript.
  destruct entries as [|e0 l]; [reflexivity|].
  set (ms := fold_left _ (e0 :: l) []) in *.
  destruct (find (hit query) (e0 :: l)) as [e|]; cbn [option_map] in H.
  - destruct ms as [|m ms']; [discriminate|]. cbn in H. injection H as ->.
    eexists. split; [reflexivity|]. cbn. repeat split; reflexivity.
  - destruct ms; [reflexivity | discriminate].
Qed.

Lemma ForallOrdPairs_snoc {A} (R : A -> A -> Prop) l x :
  ForallOrdPairs R l -> Forall (fun y => R y x) l -> ForallOrdPairs R (l ++ [x]).
Proof.
  induction 1 as [|a l Ha Hl IH]; intros Hx.
  - cbn. constructor; constructor.
  - inversion Hx as [|? ? Hax Hlx]; subst. cbn. constructor.
    + apply Forall_app. split; [exact Ha | constructor; [exact Hax | constructor]].
    + now apply IH.
Qed.

Lemma similar_sym a b : similar a b = similar b a.
Proof. unfold similar. apply orb_comm. Qed.

Lemma matchesOf_step query seen e ms :
  matchesOf query seen ms ->
  matchesOf query (seen ++ [e]) (searchStep (trim (toLowerCase query)) ms e).
Proof.
  intros [Hin Hpair].
  assert (Hin' : Forall (fun m => exists e0, In e0 (seen ++ [e]) /\ hit query e0 = true
                                             /\ m = matchOf e0) ms).
  { eapply Forall_impl; [|exact Hin]. intros m (e0 & H0 & H1 & H2).
    exists e0. split; [apply in_or_app; now left | auto]. }
  unfold searchStep.
  destruct (includes (trim (toLowerCase query)) (toLowerCase (text e))) eqn:Hhit;
    [|now split].
  destruct (isDuplicate ms e) eqn:Hdup; [now split|].
  split.
  - apply Forall_app. split; [exact Hin'|]. constructor; [|constructor].
    exists e. split; [apply in_or_app; right; now left|]. split; [exact Hhit|reflexivity].
  - apply ForallOrdPairs_snoc; [exact Hpair|].
    rewrite isDuplicate_similar in Hdup.
    apply Forall_forall. intros m Hm. cbn [m_text].
    rewrite similar_sym.
    destruct (similar (text e) (m_text m)) eqn:Hs; [|reflexivity].
    assert (existsb (fun existing => similar (text e) (m_text existing)) ms = true)
      by (apply existsb_exists; eauto).
    congruence.
Qed.

Lemma matchesOf_fold query entries seen ms :
  matchesOf query seen ms ->
  matchesOf query (seen ++ entries)
    (fold_left (searchStep (trim (toLowerCase query))) entries ms).
Proof.
  revert seen ms. induction entries as [|e l IH]; intros seen ms H.
  - now rewrite app_nil_r.
  - cbn [fold_left]. replace (seen ++ e :: l) with ((seen ++ [e]) ++ l)
      by (now rewrite <- app_assoc).
    apply IH. now apply matchesOf_step.
Qed.

(** X16. what the list of all matches holds.  Every match is made of an entry
    of the transcript whose text contains the search term, letter case
    apart, with score 100; and no two matches have texts of which one
    contains the other, so no text is listed twice. *)
Theorem searchTranscript_matches :
  forall (entries : list Entry) (query : string) (r : Found),
    searchTranscript (Some entries) query = Some r ->
    Forall (fun m => exists e, In e entries /\ hit query e = true /\ m = matchOf e)
           (allMatches r)
    /\ ForallOrdPairs (fun a b => similar (m_text a) (m_text b) = false)
                      (allMatches r).
Proof.
  intros entries query r H.
  pose proof (matchesOf_fold query entries [] []) as Hm.
  cbn [app] in Hm.
  assert (H0 : matchesOf query [] []) by (split; constructor).
  specialize (Hm H0).
  unfold searchTranscript in H. destruct entries as [|e0 l]; [discriminate|].
  destruct (fold_left _ (e0 :: l) []) as [|m ms] eqn:E; [discriminate|].
  injection H as <-. cbn [allMatches]. exact Hm.
Qed.

End TranscriptSearch.

Lemma searchStep_similar term ms e :
  Transcript.searchStep term ms e
  = if JSString.includes term (JSString.toLowerCase (Transcript.text e))
    then if existsb (fun existing =>
                       Transcript.similar (Transcript.text e) (Transcript.m_text existing))
                    ms
         then ms else ms ++ [Transcript.matchOf e]
    else ms.
Proof. unfold Transcript.searchStep. now rewrite isDuplicate_similar. Qed.

Lemma searchTranscript_example :
  Transcript.searchTranscript (Some Transcript.exampleTranscript) " Networks"
  = Some (Transcript.mkFound 2 3 "Today: neural networks" 100
            [ Transcript.mkMatch 2 3 "Today: neural networks" 100 "text match";
              Transcript.mkMatch 60 4 "More on Neural Networks later" 100 "text match" ]).
Proof.
  unfold Transcript.searchTranscript, Transcript.exampleTranscript.
  cbv zeta. cbn [fold_left]. rewrite !searchStep_similar. reflexivity.
Qed.

Lemma searchTranscript_matches_witness :
  let r := Transcript.mkFound 2 3 "Today: neural networks" 100
             [ Transcript.mkMatch 2 3 "Today: neural networks" 100 "text match";
               Transcript.mkMatch 60 4 "More on Neural Networks later" 100
                 "text match" ] in
  Transcript.searchTranscript (Some Transcript.exampleTranscript) " Networks" = Some r
  /\ Forall (fun m => exists e, In e Transcript.exampleTranscript
                                /\ Transcript.hit " Networks" e = true
                                /\ m = Transcript.matchOf e)
            (Transcript.allMatches r)
  /\ ForallOrdPairs
       (fun a b => Transcript.similar (Transcript.m_text a) (Transcript.m_text b) = false)
       (Transcript.allMatches r).
Proof.
  intros r. split; [exact searchTranscript_example|].
  apply (searchTranscript_matches Transcript.exampleTranscript " Networks" r
           searchTranscript_example).
Defined.

(** ** Reading a command from an utterance *)

Section Parsing.

Import JSString Commands.

Local Open Scope string_scope.

Example timestamp_units :
  extractCommands "Go to 2 minutes 30 seconds" = [Timestamp 150 "2 minutes 30 seconds"].
Proof. reflexivity. Qed.

Example timestamp_hours :
  extractCommands "jump to 1 hr 5 min" = [Timestamp 3900 "1 hr 5 min"].
Proof. reflexivity. Qed.

Example timestamp_number : extractCommands "seek 90" = [Timestamp 90 "90"].
Proof. reflexivity. Qed.

(** [1:30] is read as its first number. *)
Example timestamp_colon : extractCommands "go to 1:30" = [Timestamp 1 "1:30"].
Proof. reflexivity. Qed.

(** Without a time, [go to] is a search... *)
Example go_to_text :
  extractCommands "Go to the introduction"
  = [Search "the introduction" "go to the introduction"].
Proof. reflexivity. Qed.

(** ... and so it is with the time 0. *)
Example go_to_zero :
  extractCommands "go to 0 seconds" = [Search "0 seconds" "go to 0 seconds"].
Proof. reflexivity. Qed.

Example play_at_text : extractCommands "play at noon" = [Named "play"].
Proof. reflexivity. Qed.

Example search_find :
  extractCommands "find  neural networks" = [Search "neural networks" "find  neural networks"].
Proof. reflexivity. Qed.

Example search_where :
  extractCommands "where is the demo" = [Search "the demo" "where is the demo"].
Proof. reflexivity. Qed.

Example named_unmute : extractCommands "unmute" = [Named "unmute"].
Proof. reflexivity. Qed.

Example named_volume : extractCommands "Volume up" = [Named "louder"].
Proof. reflexivity. Qed.

Example named_beginning : extractCommands "from the beginning" = [Named "restart"].
Proof. reflexivity. Qed.

Example named_restart : extractCommands "restart" = [Named "play"].
Proof. reflexivity. Qed.

Example nothing : extractCommands "hello" = [].
Proof. reflexivity. Qed.

Lemma prefix_app a s : String.prefix a s = true <-> exists post, s = a ++ post.
Proof.
  revert s. induction a as [|c a IH]; intros s.
  - split; [intros _; now exists s | intros _; destruct s; reflexivity].
  - destruct s as [|d s]; cbn.
    + split; [discriminate | intros [post H]; discriminate].
    + destruct (ascii_dec c d) as [<- | Hne].
      * rewrite IH. split; intros [post H]; exists post; [now rewrite H | now injection H].
      * split; [discriminate | intros [post H]; injection H as H1 H2; congruence].
Qed.

Lemma append_assoc (a b c : string) : (a ++ b) ++ c = a ++ b ++ c.
Proof. induction a as [|x a IH]; cbn; [reflexivity | now rewrite IH]. Qed.

Lemma includes_app a s :
  includes a s = true <-> exists pre post, s = pre ++ a ++ post.
Proof.
  split.
  - induction s as [|c s IH]; cbn [includes]; rewrite orb_true_iff.
    + intros [H | H]; [|discriminate].
      apply prefix_app in H as [post H]. now exists "", post.
    + intros [H | H].
      * apply prefix_app in H as [post H]. now exists "", post.
      * destruct (IH H) as (pre & post & E). exists (String c pre), post.
        cbn. now rewrite E.
  - intros (pre & post & ->). induction pre as [|c pre IH].
    + cbn [append]. assert (H : String.prefix a (a ++ post) = true)
        by (apply prefix_app; now exists post).
      destruct (a ++ post); cbn [includes]; now rewrite H.
    + cbn [append includes]. rewrite IH. apply orb_true_r.
Qed.

(** A text that contains [b] contains every text that [b] contains. *)
Lemma includes_trans a b s :
  includes a b = true -> includes b s = true -> includes a s = true.
Proof.
  rewrite !includes_app. intros (p1 & q1 & ->) (p2 & q2 & ->).
  exists (p2 ++ p1), (q1 ++ q2). now rewrite !append_assoc.
Qed.

Lemma keyword_handled lowText name :
  keyword lowText = Some name -> In name handledNames.
Proof.
  unfold keyword. cbv zeta.
  repeat match goal with
         | |- context [if ?b then _ else _] => destruct b
         end;
    intros H; try discriminate; injection H as <-; cbn; auto 20.
Qed.

Lemma parseTimeToSeconds_positive timeText seconds :
  parseTimeToSeconds timeText = Some seconds -> (0 < seconds)%Z.
Proof.
  unfold parseTimeToSeconds. cbv zeta.
  match goal with
  | |- (if (0 <? ?t)%Z then _ else _) = _ -> _ =>
      destruct (0 <? t)%Z eqn:E; [|discriminate];
      intros H; injection H as <-; now apply Z.ltb_lt
  end.
Qed.

(** X17. what [extractCommands] can hand to [executeCommand].  The list holds
    at most one command.  A timestamp command carries a positive number of
    seconds; a search command carries the lower-cased utterance as its
    original text; and a named command bears one of the twelve names that
    the [switch] of [executeCommand] has a case for. *)
Theorem extractCommands_shape :
  forall text : string,
    match extractCommands text with
    | [] => True
    | [Timestamp seconds _] => (0 < seconds)%Z
    | [Search _ originalText] => originalText = toLowerCase text
    | [Named name] => In name handledNames
    | _ => False
    end.
Proof.
  intros text. unfold extractCommands. cbv zeta.
  destruct (parseTimestampCommand (toLowerCase text)) as [c|] eqn:Et.
  - unfold parseTimestampCommand in Et.
    destruct (search true timestampPattern (toLowerCase text)); [|discriminate].
    destruct (parseTimeToSeconds s) eqn:Es; [|discriminate].
    injection Et as <-. now apply parseTimeToSeconds_positive in Es.
  - destruct (parseSearchCommand (toLowerCase text)) as [c|] eqn:Ec.
    + unfold parseSearchCommand in Ec.
      destruct (firstMatch searchPatterns (toLowerCase text)); [|discriminate].
      now injection Ec as <-.
    + destruct (keyword (toLowerCase text)) as [name|] eqn:Ek; [|exact I].
      now apply keyword_handled in Ek.
Qed.

(** X18. saying "restart" does not restart.  The word contains "start", which
    the chain of tests takes for the command to play before it comes to
    "restart": an utterance that contains "restart" never gives the command
    to restart, and gives the command to pause or to play unless it is read
    as a timestamp or a search. *)
Theorem restart_is_shadowed :
  forall text : string,
    includes "restart" (toLowerCase text) = true ->
    ~ In (Named "restart") (extractCommands text)
    /\ (keyword (toLowerCase text) = Some "pause"
        \/ keyword (toLowerCase text) = Some "play").
Proof.
  intros text H.
  assert (Hstart : includes "start" (toLowerCase text) = true)
    by (apply (includes_trans "start" "restart"); [reflexivity | exact H]).
  assert (Hk : keyword (toLowerCase text) = Some "pause"
               \/ keyword (toLowerCase text) = Some "play").
  { unfold keyword. cbv zeta. rewrite Hstart.
    destruct (includes "pause" (toLowerCase text) || includes "stop" (toLowerCase text));
      [now left|].
    right. now rewrite !orb_true_r. }
  split; [|exact Hk].
  unfold extractCommands. cbv zeta.
  destruct (parseTimestampCommand (toLowerCase text)) as [c|] eqn:Et.
  - unfold parseTimestampCommand in Et.
    destruct (search true timestampPattern (toLowerCase text)); [|discriminate].
    destruct (parseTimeToSeconds s); [|discriminate].
    injection Et as <-. intros [Hin | []]. discriminate.
  - destruct (parseSearchCommand (toLowerCase text)) as [c|] eqn:Ec.
    + unfold parseSearchCommand in Ec.
      destruct (firstMatch searchPatterns (toLowerCase text)); [|discriminate].
      injection Ec as <-. intros [Hin | []]. discriminate.
    + destruct Hk as [-> | ->]; intros [Hin | []]; discriminate.
Qed.

End Parsing.

Lemma restart_is_shadowed_witness :
  JSString.includes "restart" (JSString.toLowerCase "Restart the video") = true
  /\ Commands.extractCommands "Restart the video" = [Named "play"]
  /\ ~ In (Named "restart") (Commands.extractCommands "Restart the video").
Proof.
  split; [reflexivity|]. split; [reflexivity|].
  exact (proj1 (restart_is_shadowed "Restart the video" eq_refl)).
Defined.

(** ** Stopping voice control *)

Section Stopping.

Variable completeEnrollment : State -> State.

Lemma resetWakeWord_pending_other h s :
  wakeWordTimeout s <> Some h -> pending h (resetWakeWord s) = pending h s.
Proof.
  intros Hne. unfold resetWakeWord.
  set (s1 := duckAudio false (set_wakeWordDetected false s)).
  assert (Ht : wakeWordTimeout s1 = wakeWordTimeout s)
    by (unfold s1; now rewrite duckAudio_wakeWordTimeout).
  assert (Hp : pending h s1 = pending h s)
    by (unfold s1; now rewrite duckAudio_pending).
  destruct (wakeWordTimeout s1) as [h'|] eqn:E; [|exact Hp].
  change (pending h (clearTimer h' s1) = pending h s).
  rewrite pending_clearTimer_other; [exact Hp | congruence].
Qed.


Lemma resetWakeWord_frame s :
  isActive (resetWakeWord s) = isActive s
  /\ isListening (resetWakeWord s) = isListening s
  /\ restartTimeout (resetWakeWord s) = restartTimeout s.
Proof.
  unfold resetWakeWord.
  set (s1 := duckAudio false (set_wakeWordDetected false s)).
  assert (H1 : isActive s1 = isActive s /\ isListening s1 = isListening s
               /\ restartTimeout s1 = restartTimeout s).
  { unfold s1, duckAudio. destruct (video _); [|now cbn].
    destruct (false && _); [now cbn|]. destruct (negb false && _); now cbn. }
  destruct (wakeWordTimeout s1); exact H1.
Qed.

Lemma clearHandle_frame h s :
  isActive (clearHandle h s) = isActive s
  /\ isListening (clearHandle h s) = isListening s
  /\ wakeWordDetected (clearHandle h s) = wakeWordDetected s
  /\ wakeWordTimeout (clearHandle h s) = wakeWordTimeout s
  /\ video (clearHandle h s) = video s.
Proof. destruct h; cbn; auto. Qed.

Lemma pending_clearHandle_other h h' s :
  h' <> Some h -> pending h (clearHandle h' s) = pending h s.
Proof.
  destruct h' as [k|]; [|reflexivity]. intros Hne.
  apply pending_clearTimer_other. congruence.
Qed.

Lemma stopListening_isActive s : isActive (stopListening s) = false.
Proof.
  unfold stopListening.
  destruct (clearHandle_frame (restartTimeout (resetWakeWord (set_isActive false s)))
              (resetWakeWord (set_isActive false s))) as (Ha & _).
  rewrite Ha. destruct (resetWakeWord_frame (set_isActive false s)) as (Ha' & _).
  now rewrite Ha'.
Qed.


(** X20. [stopListening] does not cancel the retry of [startListening].  The
    timer that [startListening] sets when the recognizer could not be
    started is not kept in any field: it stays pending through
    [stopListening], and when it comes due voice control is active
    again. *)
Theorem stopListening_keeps_retry :
  forall (s : State) (h : nat) (t : Timer) (startThrows : bool),
    pending h s = Some t ->
    callback t = CbStartListening ->
    repeats t = false ->
    restartTimeout s <> Some h ->
    wakeWordTimeout s <> Some h ->
    isListening s = false ->
    let s' := stopListening s in
    pending h s' = Some t
    /\ isActive s' = false
    /\ isActive (fire completeEnrollment h startThrows s') = true.
Proof.
  intros s h t throws Hp Hc Hrep Hr Hw Hl s'.
  assert (Hp' : pending h s' = Some t).
  { unfold s', stopListening.
    destruct (resetWakeWord_frame (set_isActive false s)) as (_ & _ & Hr').
    rewrite pending_clearHandle_other by (rewrite Hr'; exact Hr).
    rewrite resetWakeWord_pending_other by exact Hw. exact Hp. }
  assert (Hl' : isListening s' = false).
  { unfold s', stopListening.
    destruct (clearHandle_frame (restartTimeout (resetWakeWord (set_isActive false s)))
                (resetWakeWord (set_isActive false s))) as (_ & Hl' & _).
    rewrite Hl'. destruct (resetWakeWord_frame (set_isActive false s)) as (_ & Hl'' & _).
    now rewrite Hl''. }
  split; [exact Hp'|]. split; [apply stopListening_isActive|].
  unfold fire. rewrite Hp', Hrep, Hc. cbn [runCallback].
  unfold startListening.
  change (isListening (clearTimer h s')) with (isListening s'). rewrite Hl'.
  destruct throws; reflexivity.
Qed.

End Stopping.

Lemma stopListening_keeps_retry_witness :
  let s := startListening true (playing 0.8) in
  let s' := stopListening s in
  pending 1 s = Some (mkTimer 1 1000 false CbStartListening)
  /\ pending 1 s' = Some (mkTimer 1 1000 false CbStartListening)
  /\ isActive s' = false
  /\ isActive (fire (fun s => s) 1 false s') = true.
Proof.
  intros s s'. split; [reflexivity|].
  apply (stopListening_keeps_retry (fun s => s) s 1
           (mkTimer 1 1000 false CbStartListening) false).
  - reflexivity.
  - reflexivity.
  - reflexivity.
  - discriminate.
  - discriminate.
  - reflexivity.
Defined.

(** ** The range of the extracted features *)

Section FeatureRanges.

Import JS JSFacts.

Lemma fold_left_invariant {A B} (P : A -> Prop) (Q : B -> Prop) (f : A -> B -> A) l a :
  (forall a b, P a -> Q b -> P (f a b)) -> Forall Q l -> P a -> P (fold_left f l a).
Proof.
  intros Hf Hl. revert a. induction Hl as [|b l Hb Hl IH]; intros a Ha; [exact Ha|].
  cbn. apply IH. now apply Hf.
Qed.

Lemma len_pos a : a <> [] -> 0 < len a.
Proof.
  intros H. unfold len. apply IZR_lt. destruct a; [contradiction | cbn; lia].
Qed.

Lemma byte_IZR x : (0 <= x <= 255)%Z -> 0 <= IZR x <= 255.
Proof. intros [H0 H1]. split; apply IZR_le; assumption. Qed.

(** *** Energy *)

Lemma calculateEnergy_range timeDomainData :
  bytes timeDomainData -> timeDomainData <> [] ->
  0 <= calculateEnergy timeDomainData <= 1.
Proof.
  intros Hb Hne. unfold calculateEnergy.
  pose proof (len_pos _ Hne) as Hn.
  assert (H : forall l e k,
             Forall (fun x => (0 <= x <= 255)%Z) l -> 0 <= e <= k ->
             0 <= fold_left (fun energy x =>
                               let sample := (IZR x - 128) / 128 in
                               energy + sample * sample) l e
             <= k + IZR (Z.of_nat (List.length l))).
  { induction l as [|x l IH]; intros e k Hl He.
    - cbn. lra.
    - inversion Hl as [|? ? Hx Hl']; subst. cbn [fold_left List.length].
      apply byte_IZR in Hx.
      assert (Hs : 0 <= (IZR x - 128) / 128 * ((IZR x - 128) / 128) <= 1).
      { split; [apply Rle_0_sqr|].
        assert (-1 <= (IZR x - 128) / 128 <= 1) by (split; lra).
        nra. }
      specialize (IH (e + (IZR x - 128) / 128 * ((IZR x - 128) / 128)) (k + 1) Hl').
      rewrite Nat2Z.inj_succ, succ_IZR. cbv zeta in IH |- *. lra. }
  specialize (H timeDomainData 0 0 Hb). cbv zeta in H.
  fold (len timeDomainData) in H.
  destruct H as [H0 H1]; [lra|].
  split.
  - apply Rmult_le_pos; [exact H0 | left; now apply Rinv_0_lt_compat].
  - apply (Rmult_le_reg_r (len timeDomainData)); [exact Hn|].
    unfold Rdiv. rewrite Rmult_assoc, Rinv_l by lra. lra.
Qed.

(** *** Zero crossings *)

Lemma length_adjacent a : (List.length (adjacent a) = List.length a - 1)%nat.
Proof.
  induction a as [|x [|y a] IH]; [reflexivity | reflexivity |].
  change (adjacent (x :: y :: a)) with ((x, y) :: adjacent (y :: a)).
  cbn [List.length] in *. lia.
Qed.

Lemma calculateZeroCrossingRate_range timeDomainData :
  timeDomainData <> [] ->
  0 <= calculateZeroCrossingRate timeDomainData < 1.
Proof.
  intros Hne. unfold calculateZeroCrossingRate.
  pose proof (len_pos _ Hne) as Hn.
  assert (H : forall (l : list (Z * Z)) c,
             0 <= c ->
             c <= fold_left (fun crossings '(prev, cur) =>
                               if ((prev - 128) * (cur - 128) <? 0)%Z
                               then crossings + 1 else crossings) l c
             <= c + IZR (Z.of_nat (List.length l))).
  { induction l as [|[p q] l IH]; intros c Hc.
    - cbn. lra.
    - cbn [fold_left List.length]. rewrite Nat2Z.inj_succ, succ_IZR.
      destruct ((p - 128) * (q - 128) <? 0)%Z.
      + specialize (IH (c + 1)). lra.
      + specialize (IH c). lra. }
  specialize (H (adjacent timeDomainData) 0). cbv zeta in H.
  destruct H as [H0 H1]; [lra|].
  rewrite length_adjacent in H1.
  assert (Hlen : IZR (Z.of_nat (List.length timeDomainData - 1)) = len timeDomainData - 1).
  { unfold len. rewrite <- minus_IZR. f_equal.
    destruct timeDomainData; [contradiction | cbn [List.length]; lia]. }
  rewrite Hlen in H1.
  split.
  - apply Rmult_le_pos; [exact H0 | left; now apply Rinv_0_lt_compat].
  - apply (Rmult_lt_reg_r (len timeDomainData)); [exact Hn|].
    unfold Rdiv. rewrite Rmult_assoc, Rinv_l by lra. lra.
Qed.

(** *** The features read from the spectrum *)

Lemma In_range i lo hi : In i (range lo hi) -> (lo <= i < hi)%Z.
Proof.
  unfold range. rewrite in_map_iff. intros (k & <- & Hk).
  apply in_seq in Hk. lia.
Qed.

Lemma indexed_bounds frequencyData :
  bytes frequencyData ->
  Forall (fun p => (0 <= fst p < Z.of_nat (List.length frequencyData))%Z
                   /\ (0 <= snd p <= 255)%Z)
         (indexed frequencyData).
Proof.
  intros Hb. apply Forall_forall. intros [i x] Hin. unfold indexed in Hin. cbn [fst snd].
  split.
  - apply in_combine_l in Hin. apply In_range in Hin. lia.
  - apply in_combine_r in Hin. unfold bytes in Hb. rewrite Forall_forall in Hb. now apply Hb.
Qed.

Lemma bin_frequency_range sampleRate frequencyData i :
  0 <= sampleRate ->
  (0 <= i < Z.of_nat (List.length frequencyData))%Z ->
  0 <= IZR i * (sampleRate / 2) / len frequencyData <= sampleRate / 2.
Proof.
  intros Hsr [H0 H1]. unfold len.
  set (n := IZR (Z.of_nat (List.length frequencyData))).
  assert (Hi : 0 <= IZR i) by now apply IZR_le.
  assert (Hin : IZR i < n) by now apply IZR_lt.
  assert (Hn : 0 < n) by lra.
  split.
  - apply Rmult_le_pos; [apply Rmult_le_pos; lra | left; now apply Rinv_0_lt_compat].
  - apply (Rmult_le_reg_r n); [exact Hn|].
    unfold Rdiv at 1. rewrite Rmult_assoc, Rinv_l by lra. nra.
Qed.

Lemma calculateVoicedRatio_range sampleRate frequencyData :
  bytes frequencyData ->
  0 <= calculateVoicedRatio sampleRate frequencyData <= 1.
Proof.
  intros Hb. unfold calculateVoicedRatio.
  match goal with |- context [fold_left ?g _ _] => set (f := g) end.
  assert (H : (fun acc : R * R => 0 <= fst acc <= snd acc)
                (fold_left f (indexed frequencyData) (0, 0))).
  { apply (fold_left_invariant (fun acc : R * R => 0 <= fst acc <= snd acc)
             (fun p : Z * Z => (0 <= fst p < Z.of_nat (List.length frequencyData))%Z
                               /\ (0 <= snd p <= 255)%Z)).
    - intros [h t] [i x] Ha [_ Hx]. cbn [fst snd] in *. apply byte_IZR in Hx.
      unfold f. destruct (geb _ 100 && leb _ 1000); cbn [fst snd]; lra.
    - now apply indexed_bounds.
    - cbn. lra. }
  cbv beta in H. destruct (fold_left f (indexed frequencyData) (0, 0)) as [h t].
  cbn [fst snd] in H.
  destruct (gtb t 0) eqn:E; [|lra].
  apply gtb_true in E. split.
  - apply Rmult_le_pos; [lra | left; apply Rinv_0_lt_compat; lra].
  - apply (Rmult_le_reg_r t); [lra|].
    unfold Rdiv. rewrite Rmult_assoc, Rinv_l by lra. lra.
Qed.

Lemma calculateSpectralCentroid_range sampleRate frequencyData :
  bytes frequencyData -> 0 <= sampleRate ->
  0 <= calculateSpectralCentroid sampleRate frequencyData <= sampleRate / 2.
Proof.
  intros Hb Hsr. unfold calculateSpectralCentroid.
  match goal with |- context [fold_left ?g _ _] => set (f := g) end.
  assert (H : (fun acc : R * R => 0 <= fst acc <= sampleRate / 2 * snd acc /\ 0 <= snd acc)
                (fold_left f (indexed frequencyData) (0, 0))).
  { apply (fold_left_invariant
             (fun acc : R * R => 0 <= fst acc <= sampleRate / 2 * snd acc /\ 0 <= snd acc)
             (fun p : Z * Z => (0 <= fst p < Z.of_nat (List.length frequencyData))%Z
                               /\ (0 <= snd p <= 255)%Z)).
    - intros [num den] [i x] Ha [Hi Hx]. cbn [fst snd] in *. apply byte_IZR in Hx.
      pose proof (bin_frequency_range sampleRate frequencyData i Hsr Hi) as Hf.
      unfold f. cbn [fst snd].
      set (freq := IZR i * (sampleRate / 2) / len frequencyData) in *. nra.
    - now apply indexed_bounds.
    - cbn. lra. }
  cbv beta in H. destruct (fold_left f (indexed frequencyData) (0, 0)) as [num den].
  cbn [fst snd] in H.
  destruct (gtb den 0) eqn:E; [|lra].
  apply gtb_true in E. split.
  - apply Rmult_le_pos; [lra | left; apply Rinv_0_lt_compat; lra].
  - apply (Rmult_le_reg_r den); [lra|].
    unfold Rdiv. rewrite Rmult_assoc, Rinv_l by lra. lra.
Qed.

Lemma calculateSpectralRolloff_range sampleRate frequencyData :
  bytes frequencyData -> 0 <= sampleRate ->
  0 <= calculateSpectralRolloff sampleRate frequencyData <= sampleRate / 2.
Proof.
  intros Hb Hsr. unfold calculateSpectralRolloff.
  pose proof (indexed_bounds frequencyData Hb) as Hall.
  assert (H : forall l c threshold,
             Forall (fun p => (0 <= fst p < Z.of_nat (List.length frequencyData))%Z
                              /\ (0 <= snd p <= 255)%Z) l ->
             0 <= rolloffLoop sampleRate (len frequencyData) threshold c l
             <= sampleRate / 2).
  { induction l as [|[i x] l IH]; intros c threshold Hl.
    - cbn. lra.
    - inversion Hl as [|? ? [Hi _] Hl']; subst. cbn [rolloffLoop]. cbn [fst] in Hi.
      destruct (geb (c + IZR x) threshold); [|now apply IH].
      apply (bin_frequency_range sampleRate frequencyData i Hsr Hi). }
  now apply H.
Qed.

Lemma Math_sqrt_nonneg x : 0 <= Math_sqrt x.
Proof. unfold Math_sqrt. apply sqrt_pos. Qed.

Lemma bandSum_nonneg frequencyData lo hi :
  bytes frequencyData -> 0 <= bandSum frequencyData lo hi.
Proof.
  intros Hb. unfold bandSum.
  apply (fold_left_invariant (fun sum => 0 <= sum) (fun _ : Z => True)).
  - intros sum i Hs _. unfold get.
    destruct (i <? 0)%Z; [lra|].
    destruct (nth_error frequencyData (Z.to_nat i)) as [x|] eqn:E; [|lra].
    apply nth_error_In in E. unfold bytes in Hb. rewrite Forall_forall in Hb.
    apply Hb, byte_IZR in E. lra.
  - apply Forall_forall. auto.
  - lra.
Qed.

Lemma calculateMFCC_range frequencyData :
  bytes frequencyData ->
  List.length (calculateMFCC frequencyData) = 13%nat
  /\ Forall (fun c => 0 <= c) (calculateMFCC frequencyData).
Proof.
  intros Hb. unfold calculateMFCC. split; [reflexivity|].
  apply Forall_forall. intros c Hc. apply in_map_iff in Hc as (m & <- & _).
  pose proof (bandSum_nonneg frequencyData
                (Math_floor (IZR m * len frequencyData / 13))
                (Math_floor (IZR (m + 1) * len frequencyData / 13)) Hb) as Hs.
  unfold Math_log. rewrite <- ln_1. 
  destruct (Req_dec (bandSum frequencyData
                (Math_floor (IZR m * len frequencyData / 13))
                (Math_floor (IZR (m + 1) * len frequencyData / 13))) 0) as [-> | Hne].
  - rewrite Rplus_0_l. lra.
  - left. apply ln_increasing; lra.
Qed.

(** X21. the features of a frame of bytes lie in their ranges.  For a frame
    that the analyser has filled with bytes, at a sample rate above 0, the
    energy and the voiced ratio lie in [0, 1], the zero-crossing rate in
    [0, 1), the spectral centroid and the rolloff between 0 and half the
    sample rate, the spectral flux is not negative, and there are three
    formants and thirteen cepstral coefficients, none negative. *)
Theorem extractFeatures_ranges :
  forall (sampleRate : R) (env : Env) (transcript : string),
    bytes (frequencyData env) ->
    bytes (timeDomainData env) ->
    timeDomainData env <> [] ->
    0 < sampleRate ->
    let f := extractFeatures sampleRate env transcript in
    0 <= FeatureVector.energy f <= 1
    /\ 0 <= FeatureVector.zeroCrossingRate f < 1
    /\ 0 <= FeatureVector.voicedRatio f <= 1
    /\ 0 <= FeatureVector.spectralCentroid f <= sampleRate / 2
    /\ 0 <= FeatureVector.spectralRolloff f <= sampleRate / 2
    /\ 0 <= FeatureVector.spectralFlux f
    /\ List.length (FeatureVector.formants f) = 3%nat
    /\ List.length (FeatureVector.mfcc f) = 13%nat
    /\ Forall (fun c => 0 <= c) (FeatureVector.mfcc f).
Proof.
  intros sr env transcript Hf Ht Hne Hsr f. subst f. unfold extractFeatures.
  cbn [FeatureVector.energy FeatureVector.zeroCrossingRate FeatureVector.voicedRatio
       FeatureVector.spectralCentroid FeatureVector.spectralRolloff
       FeatureVector.spectralFlux FeatureVector.formants FeatureVector.mfcc].
  split; [now apply calculateEnergy_range|].
  split; [now apply calculateZeroCrossingRate_range|].
  split; [now apply calculateVoicedRatio_range|].
  split; [apply calculateSpectralCentroid_range; [assumption | lra]|].
  split; [apply calculateSpectralRolloff_range; [assumption | lra]|].
  split; [apply Math_sqrt_nonneg|].
  split; [reflexivity|].
  now apply calculateMFCC_range.
Qed.

End FeatureRanges.

Lemma extractFeatures_ranges_witness :
  let f := extractFeatures 48000 silence "youtube" in
  bytes (frequencyData silence)
  /\ 0 <= FeatureVector.energy f <= 1
  /\ 0 <= FeatureVector.spectralCentroid f <= 48000 / 2.
Proof.
  intros f.
  assert (Hf : bytes (frequencyData silence))
    by (apply Forall_forall; intros x Hx; apply repeat_spec in Hx; subst x; lia).
  assert (Ht : bytes (timeDomainData silence))
    by (apply Forall_forall; intros x Hx; apply repeat_spec in Hx; subst x; lia).
  assert (Hne : timeDomainData silence <> []) by discriminate.
  assert (Hsr : 0 < 48000) by lra.
  destruct (extractFeatures_ranges 48000 silence "youtube" Hf Ht Hne Hsr)
    as (He & _ & _ & Hc & _).
  split; [exact Hf|]. split; [exact He | exact Hc].
Defined.

(** ** Cleaning a transcript *)

Section TranscriptCleanup.

Import JS JSFacts JSString Transcript.








End TranscriptCleanup.
